(** * Metric aggregation of the self-healing cache chart scripts

    A shallow embedding of the aggregation code of [visualize_metrics.py],
    [generate_thesis_charts.py] and [generate_better_charts.py]: the loader,
    the order of the chart calls in [main], and the arithmetic each chart
    derives from a parsed experiment record (sums, means, percentage
    improvements, mean time to recovery, area under the latency curve).
    Drawing is delegated by the scripts to matplotlib: a chart function is
    represented by the numbers it hands to the plotting calls, and of
    matplotlib only the length check of [ax.bar] is modelled, where the
    lists a function draws can differ in length.

    Modelling choices.
    - A parsed JSON object is a record whose fields are [option]s: [None] is
      an absent key.  [d['k']] is [getitem], which raises [KeyError] on an
      absent key; [d.get('k', default)] is [dict_get].  Values that are
      present have the type the schema of the experiment record gives them.
    - A dict that is iterated ([scenarios.items()]) is an association list in
      insertion order.
    - Python integers are [Z].  Python floats are kept abstract behind the
      class [PyFloat], with two instances: [binary64] (the IEEE-754 doubles
      Python and numpy compute with, Rocq's primitive floats) and [exact]
      (the rationals, arithmetic without rounding).  What depends only on
      comparisons and on integers is proved for every instance; bounds and
      equalities on computed means and areas are proved for [exact] and
      evaluated on [binary64]; the sign of a mean is proved for [binary64]
      from the IEEE-754 description of the primitive operations.
    - Exceptions are explicit: a function that can raise returns a [result]. *)

From Stdlib Require Import ZArith QArith Qminmax List String Ascii Bool Lia Lqa.
From Stdlib Require Import Floats.
From Stdlib Require Uint63.
Import ListNotations.

Set Implicit Arguments.

Local Open Scope string_scope.
Local Open Scope Z_scope.

(** ** Exceptions *)

Inductive exn : Type :=
| KeyError (key : string)
| ZeroDivisionError
| ValueError
| JSONDecodeError
| OtherException (what : string)
| KeyboardInterrupt.

(** [isinstance(e, Exception)]: what [except Exception] catches.
    [KeyboardInterrupt] derives from [BaseException] only. *)
Definition is_Exception (e : exn) : bool :=
  match e with
  | KeyboardInterrupt => false
  | _ => true
  end.

Inductive result (A : Type) : Type :=
| Ok (a : A)
| Raise (e : exn).

Arguments Ok {A} a.
Arguments Raise {A} e.

Definition bind {A B : Type} (m : result A) (k : A -> result B) : result B :=
  match m with
  | Ok a => k a
  | Raise e => Raise e
  end.

Notation "x <- m ;; k" := (bind m (fun x => k))
  (at level 61, m at next level, right associativity).

(** A list comprehension whose body can raise: left to right, the first
    exception wins. *)
Fixpoint mapM {A B : Type} (f : A -> result B) (l : list A) : result (list B) :=
  match l with
  | [] => Ok []
  | a :: l' => b <- f a ;; bs <- mapM f l' ;; Ok (b :: bs)
  end.

(** [d[key]] *)
Definition getitem {A : Type} (key : string) (field : option A) : result A :=
  match field with
  | Some a => Ok a
  | None => Raise (KeyError key)
  end.

(** [d.get(key, default)] *)
Definition dict_get {A : Type} (field : option A) (default : A) : A :=
  match field with
  | Some a => a
  | None => default
  end.

(** [not l] for a list *)
Definition is_empty {A : Type} (l : list A) : bool :=
  match l with
  | [] => true
  | _ :: _ => false
  end.

(** ** Floating-point numbers *)

Class PyFloat (F : Type) : Type := {
  of_int : Z -> F;
  fadd : F -> F -> F;
  fsub : F -> F -> F;
  fmul : F -> F -> F;
  fdiv : F -> F -> F;
  feqb : F -> F -> bool;
  flt : F -> F -> bool;
  fle : F -> F -> bool
}.

(** Conversion of an integer below 2^63 in absolute value to a double,
    rounding to nearest (exact below 2^53). *)
Definition float_of_Z (z : Z) : float :=
  match z with
  | Z0 => PrimFloat.of_uint63 (Uint63.of_Z 0)
  | Zpos _ => PrimFloat.of_uint63 (Uint63.of_Z z)
  | Zneg p => PrimFloat.opp (PrimFloat.of_uint63 (Uint63.of_Z (Zpos p)))
  end.

#[export] Instance binary64 : PyFloat float := {|
  of_int := float_of_Z;
  fadd := PrimFloat.add;
  fsub := PrimFloat.sub;
  fmul := PrimFloat.mul;
  fdiv := PrimFloat.div;
  feqb := PrimFloat.eqb;
  flt := PrimFloat.ltb;
  fle := PrimFloat.leb
|}.

#[export] Instance exact : PyFloat Q := {|
  of_int := inject_Z;
  fadd := Qplus;
  fsub := Qminus;
  fmul := Qmult;
  fdiv := Qdiv;
  feqb := Qeq_bool;
  flt := fun x y => negb (Qle_bool y x);
  fle := Qle_bool
|}.

Section Aggregates.

Context {F : Type} `{PyFloat F}.

(** The value of a decimal literal [n / d] with [d] a power of ten: in
    [binary64] the correctly rounded quotient, which is the double the
    literal denotes; in [exact] the fraction itself. *)
Definition dec (n d : Z) : F := fdiv (of_int n) (of_int d).

(** [x >= y] *)
Definition fge (x y : F) : bool := fle y x.

(** [x > y] *)
Definition fgt (x y : F) : bool := flt y x.

(** [np.sum]: accumulation from the additive identity, left to right.
    numpy switches to a blocked pairwise order from eight elements on,
    which gives the same value in exact arithmetic. *)
Definition np_sum (xs : list F) : F := fold_left fadd xs (of_int 0).

(** [np.mean(xs)]: the sum divided by the number of elements. *)
Definition np_mean (xs : list F) : F :=
  fdiv (np_sum xs) (of_int (Z.of_nat (List.length xs))).

(** [min(xs)] and [max(xs)] of a non-empty list. *)
Definition fmin (x y : F) : F := if flt y x then y else x.
Definition fmax (x y : F) : F := if flt x y then y else x.

Definition py_min (xs : list F) : F :=
  match xs with
  | [] => of_int 0
  | x :: xs' => fold_left fmin xs' x
  end.

Definition py_max (xs : list F) : F :=
  match xs with
  | [] => of_int 0
  | x :: xs' => fold_left fmax xs' x
  end.

(** [np.trapz(y, x)] for an integer abscissa:
    [(diff(x) * (y[1:] + y[:-1]) / 2.0).sum()]. *)
Fixpoint trapz_terms (y : list F) (x : list Z) : list F :=
  match y, x with
  | y0 :: ((y1 :: _) as y'), x0 :: ((x1 :: _) as x') =>
      fdiv (fmul (of_int (x1 - x0)) (fadd y1 y0)) (of_int 2)
        :: trapz_terms y' x'
  | _, _ => []
  end.

Definition np_trapz (y : list F) (x : list Z) : F := np_sum (trapz_terms y x).

End Aggregates.

(** ** The experiment record

    One module per JSON object of the schema, so that the keys keep their
    names ([Point.hitRate] and [Variant.hitRate] are different keys). *)

Module Point.
Record t (F : Type) : Type := make {
  requestNumber : option Z;
  hitRate : option F;
  successRate : option F;
  avgLatency : option F
}.
End Point.

Module Accuracy.
Record t (F : Type) : Type := make {
  precision : option F;
  recall : option F;
  f1Score : option F;
  totalPredictions : option Z
}.

(** The empty dict [{}]. *)
Definition empty (F : Type) : t F := make None None None None.

(** Truth value of the dict: it has a key. *)
Definition truthy {F : Type} (d : t F) : bool :=
  match precision d, recall d, f1Score d, totalPredictions d with
  | None, None, None, None => false
  | _, _, _, _ => true
  end.
End Accuracy.

Module Variant.
Record t (F : Type) : Type := make {
  totalRequests : option Z;
  failedRequests : option Z;
  successRate : option F;
  hitRate : option F;
  avgResponseTime : option F;
  throughput : option F;
  predictionAccuracy : option (Accuracy.t F);
  timeSeries : option (list (Point.t F))
}.

Definition empty (F : Type) : t F :=
  make None None None None None None None None.
End Variant.

Module Delta.
(** [vsBaseline] and [vsNoML] of one improvement entry. *)
Record t (F : Type) : Type := make {
  vsBaseline : option F;
  vsNoML : option F
}.

Definition empty (F : Type) : t F := make None None.
End Delta.

Module Improvements.
Record t (F : Type) : Type := make {
  successRateImprovement : option (Delta.t F);
  responseTimeImprovement : option (Delta.t F)
}.

Definition empty (F : Type) : t F := make None None.
End Improvements.

Module Significance.
Record t : Type := make {
  successRateSignificant : option bool;
  hitRateSignificant : option bool;
  responseTimeSignificant : option bool
}.

Definition empty : t := make None None None.
End Significance.

Module Scenario.
Record t (F : Type) : Type := make {
  baseline : option (Variant.t F);
  selfHealing : option (Variant.t F);
  selfHealingML : option (Variant.t F);
  improvements : option (Improvements.t F);
  statisticalSignificance : option Significance.t
}.
End Scenario.

(** [scenarios]: scenario name to scenario result, in file order. *)
Definition scenarios_t (F : Type) : Type := list (string * Scenario.t F).

Module Experiment.
Record t (F : Type) : Type := make {
  scenarios : option (scenarios_t F)
}.
End Experiment.

(** A sample point with the two keys the recovery scan reads. *)
Definition sample {F : Type} (req_num : Z) (hit_rate : F) : Point.t F :=
  Point.make (Some req_num) (Some hit_rate) None None.

(** ** Mean time to recovery ([calculate_mttr] in [create_mttr_comparison]) *)

Record mttr_state : Type := {
  failure_start : option Z;
  recovery_times : list Z
}.

Definition is_None {A : Type} (o : option A) : bool :=
  match o with
  | None => true
  | Some _ => false
  end.

Section Mttr.

Context {F : Type} `{PyFloat F}.

(** The literals [0.90] and [0.95]. *)
Definition failure_threshold : F := dec 90 100.
Definition recovery_threshold : F := dec 95 100.

(** One iteration of the [for] loop: the [if] / [elif] on the point. *)
Definition mttr_step (st : mttr_state) (point : Point.t F) : result mttr_state :=
  hit_rate <- getitem "hitRate" (Point.hitRate point) ;;
  req_num <- getitem "requestNumber" (Point.requestNumber point) ;;
  if flt hit_rate failure_threshold && is_None (failure_start st) then
    Ok {| failure_start := Some req_num;
          recovery_times := recovery_times st |}
  else
    match failure_start st with
    | Some start =>
        if fge hit_rate recovery_threshold then
          Ok {| failure_start := None;
                recovery_times := recovery_times st ++ [req_num - start] |}
        else Ok st
    | None => Ok st
    end.

Fixpoint mttr_loop (st : mttr_state) (timeseries : list (Point.t F))
  : result mttr_state :=
  match timeseries with
  | [] => Ok st
  | point :: rest => st' <- mttr_step st point ;; mttr_loop st' rest
  end.

(** [np.mean(recovery_times) if recovery_times else 0]; numpy averages the
    integers in double precision. *)
Definition mean_or_zero (times : list Z) : F :=
  if is_empty times then of_int 0 else np_mean (map of_int times).

Definition calculate_mttr (timeseries : list (Point.t F)) : result F :=
  st <- mttr_loop {| failure_start := None; recovery_times := [] |} timeseries ;;
  Ok (mean_or_zero (recovery_times st)).

(** *** The scan as the specification words it

    Two modes.  With no window open, points are passed over until one has a
    hit rate below 0.90, which opens a window at its request number.  With
    a window open, points are passed over until the first one whose hit
    rate is at least 0.95, which closes the window and yields one sample,
    the distance in requests between the two points. *)
Definition below_failure (hit_rate : F) : bool := flt hit_rate failure_threshold.
Definition recovered (hit_rate : F) : bool := fge hit_rate recovery_threshold.

Fixpoint samples_closed (series : list (Z * F)) : list Z :=
  match series with
  | [] => []
  | (req, hr) :: rest =>
      if below_failure hr then samples_open req rest else samples_closed rest
  end
with samples_open (opened : Z) (series : list (Z * F)) : list Z :=
  match series with
  | [] => []
  | (req, hr) :: rest =>
      if recovered hr then (req - opened) :: samples_closed rest
      else samples_open opened rest
  end.

(** The arithmetic mean of integer samples, 0 when there is none. *)
Definition arithmetic_mean (samples : list Z) : F :=
  match samples with
  | [] => of_int 0
  | _ :: _ =>
      fdiv (fold_left fadd (map of_int samples) (of_int 0))
           (of_int (Z.of_nat (List.length samples)))
  end.

End Mttr.

(** ** Strings *)

Definition newline : ascii := ascii_of_nat 10.
Definition underscore : ascii := ascii_of_nat 95.
Definition space : ascii := ascii_of_nat 32.

(** [s.replace(old, new)] for one-character [old] and [new]. *)
Fixpoint replace_char (old new : ascii) (s : string) : string :=
  match s with
  | EmptyString => EmptyString
  | String c s' =>
      String (if Ascii.eqb c old then new else c) (replace_char old new s')
  end.

Definition is_lower (c : ascii) : bool :=
  (97 <=? nat_of_ascii c)%nat && (nat_of_ascii c <=? 122)%nat.

Definition is_upper (c : ascii) : bool :=
  (65 <=? nat_of_ascii c)%nat && (nat_of_ascii c <=? 90)%nat.

(** [s.title()] on ASCII text: a letter that follows a letter is lowered, a
    letter that does not is raised.  A character outside ASCII is kept as
    it is, where Python applies the Unicode case mappings: the embedding is
    that of [str.title] on names for which [isascii] holds. *)
Fixpoint title_from (previous_is_cased : bool) (s : string) : string :=
  match s with
  | EmptyString => EmptyString
  | String c s' =>
      if is_lower c then
        String (if previous_is_cased then c
                else ascii_of_nat (nat_of_ascii c - 32))
               (title_from true s')
      else if is_upper c then
        String (if previous_is_cased then ascii_of_nat (nat_of_ascii c + 32)
                else c)
               (title_from true s')
      else String c (title_from false s')
  end.

Definition title (s : string) : string := title_from false s.

(** [key in d] and [d[key]] on a dict kept in insertion order. *)
Fixpoint lookup {A : Type} (key : string) (d : list (string * A)) : option A :=
  match d with
  | [] => None
  | (k, v) :: d' => if String.eqb k key then Some v else lookup key d'
  end.

(** ** The time-series charts of [visualize_metrics.py] *)

Section TimeSeriesCharts.

Context {F : Type} `{PyFloat F}.

(** [scenario.get(variant, {}).get('timeSeries', [])] *)
Definition time_series_of (variant : option (Variant.t F)) : list (Point.t F) :=
  dict_get (Variant.timeSeries (dict_get variant (Variant.empty F))) [].

(** [not baseline_ts or not self_healing_ts or not ml_ts] *)
Definition lacks_time_series (scenario : Scenario.t F) : bool :=
  is_empty (time_series_of (Scenario.baseline scenario))
  || is_empty (time_series_of (Scenario.selfHealing scenario))
  || is_empty (time_series_of (Scenario.selfHealingML scenario)).

(** *** [create_mttr_comparison] *)

Record mttr_bar : Type := {
  mttr_label : string;
  baseline_mttr : F;
  sh_mttr : F;
  ml_mttr : F
}.

Fixpoint mttr_bars (scenarios : scenarios_t F) : result (list mttr_bar) :=
  match scenarios with
  | [] => Ok []
  | (scenario_name, scenario) :: rest =>
      if lacks_time_series scenario then mttr_bars rest
      else
        baseline_mttr_val <-
          calculate_mttr (time_series_of (Scenario.baseline scenario)) ;;
        sh_mttr_val <-
          calculate_mttr (time_series_of (Scenario.selfHealing scenario)) ;;
        ml_mttr_val <-
          calculate_mttr (time_series_of (Scenario.selfHealingML scenario)) ;;
        bars <- mttr_bars rest ;;
        if fgt baseline_mttr_val (of_int 0) || fgt sh_mttr_val (of_int 0)
           || fgt ml_mttr_val (of_int 0)
        then Ok ({| mttr_label := replace_char underscore newline scenario_name;
                    baseline_mttr := baseline_mttr_val;
                    sh_mttr := sh_mttr_val;
                    ml_mttr := ml_mttr_val |} :: bars)
        else Ok bars
  end.

(** The bars of the chart; [None] when there is none and the function
    prints that no MTTR data is available and returns. *)
Definition create_mttr_comparison (data : Experiment.t F)
  : result (option (list mttr_bar)) :=
  bars <- mttr_bars (dict_get (Experiment.scenarios data) []) ;;
  if is_empty bars then Ok None else Ok (Some bars).

(** *** [create_recovery_curves] *)

Definition stress_scenarios : list string :=
  ["cascading_failure"; "gradual_degradation"; "recovery_stress_test";
   "cache_corruption"].

Record curve : Type := {
  reqs : list Z;
  hitrate : list F;
  successrate : list F
}.

Record recovery_chart : Type := {
  filename : string;
  baseline_curve : curve;
  sh_curve : curve;
  ml_curve : curve
}.

Definition request_numbers (ts : list (Point.t F)) : result (list Z) :=
  mapM (fun p => getitem "requestNumber" (Point.requestNumber p)) ts.

Definition percent (field : option F) (key : string) : result F :=
  x <- getitem key field ;; Ok (fmul x (of_int 100)).

Definition curve_of (ts : list (Point.t F)) : result curve :=
  rs <- request_numbers ts ;;
  hs <- mapM (fun p => percent (Point.hitRate p) "hitRate") ts ;;
  ss <- mapM (fun p => percent (Point.successRate p) "successRate") ts ;;
  Ok {| reqs := rs; hitrate := hs; successrate := ss |}.

(** The body of the loop for one scenario name: [None] on [continue]. *)
Definition recovery_chart_for (scenarios : scenarios_t F) (scenario_name : string)
  : result (option recovery_chart) :=
  match lookup scenario_name scenarios with
  | None => Ok None
  | Some scenario =>
      if lacks_time_series scenario then Ok None
      else
        b <- curve_of (time_series_of (Scenario.baseline scenario)) ;;
        s <- curve_of (time_series_of (Scenario.selfHealing scenario)) ;;
        m <- curve_of (time_series_of (Scenario.selfHealingML scenario)) ;;
        Ok (Some {| filename := "charts/recovery_curve_" ++ scenario_name ++ ".png";
                    baseline_curve := b; sh_curve := s; ml_curve := m |})
  end.

Fixpoint recovery_charts (scenarios : scenarios_t F) (names : list string)
  : result (list recovery_chart) :=
  match names with
  | [] => Ok []
  | scenario_name :: rest =>
      chart <- recovery_chart_for scenarios scenario_name ;;
      charts <- recovery_charts scenarios rest ;;
      match chart with
      | Some c => Ok (c :: charts)
      | None => Ok charts
      end
  end.

(** The charts written when the function returns. *)
Definition create_recovery_curves (data : Experiment.t F)
  : result (list recovery_chart) :=
  recovery_charts (dict_get (Experiment.scenarios data) []) stress_scenarios.

(** *** [create_latency_area_under_curve] *)

Definition key_scenarios : list string :=
  ["cascading_failure"; "gradual_degradation"; "high_failure";
   "recovery_stress_test"].

(** The request numbers and latencies of one series, and [np.trapz] of the
    latencies over the request numbers. *)
Definition latency_auc (ts : list (Point.t F)) : result F :=
  rs <- request_numbers ts ;;
  latency <- mapM (fun p => getitem "avgLatency" (Point.avgLatency p)) ts ;;
  Ok (np_trapz latency rs).

Record auc_panel : Type := {
  panel_name : string;
  baseline_auc : F;
  sh_auc : F;
  ml_auc : F
}.

Definition auc_panel_for (scenarios : scenarios_t F) (scenario_name : string)
  : result (option auc_panel) :=
  match lookup scenario_name scenarios with
  | None => Ok None
  | Some scenario =>
      if lacks_time_series scenario then Ok None
      else
        b <- latency_auc (time_series_of (Scenario.baseline scenario)) ;;
        s <- latency_auc (time_series_of (Scenario.selfHealing scenario)) ;;
        m <- latency_auc (time_series_of (Scenario.selfHealingML scenario)) ;;
        Ok (Some {| panel_name := scenario_name;
                    baseline_auc := b; sh_auc := s; ml_auc := m |})
  end.

Fixpoint auc_panels (scenarios : scenarios_t F) (names : list string)
  : result (list auc_panel) :=
  match names with
  | [] => Ok []
  | scenario_name :: rest =>
      panel <- auc_panel_for scenarios scenario_name ;;
      panels <- auc_panels scenarios rest ;;
      match panel with
      | Some p => Ok (p :: panels)
      | None => Ok panels
      end
  end.

Definition create_latency_area_under_curve (data : Experiment.t F)
  : result (list auc_panel) :=
  auc_panels (dict_get (Experiment.scenarios data) []) key_scenarios.

(** *** [create_ml_learning_curves]

    The four lists of the first panel: filled only for a scenario whose
    [pred_acc] is a non-empty dict. *)

Record accuracy_lists : Type := {
  f1_scores : list F;
  precisions : list F;
  recalls : list F;
  total_preds : list Z
}.

(** [scenarios[name].get('selfHealingML', {}).get('predictionAccuracy', {})] *)
Definition pred_acc_of (scenario : Scenario.t F) : Accuracy.t F :=
  dict_get
    (Variant.predictionAccuracy
       (dict_get (Scenario.selfHealingML scenario) (Variant.empty F)))
    (Accuracy.empty F).

Fixpoint accuracy_metrics (scenarios : scenarios_t F) : accuracy_lists :=
  match scenarios with
  | [] => {| f1_scores := []; precisions := []; recalls := []; total_preds := [] |}
  | (_, scenario) :: rest =>
      let pred_acc := pred_acc_of scenario in
      let acc := accuracy_metrics rest in
      if Accuracy.truthy pred_acc then
        {| f1_scores :=
             fmul (dict_get (Accuracy.f1Score pred_acc) (of_int 0)) (of_int 100)
               :: f1_scores acc;
           precisions :=
             fmul (dict_get (Accuracy.precision pred_acc) (of_int 0)) (of_int 100)
               :: precisions acc;
           recalls :=
             fmul (dict_get (Accuracy.recall pred_acc) (of_int 0)) (of_int 100)
               :: recalls acc;
           total_preds :=
             dict_get (Accuracy.totalPredictions pred_acc) 0 :: total_preds acc |}
      else acc
  end.

(** The second and third panels: one entry per scenario, 0 for an absent
    key. *)
Definition improvement_bars
  (entry : Improvements.t F -> option (Delta.t F)) (scenarios : scenarios_t F)
  : list F * list F :=
  let delta (s : string * Scenario.t F) :=
    dict_get
      (entry (dict_get (Scenario.improvements (snd s)) (Improvements.empty F)))
      (Delta.empty F) in
  (map (fun s => dict_get (Delta.vsBaseline (delta s)) (of_int 0)) scenarios,
   map (fun s => dict_get (Delta.vsNoML (delta s)) (of_int 0)) scenarios).

(** The fourth panel: [1 if stat_sig.get(key, False) else 0] per metric. *)
Definition significance_bars (scenarios : scenarios_t F) : list (Z * Z * Z) :=
  map (fun s : string * Scenario.t F =>
         let stat_sig :=
           dict_get (Scenario.statisticalSignificance (snd s)) Significance.empty in
         let flag (b : option bool) := if dict_get b false then 1 else 0 in
         (flag (Significance.successRateSignificant stat_sig),
          flag (Significance.hitRateSignificant stat_sig),
          flag (Significance.responseTimeSignificant stat_sig)))
      scenarios.

Record learning_curves : Type := {
  accuracy_panel : accuracy_lists;
  success_rate_panel : list F * list F;
  response_time_panel : list F * list F;
  significance_panel : list (Z * Z * Z)
}.

(** [ax.bar(x, height, ...)] with [x] an array of [positions] numbers and
    [height] a list: matplotlib broadcasts the two against each other
    ([np.broadcast_arrays]) and raises [ValueError] when their lengths
    differ and neither is 1. *)
Definition broadcastable (n k : nat) : bool :=
  (n =? k)%nat || (n =? 1)%nat || (k =? 1)%nat.

Definition bar {A : Type} (positions : nat) (height : list A) : result unit :=
  if broadcastable positions (List.length height) then Ok tt
  else Raise ValueError.

(** [np.array(sig_data).T]: the three rows that the fourth panel draws. *)
Definition significance_rows (sig_data : list (Z * Z * Z)) : list (list Z) :=
  [map (fun t => fst (fst t)) sig_data; map (fun t => snd (fst t)) sig_data;
   map snd sig_data].

(** The lists are built and drawn panel by panel, each [bar] call against
    [x = np.arange(len(scenario_names))]. *)
Definition create_ml_learning_curves (data : Experiment.t F) : result learning_curves :=
  let scenarios := dict_get (Experiment.scenarios data) [] in
  let x := List.length scenarios in
  let accuracy := accuracy_metrics scenarios in
  _ <- bar x (precisions accuracy) ;;
  _ <- bar x (recalls accuracy) ;;
  _ <- bar x (f1_scores accuracy) ;;
  let success_rate :=
    improvement_bars (@Improvements.successRateImprovement F) scenarios in
  _ <- bar x (fst success_rate) ;;
  _ <- bar x (snd success_rate) ;;
  let response_time :=
    improvement_bars (@Improvements.responseTimeImprovement F) scenarios in
  _ <- bar x (fst response_time) ;;
  _ <- bar x (snd response_time) ;;
  let sig_data := significance_bars scenarios in
  _ <- (if (0 <? x)%nat then mapM (bar x) (significance_rows sig_data)
        else Ok []) ;;
  Ok {| accuracy_panel := accuracy;
        success_rate_panel := success_rate;
        response_time_panel := response_time;
        significance_panel := sig_data |}.

(** *** [create_scenario_comparison]

    [scenarios[name][variant].get(metric, 0) * multiplier]: the variant is
    subscripted, the metric is read with a default. *)
Definition metric_value (metric : Variant.t F -> option F) (multiplier : Z)
  (variant_key : string) (variant : option (Variant.t F)) : result F :=
  v <- getitem variant_key variant ;;
  Ok (fmul (dict_get (metric v) (of_int 0)) (of_int multiplier)).

Definition metric_bars (metric : Variant.t F -> option F) (multiplier : Z)
  (scenarios : scenarios_t F) : result (list (F * F * F)) :=
  mapM (fun s : string * Scenario.t F =>
          b <- metric_value metric multiplier "baseline" (Scenario.baseline (snd s)) ;;
          sh <- metric_value metric multiplier "selfHealing"
                  (Scenario.selfHealing (snd s)) ;;
          ml <- metric_value metric multiplier "selfHealingML"
                  (Scenario.selfHealingML (snd s)) ;;
          Ok (b, sh, ml))
       scenarios.

Definition create_scenario_comparison (data : Experiment.t F)
  : result (list (list (F * F * F))) :=
  let scenarios := dict_get (Experiment.scenarios data) [] in
  mapM (fun m : (Variant.t F -> option F) * Z =>
          metric_bars (fst m) (snd m) scenarios)
       [(@Variant.successRate F, 100); (@Variant.hitRate F, 100);
        (@Variant.avgResponseTime F, 1); (@Variant.throughput F, 1)].

End TimeSeriesCharts.

(** ** The charts of [generate_thesis_charts.py] and
       [generate_better_charts.py] *)

(** A key together with the field it names, for [d[key]]. *)
Record key_of (R A : Type) : Type := {
  key_name : string;
  key_field : R -> option A
}.

Definition subscript {R A : Type} (k : key_of R A) (d : R) : result A :=
  getitem (key_name k) (key_field k d).

(** [sum(xs)] on integers. *)
Definition py_sum (xs : list Z) : Z := fold_left Z.add xs 0.

Section RealDataCharts.

Context {F : Type} `{PyFloat F}.

Definition baseline : key_of (Scenario.t F) (Variant.t F) :=
  {| key_name := "baseline"; key_field := @Scenario.baseline F |}.
Definition selfHealing : key_of (Scenario.t F) (Variant.t F) :=
  {| key_name := "selfHealing"; key_field := @Scenario.selfHealing F |}.
Definition selfHealingML : key_of (Scenario.t F) (Variant.t F) :=
  {| key_name := "selfHealingML"; key_field := @Scenario.selfHealingML F |}.

Definition failedRequests : key_of (Variant.t F) Z :=
  {| key_name := "failedRequests"; key_field := @Variant.failedRequests F |}.
Definition totalRequests : key_of (Variant.t F) Z :=
  {| key_name := "totalRequests"; key_field := @Variant.totalRequests F |}.
Definition successRate : key_of (Variant.t F) F :=
  {| key_name := "successRate"; key_field := @Variant.successRate F |}.
Definition hitRate : key_of (Variant.t F) F :=
  {| key_name := "hitRate"; key_field := @Variant.hitRate F |}.
Definition avgResponseTime : key_of (Variant.t F) F :=
  {| key_name := "avgResponseTime"; key_field := @Variant.avgResponseTime F |}.

(** [data['scenarios']] *)
Definition scenarios_of (data : Experiment.t F) : result (scenarios_t F) :=
  getitem "scenarios" (Experiment.scenarios data).

(** [s[variant][field] for s in scenarios.values()] *)
Definition field_values {A : Type} (variant : key_of (Scenario.t F) (Variant.t F))
  (field : key_of (Variant.t F) A) (scenarios : scenarios_t F) : result (list A) :=
  mapM (fun s : string * Scenario.t F =>
          v <- subscript variant (snd s) ;; subscript field v)
       scenarios.

(** Sum-reduce: [sum(s[variant][field] for s in scenarios.values())] *)
Definition sum_reduce (variant : key_of (Scenario.t F) (Variant.t F))
  (field : key_of (Variant.t F) Z) (scenarios : scenarios_t F) : result Z :=
  xs <- field_values variant field scenarios ;; Ok (py_sum xs).

(** Mean-reduce: [np.mean([s[variant][field] for s in scenarios.values()])] *)
Definition mean_reduce (variant : key_of (Scenario.t F) (Variant.t F))
  (field : key_of (Variant.t F) F) (scenarios : scenarios_t F) : result F :=
  xs <- field_values variant field scenarios ;; Ok (np_mean xs).

(** Integer true division [a / b]: the quotient of the two operands as
    doubles, which is Python's correctly rounded quotient for operands
    below 2^53 in absolute value. *)
Definition truediv (a b : Z) : result F :=
  if b =? 0 then Raise ZeroDivisionError
  else Ok (fdiv (of_int a) (of_int b)).

(** [(before - after) / before * 100], as written at the call sites that
    have no guard. *)
Definition improvement_unguarded (before after : Z) : result F :=
  q <- truediv (before - after) before ;; Ok (fmul q (of_int 100)).

(** [(before - after) / before * 100 if before > 0 else 0] *)
Definition improvement_guarded (before after : Z) : result F :=
  if 0 <? before then improvement_unguarded before after
  else Ok (of_int 0).

(** *** [create_comparison_bar_chart] *)

Record aggregated : Type := {
  agg_failedRequests : Z;
  agg_totalRequests : Z;
  agg_successRate : F;
  agg_hitRate : F;
  agg_avgResponseTime : F
}.

Definition aggregate (variant : key_of (Scenario.t F) (Variant.t F))
  (scenarios : scenarios_t F) : result aggregated :=
  failed <- sum_reduce variant failedRequests scenarios ;;
  total <- sum_reduce variant totalRequests scenarios ;;
  sr <- mean_reduce variant successRate scenarios ;;
  hr <- mean_reduce variant hitRate scenarios ;;
  rt <- mean_reduce variant avgResponseTime scenarios ;;
  Ok {| agg_failedRequests := failed; agg_totalRequests := total;
        agg_successRate := sr; agg_hitRate := hr; agg_avgResponseTime := rt |}.

(** The four bars of one variant. *)
Definition bar_values (m : aggregated) : list F :=
  [fmul (agg_successRate m) (of_int 100); fmul (agg_hitRate m) (of_int 100);
   agg_avgResponseTime m; of_int (agg_failedRequests m)].

Definition create_comparison_bar_chart (data : Experiment.t F)
  : result (list F * list F * list F) :=
  scenarios <- scenarios_of data ;;
  baseline_metrics <- aggregate baseline scenarios ;;
  sh_metrics <- aggregate selfHealing scenarios ;;
  ml_metrics <- aggregate selfHealingML scenarios ;;
  Ok (bar_values baseline_metrics, bar_values sh_metrics, bar_values ml_metrics).

(** *** [create_combined_metrics_chart] of [generate_better_charts.py] *)

Record combined_metrics : Type := {
  errors : list Z;
  success_rates : list F;
  hit_rates : list F;
  latencies : list F
}.

Definition create_combined_metrics_chart (data : Experiment.t F)
  : result combined_metrics :=
  scenarios <- scenarios_of data ;;
  total_b_errors <- sum_reduce baseline failedRequests scenarios ;;
  total_sh_errors <- sum_reduce selfHealing failedRequests scenarios ;;
  total_ml_errors <- sum_reduce selfHealingML failedRequests scenarios ;;
  avg_b_sr <- mean_reduce baseline successRate scenarios ;;
  avg_sh_sr <- mean_reduce selfHealing successRate scenarios ;;
  avg_ml_sr <- mean_reduce selfHealingML successRate scenarios ;;
  avg_b_hr <- mean_reduce baseline hitRate scenarios ;;
  avg_sh_hr <- mean_reduce selfHealing hitRate scenarios ;;
  avg_ml_hr <- mean_reduce selfHealingML hitRate scenarios ;;
  avg_b_lat <- mean_reduce baseline avgResponseTime scenarios ;;
  avg_sh_lat <- mean_reduce selfHealing avgResponseTime scenarios ;;
  avg_ml_lat <- mean_reduce selfHealingML avgResponseTime scenarios ;;
  Ok {| errors := [total_b_errors; total_sh_errors; total_ml_errors];
        success_rates := [fmul avg_b_sr (of_int 100); fmul avg_sh_sr (of_int 100);
                          fmul avg_ml_sr (of_int 100)];
        hit_rates := [fmul avg_b_hr (of_int 100); fmul avg_sh_hr (of_int 100);
                      fmul avg_ml_hr (of_int 100)];
        latencies := [avg_b_lat; avg_sh_lat; avg_ml_lat] |}.

(** *** [create_improvement_chart] of [generate_thesis_charts.py] *)

Definition create_improvement_chart (data : Experiment.t F) : result (list F) :=
  scenarios <- scenarios_of data ;;
  baseline_errors <- sum_reduce baseline failedRequests scenarios ;;
  sh_errors <- sum_reduce selfHealing failedRequests scenarios ;;
  ml_errors <- sum_reduce selfHealingML failedRequests scenarios ;;
  sh_improvement <- improvement_unguarded baseline_errors sh_errors ;;
  ml_improvement <- improvement_unguarded baseline_errors ml_errors ;;
  ml_vs_sh_improvement <- improvement_guarded sh_errors ml_errors ;;
  Ok [sh_improvement; ml_improvement; ml_vs_sh_improvement].

(** *** [create_summary_table] of [generate_thesis_charts.py]

    A row keeps the numbers that the table prints ([str(b_err)],
    [f'+{sh_imp:.1f}%']); the constant header row is left out. *)

Record table_row : Type := {
  row_name : string;
  row_baseline : Z;
  row_sh : Z;
  row_ml : Z;
  row_sh_imp : F;
  row_ml_imp : F;
  row_winner : string
}.

(** The two assignments to [winner] in the loop. *)
Definition scenario_winner (sh_err ml_err : Z) : string :=
  let winner := if ml_err <=? sh_err then "ML" else "Self-Healing" in
  if ml_err =? sh_err then "Tie" else winner.

(** The last cell of the TOTAL row. *)
Definition total_winner (total_sh total_ml : Z) : string :=
  if total_ml <=? total_sh then "ML" else "Self-Healing".

Definition scenario_row (entry : string * Scenario.t F) : result table_row :=
  let (name, scenario) := entry in
  b_err <- (v <- subscript baseline scenario ;; subscript failedRequests v) ;;
  sh_err <- (v <- subscript selfHealing scenario ;; subscript failedRequests v) ;;
  ml_err <- (v <- subscript selfHealingML scenario ;; subscript failedRequests v) ;;
  sh_imp <- improvement_guarded b_err sh_err ;;
  ml_imp <- improvement_guarded b_err ml_err ;;
  Ok {| row_name := title (replace_char underscore space name);
        row_baseline := b_err; row_sh := sh_err; row_ml := ml_err;
        row_sh_imp := sh_imp; row_ml_imp := ml_imp;
        row_winner := scenario_winner sh_err ml_err |}.

Definition total_row (scenarios : scenarios_t F) : result table_row :=
  total_b <- sum_reduce baseline failedRequests scenarios ;;
  total_sh <- sum_reduce selfHealing failedRequests scenarios ;;
  total_ml <- sum_reduce selfHealingML failedRequests scenarios ;;
  total_sh_imp <- improvement_unguarded total_b total_sh ;;
  total_ml_imp <- improvement_unguarded total_b total_ml ;;
  Ok {| row_name := "TOTAL";
        row_baseline := total_b; row_sh := total_sh; row_ml := total_ml;
        row_sh_imp := total_sh_imp; row_ml_imp := total_ml_imp;
        row_winner := total_winner total_sh total_ml |}.

Definition create_summary_table (data : Experiment.t F) : result (list table_row) :=
  scenarios <- scenarios_of data ;;
  rows <- mapM scenario_row scenarios ;;
  total <- total_row scenarios ;;
  Ok (rows ++ [total])%list.

End RealDataCharts.

(** ** [load_experiment_data] of [visualize_metrics.py] *)

Definition double_quote : ascii := ascii_of_nat 34.

(** The text [{"error"]. *)
Definition error_marker : string :=
  String "{" (String double_quote ("error" ++ String double_quote "")).

(** The files under the working directory: path to content. *)
Definition file_system : Type := string -> option string.

(** Truth value of a string: it is not empty. *)
Definition nonempty (s : string) : bool := negb (String.eqb s "").

Section Loader.

(** Parsed JSON values, the empty dict [{}], and [json.loads]
    ([json.load(f)] is [json.loads] of the text of [f]). *)
Variable J : Type.
Variable empty_dict : J.
Variable json_loads : string -> result J.

Definition load_experiment_data (fs : file_system) : result (J * J * J) :=
  experiments <-
    match fs "experiment_results/experiments.json" with
    | Some content =>
        if nonempty content && negb (String.prefix error_marker content)
        then json_loads content
        else Ok empty_dict
    | None => Ok empty_dict
    end ;;
  cache_stats <-
    match fs "experiment_results/cache_statistics.json" with
    | Some content => json_loads content
    | None => Ok empty_dict
    end ;;
  ml_data <-
    match fs "experiment_results/ml_training_data.json" with
    | Some content =>
        if nonempty content && negb (String.prefix error_marker content)
        then json_loads content
        else Ok empty_dict
    | None => Ok empty_dict
    end ;;
  Ok (experiments, cache_stats, ml_data).

End Loader.

(** ** [main] of [visualize_metrics.py]

    What a chart function draws is left open: a run of [main] is described by
    the calls it makes and the lines it prints, given for every chart
    function whether its call returns or raises. *)

Module Chart.
Inductive t : Type :=
| create_comparison_charts
| create_improvement_chart
| create_failure_recovery_timeline
| create_ml_prediction_accuracy
| create_recovery_strategy_effectiveness
| create_availability_comparison
| create_summary_table
| create_ml_learning_curves
| create_scenario_comparison
| create_recovery_curves
| create_mttr_comparison
| create_latency_area_under_curve.
End Chart.

Inductive event : Type :=
| Load
| Call (c : Chart.t)
| PrintWarning (e : exn)
| PrintTraceback (e : exn)
| PrintSuccess.

(** A statement of [main]: from the events so far to the events after it and
    its outcome. *)
Definition proc (A : Type) : Type := list event -> list event * result A.

Definition emit (ev : event) : proc unit := fun tr => ((tr ++ [ev])%list, Ok tt).

Definition raise_if (o : option exn) : proc unit :=
  fun tr => match o with
            | Some e => (tr, Raise e)
            | None => (tr, Ok tt)
            end.

Definition andthen (p q : proc unit) : proc unit :=
  fun tr => match p tr with
            | (tr', Ok _) => q tr'
            | (tr', Raise e) => (tr', Raise e)
            end.

Notation "p >> q" := (andthen p q) (at level 65, right associativity).

(** [try: body / except Exception as e: handler(e)] *)
Definition try_except (body : proc unit) (handler : exn -> proc unit) : proc unit :=
  fun tr => match body tr with
            | (tr', Raise e) =>
                if is_Exception e then handler e tr' else (tr', Raise e)
            | done => done
            end.

Definition skip : proc unit := fun tr => (tr, Ok tt).

(** The five calls inside the [try] block, in order. *)
Definition guarded_charts : list Chart.t :=
  [Chart.create_ml_learning_curves; Chart.create_scenario_comparison;
   Chart.create_recovery_curves; Chart.create_mttr_comparison;
   Chart.create_latency_area_under_curve].

(** The seven calls before it. *)
Definition leading_charts : list Chart.t :=
  [Chart.create_comparison_charts; Chart.create_improvement_chart;
   Chart.create_failure_recovery_timeline; Chart.create_ml_prediction_accuracy;
   Chart.create_recovery_strategy_effectiveness;
   Chart.create_availability_comparison; Chart.create_summary_table].

Section Main.

(** [outcome c] is the exception the call of [c] raises, if any;
    [load_outcome] the same for [load_experiment_data];
    [experiment_files] whether the glob [experiment_*.json] matches. *)
Variable outcome : Chart.t -> option exn.
Variable load_outcome : option exn.
Variable experiment_files : bool.

Definition call (c : Chart.t) : proc unit := emit (Call c) >> raise_if (outcome c).

Fixpoint call_all (cs : list Chart.t) : proc unit :=
  match cs with
  | [] => skip
  | c :: cs' => call c >> call_all cs'
  end.

Definition main : proc unit :=
  emit Load >> raise_if load_outcome >>
  call_all leading_charts >>
  (if experiment_files then
     try_except (call_all guarded_charts)
       (fun e => emit (PrintWarning e) >> emit (PrintTraceback e))
   else skip) >>
  emit PrintSuccess.

(** A run of the script from an empty console. *)
Definition run_main : list event * result unit := main [].

End Main.

(** ** Vocabulary of the statements *)

(** [observed ts series]: the points of [ts] have the keys [requestNumber] and
    [hitRate], with the values listed in [series]. *)
Definition observed {F : Type} (ts : list (Point.t F)) (series : list (Z * F)) : Prop :=
  Forall2 (fun p obs => Point.requestNumber p = Some (fst obs)
                        /\ Point.hitRate p = Some (snd obs)) ts series.

(** Request numbers that never decrease along the series. *)
Fixpoint nondecreasing (reqs : list Z) : bool :=
  match reqs with
  | x :: ((y :: _) as rest) => (x <=? y) && nondecreasing rest
  | _ => true
  end.

(** [max(reqs)] and [min(reqs)] on integers. *)
Definition int_max (reqs : list Z) : Z :=
  match reqs with
  | [] => 0
  | x :: rest => fold_left Z.max rest x
  end.

Definition int_min (reqs : list Z) : Z :=
  match reqs with
  | [] => 0
  | x :: rest => fold_left Z.min rest x
  end.

(** [n] request numbers from [x0] in steps of [d], and [n] sample points of
    latency [L] at these request numbers. *)
Fixpoint progression (x0 d : Z) (n : nat) : list Z :=
  match n with
  | O => []
  | S n' => x0 :: progression (x0 + d) d n'
  end.

Fixpoint constant_series {F : Type} (L : F) (x0 d : Z) (n : nat) : list (Point.t F) :=
  match n with
  | O => []
  | S n' => Point.make (Some x0) None None (Some L) :: constant_series L (x0 + d) d n'
  end.

(** The last element of [x :: xs]. *)
Definition final (x : Z) (xs : list Z) : Z := fold_left (fun _ y => y) xs x.

(** A variant with its six required keys, and a scenario with its three
    variants. *)
Definition variant_of {F : Type} (total failed : Z) (success_rate hit_rate rt tp : F)
  : Variant.t F :=
  Variant.make (Some total) (Some failed) (Some success_rate) (Some hit_rate)
               (Some rt) (Some tp) None None.

Definition scenario_of {F : Type} (b sh ml : Variant.t F) : Scenario.t F :=
  Scenario.make (Some b) (Some sh) (Some ml) None None.

(** Three scenarios in which every variant has hit rate 0.97. *)
Definition equal_hit_rates {F : Type} `{PyFloat F} : scenarios_t F :=
  let v := variant_of 1000 6 (dec 994 1000) (dec 97 100) (dec 119 100) (of_int 843) in
  [("cascading_failure", scenario_of v v v);
   ("gradual_degradation", scenario_of v v v);
   ("high_failure", scenario_of v v v)].

(** The series [(1, 0.99), (2, 0.85), (3, 0.80), (4, 0.96)]. *)
Definition spec_example {F : Type} `{PyFloat F} : list (Point.t F) :=
  [sample 1 (dec 99 100); sample 2 (dec 85 100);
   sample 3 (dec 80 100); sample 4 (dec 96 100)].

(** The Winner cell of a scenario row, and of the TOTAL row, in terms of the
    two error counts of the row. *)
Definition scenario_rule {F : Type} (row : table_row (F := F)) : Prop :=
  (row_winner row = "Tie" <-> row_ml row = row_sh row)
  /\ (row_winner row = "ML" <-> row_ml row < row_sh row)
  /\ (row_winner row = "Self-Healing" <-> row_sh row < row_ml row).

Definition total_rule {F : Type} (row : table_row (F := F)) : Prop :=
  (row_winner row = "ML" <-> row_ml row <= row_sh row)
  /\ (row_winner row = "Self-Healing" <-> row_sh row < row_ml row).

(** [scenario[variant]['failedRequests']] *)
Definition failed_of {F : Type} (variant : key_of (Scenario.t F) (Variant.t F))
  (scenario : Scenario.t F) : result Z :=
  v <- subscript variant scenario ;; subscript failedRequests v.

(** Three scenarios: ML ahead, self-healing ahead, both equal; the totals of
    the two columns are equal. *)
Definition tied_totals {F : Type} `{PyFloat F} : scenarios_t F :=
  let v (failed : Z) :=
    variant_of 1000 failed (dec 99 100) (dec 97 100) (dec 119 100) (of_int 843) in
  [("high_failure", scenario_of (v 10) (v 6) (v 4));
   ("cache_corruption", scenario_of (v 10) (v 4) (v 6));
   ("gradual_degradation", scenario_of (v 10) (v 5) (v 5))].

(** One scenario in which no request failed, whatever the variant. *)
Definition no_failures {F : Type} `{PyFloat F} : scenarios_t F :=
  let v := variant_of 1000 0 (of_int 1) (dec 97 100) (dec 119 100) (of_int 843) in
  [("low_failure", scenario_of v v v)].

(** A directory with one file. *)
Definition only (path content : string) : file_system :=
  fun p => if String.eqb p path then Some content else None.

(** The text [{"error": "timeout"}]. *)
Definition error_report : string :=
  error_marker ++ ": " ++ String double_quote ("timeout" ++ String double_quote "}").

(** The key [timeSeries] cannot be read from a variant: the variant or the
    key is absent. *)
Definition time_series_absent {F : Type} (variant : option (Variant.t F)) : bool :=
  match variant with
  | None => true
  | Some v => is_None (Variant.timeSeries v)
  end.

Definition a_time_series_absent {F : Type} (scenario : Scenario.t F) : bool :=
  time_series_absent (Scenario.baseline scenario)
  || time_series_absent (Scenario.selfHealing scenario)
  || time_series_absent (Scenario.selfHealingML scenario).

(** The key [predictionAccuracy] cannot be read from [selfHealingML]. *)
Definition prediction_accuracy_absent {F : Type} (scenario : Scenario.t F) : bool :=
  match Scenario.selfHealingML scenario with
  | None => true
  | Some v => is_None (Variant.predictionAccuracy v)
  end.

(** A variant with the required keys and a time series. *)
Definition with_series {F : Type} `{PyFloat F} (ts : list (Point.t F)) : Variant.t F :=
  Variant.make (Some 1000) (Some 6) (Some (dec 994 1000)) (Some (dec 97 100))
               (Some (dec 119 100)) (Some (of_int 843)) None (Some ts).

(** A drop below 0.90 at request 2 and a recovery at request 3. *)
Definition recovering {F : Type} `{PyFloat F} : list (Point.t F) :=
  [sample 1 (dec 99 100); sample 2 (dec 85 100); sample 3 (dec 96 100)].

(** Two scenarios with time series; the one sample point of the first has no
    key [hitRate]. *)
Definition missing_hit_rate {F : Type} `{PyFloat F} : scenarios_t F :=
  let gap := with_series [Point.make (Some 1) None (Some (of_int 1)) (Some (dec 119 100))] in
  let full := with_series recovering in
  [("cascading_failure", scenario_of gap gap gap);
   ("high_failure", scenario_of full full full)].

(** Two scenarios; the first has no key [baseline]. *)
Definition missing_baseline {F : Type} `{PyFloat F} : scenarios_t F :=
  let full := with_series recovering in
  [("cascading_failure", Scenario.make None (Some full) (Some full) None None);
   ("high_failure", scenario_of full full full)].

(** A scenario whose [selfHealingML] has neither [timeSeries] nor
    [predictionAccuracy]. *)
Definition bare_ml {F : Type} `{PyFloat F} : Scenario.t F :=
  scenario_of (with_series recovering) (with_series recovering)
              (variant_of 1000 4 (dec 996 1000) (dec 98 100) (dec 121 100) (of_int 840)).

(** A scenario whose [selfHealingML] has a [predictionAccuracy]. *)
Definition with_prediction_accuracy {F : Type} `{PyFloat F} : Scenario.t F :=
  scenario_of
    (with_series recovering) (with_series recovering)
    (Variant.make (Some 1000) (Some 4) (Some (dec 996 1000)) (Some (dec 98 100))
                  (Some (dec 121 100)) (Some (of_int 840))
                  (Some (Accuracy.make (Some (dec 90 100)) (Some (dec 80 100))
                                       (Some (dec 85 100)) (Some 40)))
                  (Some recovering)).

(** A run in which [create_recovery_curves] raises and every other chart
    function returns. *)
Definition recovery_curves_fail (c : Chart.t) : option exn :=
  match c with
  | Chart.create_recovery_curves => Some (KeyError "hitRate")
  | _ => None
  end.

(** The samples the scan still yields from a state of the loop. *)
Definition samples_from {F : Type} `{PyFloat F} (start : option Z)
  (series : list (Z * F)) : list Z :=
  match start with
  | None => samples_closed series
  | Some opened => samples_open opened series
  end.

(** Every variant of the scenario is present and has [failedRequests]. *)
Definition has_failed_counts {F : Type} (scenario : Scenario.t F) : Prop :=
  exists b sh ml,
    failed_of baseline scenario = Ok b
    /\ failed_of selfHealing scenario = Ok sh
    /\ failed_of selfHealingML scenario = Ok ml.

(** ** The per-scenario charts of [generate_better_charts.py] *)

Section PerScenarioCharts.

Context {F : Type} `{PyFloat F}.

(** *** [create_error_reduction_chart]: the tick labels and the three bar
    series, one entry per scenario. *)
Record error_bars : Type := {
  scenario_names : list string;
  baseline_errors : list Z;
  sh_errors : list Z;
  ml_errors : list Z
}.

Fixpoint error_series (scenarios : scenarios_t F) : result error_bars :=
  match scenarios with
  | [] => Ok {| scenario_names := []; baseline_errors := [];
                sh_errors := []; ml_errors := [] |}
  | (name, scenario) :: rest =>
      b <- failed_of baseline scenario ;;
      sh <- failed_of selfHealing scenario ;;
      ml <- failed_of selfHealingML scenario ;;
      bars <- error_series rest ;;
      Ok {| scenario_names :=
              title (replace_char underscore newline name) :: scenario_names bars;
            baseline_errors := b :: baseline_errors bars;
            sh_errors := sh :: sh_errors bars;
            ml_errors := ml :: ml_errors bars |}
  end.

Definition create_error_reduction_chart (data : Experiment.t F) : result error_bars :=
  scenarios <- scenarios_of data ;; error_series scenarios.

(** *** [create_success_rate_zoomed]: [scenario[variant]['successRate'] * 100]
    for the three variants, one entry per scenario. *)
Record rate_bars : Type := {
  rate_names : list string;
  baseline_sr : list F;
  sh_sr : list F;
  ml_sr : list F
}.

Definition success_percent (variant : key_of (Scenario.t F) (Variant.t F))
  (scenario : Scenario.t F) : result F :=
  v <- subscript variant scenario ;;
  x <- subscript successRate v ;;
  Ok (fmul x (of_int 100)).

Fixpoint rate_series (scenarios : scenarios_t F) : result rate_bars :=
  match scenarios with
  | [] => Ok {| rate_names := []; baseline_sr := []; sh_sr := []; ml_sr := [] |}
  | (name, scenario) :: rest =>
      b <- success_percent baseline scenario ;;
      sh <- success_percent selfHealing scenario ;;
      ml <- success_percent selfHealingML scenario ;;
      bars <- rate_series rest ;;
      Ok {| rate_names :=
              title (replace_char underscore newline name) :: rate_names bars;
            baseline_sr := b :: baseline_sr bars;
            sh_sr := sh :: sh_sr bars;
            ml_sr := ml :: ml_sr bars |}
  end.

Definition create_success_rate_zoomed (data : Experiment.t F) : result rate_bars :=
  scenarios <- scenarios_of data ;; rate_series scenarios.

End PerScenarioCharts.

(** ** [main] of [generate_thesis_charts.py] and of
       [generate_better_charts.py]

    Both scripts pick the most recently modified experiment file and call
    their three chart functions on it, without a [try]. *)

(** [max(experiment_files, key=lambda p: p.stat().st_mtime)] on the files the
    glob found, each with its modification time: the first file whose time
    no other exceeds. *)
Fixpoint latest_from (best : string * Q) (files : list (string * Q)) : string * Q :=
  match files with
  | [] => best
  | f :: rest =>
      latest_from (if negb (Qle_bool (snd f) (snd best)) then f else best) rest
  end.

Definition latest_experiment (experiment_files : list (string * Q))
  : option (string * Q) :=
  match experiment_files with
  | [] => None
  | f :: rest => Some (latest_from f rest)
  end.

Module Thesis.
Inductive chart : Type :=
| create_comparison_bar_chart
| create_improvement_chart
| create_summary_table.

Definition charts : list chart :=
  [create_comparison_bar_chart; create_improvement_chart; create_summary_table].
End Thesis.

Module Better.
Inductive chart : Type :=
| create_error_reduction_chart
| create_success_rate_zoomed
| create_combined_metrics_chart.

Definition charts : list chart :=
  [create_error_reduction_chart; create_success_rate_zoomed;
   create_combined_metrics_chart].
End Better.

(** What a run prints and calls: the line for no experiment file, the line
    naming the file used, a chart call on a file, the closing lines. *)
Inductive script_event (C : Type) : Type :=
| NoExperimentFiles
| Using (file : string)
| Draw (c : C) (file : string)
| Generated.

Arguments NoExperimentFiles {C}.
Arguments Using {C} file.
Arguments Draw {C} c file.
Arguments Generated {C}.

Section Scripts.

(** The chart functions of the script, and for each of them and each file the
    exception its call raises, if any. *)
Variable C : Type.
Variable outcome : C -> string -> option exn.

Fixpoint draw_all (file : string) (cs : list C) (tr : list (script_event C))
  : list (script_event C) * result unit :=
  match cs with
  | [] => (tr, Ok tt)
  | c :: cs' =>
      match outcome c file with
      | Some e => ((tr ++ [Draw c file])%list, Raise e)
      | None => draw_all file cs' (tr ++ [Draw c file])%list
      end
  end.

Definition script_main (charts : list C) (experiment_files : list (string * Q))
  : list (script_event C) * result unit :=
  match latest_experiment experiment_files with
  | None => ([NoExperimentFiles], Ok tt)
  | Some latest =>
      match draw_all (fst latest) charts [Using (fst latest)] with
      | (tr, Ok _) => ((tr ++ [Generated])%list, Ok tt)
      | (tr, Raise e) => (tr, Raise e)
      end
  end.

End Scripts.

Definition thesis_main (outcome : Thesis.chart -> string -> option exn)
  (experiment_files : list (string * Q)) : list (script_event Thesis.chart) * result unit :=
  script_main outcome Thesis.charts experiment_files.

Definition better_main (outcome : Better.chart -> string -> option exn)
  (experiment_files : list (string * Q)) : list (script_event Better.chart) * result unit :=
  script_main outcome Better.charts experiment_files.

(** ** Further vocabulary *)

(** [measured ts series]: the points of [ts] have the keys [requestNumber] and
    [avgLatency], with the values listed in [series]. *)
Definition measured {F : Type} (ts : list (Point.t F)) (series : list (Z * F)) : Prop :=
  Forall2 (fun p obs => Point.requestNumber p = Some (fst obs)
                        /\ Point.avgLatency p = Some (snd obs)) ts series.

(** Request numbers that grow along the series. *)
Fixpoint increasing (reqs : list Z) : bool :=
  match reqs with
  | x :: ((y :: _) as rest) => (x <? y) && increasing rest
  | _ => true
  end.

(** The three variants of the scenario are present. *)
Definition has_variants {F : Type} (scenario : Scenario.t F) : bool :=
  negb (is_None (Scenario.baseline scenario))
  && negb (is_None (Scenario.selfHealing scenario))
  && negb (is_None (Scenario.selfHealingML scenario)).

(** The name of the first of the three variant keys that the scenario lacks. *)
Definition first_missing_variant {F : Type} (scenario : Scenario.t F) : option string :=
  match Scenario.baseline scenario, Scenario.selfHealing scenario,
        Scenario.selfHealingML scenario with
  | None, _, _ => Some "baseline"
  | Some _, None, _ => Some "selfHealing"
  | Some _, Some _, None => Some "selfHealingML"
  | Some _, Some _, Some _ => None
  end.

(** A bar of the MTTR chart with a value above 0. *)
Definition has_positive_bar {F : Type} `{PyFloat F} (bar : mttr_bar (F := F)) : bool :=
  fgt (baseline_mttr bar) (of_int 0) || fgt (sh_mttr bar) (of_int 0)
  || fgt (ml_mttr bar) (of_int 0).

(** [s.isascii()]: every character has a code below 128. *)
Fixpoint isascii (s : string) : bool :=
  match s with
  | EmptyString => true
  | String c s' => (nat_of_ascii c <? 128)%nat && isascii s'
  end.

(** The character occurs in the string. *)
Fixpoint occurs (c : ascii) (s : string) : bool :=
  match s with
  | EmptyString => false
  | String c' s' => Ascii.eqb c' c || occurs c s'
  end.

(** The number of scenarios whose [predictionAccuracy] is a non-empty dict. *)
Definition with_accuracy {F : Type} `{PyFloat F} (scenarios : scenarios_t F) : nat :=
  List.length (filter (fun s => Accuracy.truthy (pred_acc_of (snd s))) scenarios).


(** Three sample points with all four keys, and two scenarios that have this
    series for each variant. *)
Definition full_series {F : Type} `{PyFloat F} : list (Point.t F) :=
  [Point.make (Some 1) (Some (dec 99 100)) (Some (dec 999 1000)) (Some (dec 119 100));
   Point.make (Some 2) (Some (dec 85 100)) (Some (dec 95 100)) (Some (dec 350 100));
   Point.make (Some 3) (Some (dec 96 100)) (Some (dec 998 1000)) (Some (dec 125 100))].

Definition full_scenarios {F : Type} `{PyFloat F} : scenarios_t F :=
  let v := with_series full_series in
  [("cascading_failure", scenario_of v v v); ("high_failure", scenario_of v v v)].

(** ** Signs of doubles

    A double seen through its IEEE-754 description: not below zero (a zero
    of either sign, a positive finite number or the positive infinity; never
    a NaN), and positive finite. *)
Definition sf_nonneg (s : spec_float) : Prop :=
  match s with
  | S754_zero _ => True
  | S754_infinity false => True
  | S754_finite false _ _ => True
  | _ => False
  end.

Definition sf_positive (s : spec_float) : Prop :=
  match s with
  | S754_finite false _ _ => True
  | _ => False
  end.

(** [m'] is [m] shifted right by [k] bits. *)
Definition shifted (k : Z) (m m' : Z) : Prop :=
  0 <= m' /\ 2 ^ k * m' <= m < 2 ^ k * (m' + 1).

(** * Properties *)

(** ** Mean time to recovery *)

Section MttrFacts.

Context {F : Type} `{PyFloat F}.

Lemma mttr_step_closed (times : list Z) (p : Point.t F) (req : Z) (hr : F) :
  Point.requestNumber p = Some req ->
  Point.hitRate p = Some hr ->
  mttr_step {| failure_start := None; recovery_times := times |} p
  = Ok {| failure_start := if below_failure hr then Some req else None;
          recovery_times := times |}.
Proof.
  intros Hreq Hhr. unfold mttr_step. rewrite Hreq, Hhr. simpl.
  unfold below_failure. rewrite andb_true_r.
  destruct (flt hr failure_threshold); reflexivity.
Qed.

Lemma mttr_step_open (opened : Z) (times : list Z) (p : Point.t F) (req : Z) (hr : F) :
  Point.requestNumber p = Some req ->
  Point.hitRate p = Some hr ->
  mttr_step {| failure_start := Some opened; recovery_times := times |} p
  = Ok (if recovered hr
        then {| failure_start := None;
                recovery_times := times ++ [req - opened] |}
        else {| failure_start := Some opened; recovery_times := times |}).
Proof.
  intros Hreq Hhr. unfold mttr_step. rewrite Hreq, Hhr. simpl.
  rewrite andb_false_r. unfold recovered.
  destruct (fge hr recovery_threshold); reflexivity.
Qed.

Lemma mttr_loop_samples (ts : list (Point.t F)) (series : list (Z * F)) :
  observed ts series ->
  forall (start : option Z) (times : list Z),
  exists final,
    mttr_loop {| failure_start := start; recovery_times := times |} ts
    = Ok {| failure_start := final;
            recovery_times := times ++ samples_from start series |}.
Proof.
  induction 1 as [|p [req hr] ts series [Hreq Hhr] _ IH]; intros start times.
  - exists start. simpl. destruct start; simpl; rewrite app_nil_r; reflexivity.
  - simpl in Hreq, Hhr. destruct start as [opened|]; simpl mttr_loop.
    + rewrite (mttr_step_open opened times p Hreq Hhr). simpl samples_from.
      destruct (recovered hr); simpl bind.
      * destruct (IH None (times ++ [req - opened])%list) as [final Hfinal].
        exists final. rewrite Hfinal. simpl. rewrite <- app_assoc. reflexivity.
      * apply (IH (Some opened) times).
    + rewrite (mttr_step_closed times p Hreq Hhr). simpl samples_from.
      destruct (below_failure hr); simpl bind.
      * apply (IH (Some req) times).
      * apply (IH None times).
Qed.

Lemma mean_or_zero_arithmetic (times : list Z) :
  mean_or_zero times = arithmetic_mean (F := F) times.
Proof.
  destruct times as [|t times]; [reflexivity|].
  unfold mean_or_zero, arithmetic_mean, np_mean, np_sum.
  simpl is_empty. cbv iota. rewrite length_map. reflexivity.
Qed.

Lemma calculate_mttr_samples (ts : list (Point.t F)) (series : list (Z * F)) :
  observed ts series ->
  calculate_mttr ts = Ok (mean_or_zero (samples_closed series)).
Proof.
  intros Hobs. unfold calculate_mttr.
  destruct (mttr_loop_samples Hobs None []) as [final Hfinal].
  rewrite Hfinal. reflexivity.
Qed.

(** C1.  On a time series whose points carry a request number and a hit
    rate, [calculate_mttr] returns the arithmetic mean of the samples of the
    two-threshold scan, 0 when there is none: a window opens at a point
    below 0.90 only while none is open, it closes at the first later point
    at or above 0.95 and yields the difference of the two request numbers;
    a window that never closes yields nothing. *)
Theorem calculate_mttr_scan (ts : list (Point.t F)) (series : list (Z * F)) :
  observed ts series ->
  calculate_mttr ts = Ok (arithmetic_mean (samples_closed series)).
Proof.
  intros Hobs. rewrite <- mean_or_zero_arithmetic.
  apply calculate_mttr_samples. exact Hobs.
Qed.

End MttrFacts.

Lemma calculate_mttr_scan_witness :
  observed [sample 10 (85 # 100)%Q; sample 30 (97 # 100)%Q]
           [(10, (85 # 100)%Q); (30, (97 # 100)%Q)]
  /\ calculate_mttr (F := Q) [sample 10 (85 # 100)%Q; sample 30 (97 # 100)%Q]
     = Ok (arithmetic_mean (samples_closed [(10, (85 # 100)%Q); (30, (97 # 100)%Q)])).
Proof.
  split; [repeat constructor|].
  apply calculate_mttr_scan.
  repeat constructor.
Defined.

(** The doubles that the literals [0.90] and [0.95] denote. *)
Lemma thresholds_binary64 :
  failure_threshold = 0x1.ccccccccccccdp-1%float
  /\ recovery_threshold = 0x1.e666666666666p-1%float.
Proof.
  split; vm_compute; reflexivity.
Qed.

(** C6.  On the series [(1, 0.99), (2, 0.85), (3, 0.80), (4, 0.96)] the
    function returns 2, in double precision and in exact arithmetic alike:
    the window opens at request 2 and closes at request 4. *)
Theorem calculate_mttr_spec_example :
  calculate_mttr (F := float) spec_example = Ok (of_int 2)
  /\ calculate_mttr (F := Q) spec_example = Ok (of_int 2)
  /\ samples_closed (F := float)
       [(1, dec 99 100); (2, dec 85 100); (3, dec 80 100); (4, dec 96 100)] = [4 - 2].
Proof.
  split; [|split]; vm_compute; reflexivity.
Qed.

Section SampleSigns.

Context {F : Type} `{PyFloat F}.

(** Along non-decreasing request numbers every sample is the distance from
    an earlier request to a later one. *)
Lemma samples_nonneg (series : list (Z * F)) :
  (nondecreasing (map fst series) = true ->
   Forall (fun s => 0 <= s) (samples_closed series))
  /\ (forall opened,
        nondecreasing (opened :: map fst series) = true ->
        Forall (fun s => 0 <= s) (samples_open opened series)).
Proof.
  induction series as [|[req hr] series [IHc IHo]]; [split; constructor|].
  assert (Htail : nondecreasing (map fst ((req, hr) :: series)) = true ->
                  nondecreasing (map fst series) = true).
  { simpl. destruct (map fst series); [reflexivity|].
    intros Hs. apply andb_true_iff in Hs. apply Hs. }
  split.
  - intros Hs. simpl. destruct (below_failure hr).
    + apply IHo. exact Hs.
    + apply IHc, Htail, Hs.
  - intros opened Hs.
    change (nondecreasing (opened :: req :: map fst series) = true) in Hs.
    simpl in Hs. apply andb_true_iff in Hs. destruct Hs as [Hle Hs].
    apply Z.leb_le in Hle.
    simpl. destruct (recovered hr).
    + constructor; [lia|]. apply IHc, Htail. exact Hs.
    + apply IHo. simpl. destruct (map fst series) as [|y rest]; [reflexivity|].
      simpl in Hs. apply andb_true_iff in Hs. destruct Hs as [Hle' Hs].
      apply Z.leb_le in Hle'. apply andb_true_iff. split; [|exact Hs].
      apply Z.leb_le. lia.
Qed.

End SampleSigns.

(** ** Exact arithmetic *)

Lemma fold_left_Qplus_nonneg (xs : list Q) :
  Forall (fun x => 0 <= x)%Q xs ->
  forall a, (0 <= a)%Q -> (0 <= fold_left Qplus xs a)%Q.
Proof.
  induction 1 as [|x xs Hx _ IH]; intros a Ha; simpl; [exact Ha|].
  apply IH. lra.
Qed.

Lemma positive_count (n : nat) : (0 < inject_Z (Z.of_nat (S n)))%Q.
Proof.
  change 0%Q with (inject_Z 0). rewrite <- Zlt_Qlt. lia.
Qed.

Lemma arithmetic_mean_nonneg (samples : list Z) :
  Forall (fun s => 0 <= s) samples ->
  (0 <= arithmetic_mean (F := Q) samples)%Q.
Proof.
  intros Hs. destruct samples as [|s samples]; [apply Qle_refl|].
  unfold arithmetic_mean.
  apply Qle_shift_div_l; [apply positive_count|].
  rewrite Qmult_0_l.
  apply fold_left_Qplus_nonneg; [|apply Qle_refl].
  apply Forall_map. revert Hs. apply Forall_impl.
  intros a Ha. simpl. change 0%Q with (inject_Z 0). rewrite <- Zle_Qle. exact Ha.
Qed.

(** ** Double precision

    The sign of a sum and of a quotient of doubles, from the IEEE-754
    description of the primitive operations. *)

Unset Implicit Arguments.

Lemma digits2_bounds (p : positive) :
  2 ^ (Zpos (digits2_pos p) - 1) <= Zpos p < 2 ^ Zpos (digits2_pos p).
Proof.
  induction p as [p IH|p IH|]; cbn [digits2_pos].
  - rewrite Pos2Z.inj_succ, Z.pow_succ_r by lia.
    replace (Z.succ (Zpos (digits2_pos p)) - 1) with (Z.succ (Zpos (digits2_pos p) - 1)) by lia.
    rewrite Z.pow_succ_r by lia. lia.
  - rewrite Pos2Z.inj_succ, Z.pow_succ_r by lia.
    replace (Z.succ (Zpos (digits2_pos p)) - 1) with (Z.succ (Zpos (digits2_pos p) - 1)) by lia.
    rewrite Z.pow_succ_r by lia. lia.
  - simpl. lia.
Qed.

Lemma Zdigits2_bounds (m : Z) :
  0 < m -> 0 < Zdigits2 m /\ 2 ^ (Zdigits2 m - 1) <= m < 2 ^ Zdigits2 m.
Proof.
  destruct m as [|p|p]; try lia. intros _. simpl. split; [lia|]. apply digits2_bounds.
Qed.

Lemma Zdigits2_le (a b : Z) : 0 < a -> a <= b -> Zdigits2 a <= Zdigits2 b.
Proof.
  intros Ha Hab.
  destruct (Zdigits2_bounds a Ha) as [Hda [Hla _]].
  destruct (Zdigits2_bounds b ltac:(lia)) as [Hdb [_ Hub]].
  assert (Hlt : 2 ^ (Zdigits2 a - 1) < 2 ^ Zdigits2 b) by lia.
  apply Z.pow_lt_mono_r_iff in Hlt; lia.
Qed.

Lemma Zdigits2_succ (a : Z) : 0 < a -> Zdigits2 (a + 1) <= Zdigits2 a + 1.
Proof.
  intros Ha.
  destruct (Zdigits2_bounds a Ha) as [Hda [_ Hua]].
  destruct (Zdigits2_bounds (a + 1) ltac:(lia)) as [Hdb [Hlb _]].
  assert (Hlt : 2 ^ (Zdigits2 (a + 1) - 1) < 2 ^ (Zdigits2 a + 1)).
  { rewrite (Z.pow_add_r 2 (Zdigits2 a) 1) by lia. lia. }
  apply Z.pow_lt_mono_r_iff in Hlt; lia.
Qed.


Lemma shr_1_shifted (r : shr_record) :
  0 <= shr_m r -> shifted 1 (shr_m r) (shr_m (shr_1 r)).
Proof.
  unfold shifted. destruct r as [m r s]. destruct m as [|[p|p|]|p]; simpl; lia.
Qed.

Lemma shifted_trans (a b m m' m'' : Z) :
  0 <= a -> 0 <= b ->
  shifted a m m' -> shifted b m' m'' -> shifted (a + b) m m''.
Proof.
  unfold shifted. intros Ha Hb [Hm' [Hl Hu]] [Hm'' [Hl' Hu']].
  rewrite Z.pow_add_r by assumption.
  assert (0 < 2 ^ a) by (apply Z.pow_pos_nonneg; lia).
  assert (0 < 2 ^ b) by (apply Z.pow_pos_nonneg; lia).
  split; [exact Hm''|]. split; nia.
Qed.

Lemma iter_shr_1_shifted (n : positive) :
  forall r, 0 <= shr_m r -> shifted (Zpos n) (shr_m r) (shr_m (iter_pos shr_1 n r)).
Proof.
  induction n as [n IH|n IH|]; intros r Hr; cbn [iter_pos].
  - pose proof (shr_1_shifted r Hr) as H1.
    pose proof (IH (shr_1 r) (proj1 H1)) as H2.
    pose proof (IH _ (proj1 H2)) as H3.
    replace (Zpos n~1) with (1 + Zpos n + Zpos n) by lia.
    apply shifted_trans with (m' := shr_m (iter_pos shr_1 n (shr_1 r))); try lia; [|exact H3].
    apply shifted_trans with (m' := shr_m (shr_1 r)); try lia; assumption.
  - pose proof (IH r Hr) as H2.
    pose proof (IH _ (proj1 H2)) as H3.
    replace (Zpos n~0) with (Zpos n + Zpos n) by lia.
    apply shifted_trans with (m' := shr_m (iter_pos shr_1 n r)); try lia; assumption.
  - apply shr_1_shifted. exact Hr.
Qed.

Lemma shr_record_of_loc_m (m : Z) (l : location) : shr_m (shr_record_of_loc m l) = m.
Proof. destruct l as [|[ | | ]]; reflexivity. Qed.

(** A positive mantissa stays positive through the shift to the canonical
    exponent, away from the subnormal range. *)
Lemma shr_fexp_positive (m e : Z) (l : location) :
  0 < m -> -1022 <= e ->
  0 < shr_m (fst (shr_fexp prec emax m e l)) <= m
  /\ e <= snd (shr_fexp prec emax m e l) <= e + Zdigits2 m.
Proof.
  intros Hm He. destruct (Zdigits2_bounds m Hm) as [Hd [Hlow Hup]].
  unfold shr_fexp, shr, fexp, SpecFloat.emin, prec, emax.
  replace (Z.max (Zdigits2 m + e - 53) (3 - 1024 - 53) - e) with (Zdigits2 m - 53) by lia.
  destruct (Zdigits2 m - 53) as [|s|s] eqn:Es; cbn [fst snd];
    rewrite ?shr_record_of_loc_m; try lia.
  pose proof (iter_shr_1_shifted s (shr_record_of_loc m l)) as Hs.
  rewrite shr_record_of_loc_m in Hs. destruct (Hs ltac:(lia)) as [H0 [Hl Hu]].
  assert (Hpow : 2 ^ Zpos s <= 2 ^ (Zdigits2 m - 1)) by (apply Z.pow_le_mono_r; lia).
  assert (0 < 2 ^ Zpos s) by (apply Z.pow_pos_nonneg; lia).
  split; [|lia]. split; nia.
Qed.

Lemma round_nearest_even_bounds (m : Z) (l : location) :
  m <= round_nearest_even m l <= m + 1.
Proof.
  unfold round_nearest_even. destruct l as [|[ | | ]]; try lia.
  destruct (Z.even m); lia.
Qed.

Lemma binary_round_aux_positive (sx : bool) (mx ex : Z) (lx : location) :
  0 < mx -> -1022 <= ex -> ex + 2 * Zdigits2 mx + 1 <= 971 ->
  exists m e, binary_round_aux prec emax sx mx ex lx = S754_finite sx m e.
Proof.
  intros Hm He Hmax. unfold binary_round_aux.
  pose proof (shr_fexp_positive mx ex lx Hm He) as H1.
  destruct (shr_fexp prec emax mx ex lx) as [r1 e1]. cbn [fst snd] in H1.
  pose proof (round_nearest_even_bounds (shr_m r1) (loc_of_shr_record r1)) as Hr.
  set (m2 := round_nearest_even (shr_m r1) (loc_of_shr_record r1)) in *.
  pose proof (shr_fexp_positive m2 e1 loc_Exact ltac:(lia) ltac:(lia)) as H2.
  destruct (shr_fexp prec emax m2 e1 loc_Exact) as [r2 e2]. cbn [fst snd] in H2.
  assert (Hd2 : Zdigits2 m2 <= Zdigits2 mx + 1).
  { pose proof (Zdigits2_le m2 (shr_m r1 + 1) ltac:(lia) ltac:(lia)).
    pose proof (Zdigits2_succ (shr_m r1) ltac:(lia)).
    pose proof (Zdigits2_le (shr_m r1) mx ltac:(lia) ltac:(lia)). lia. }
  destruct (shr_m r2) as [|p|p] eqn:E2; try lia.
  replace (e2 <=? emax - prec) with true; [eexists _, _; reflexivity|].
  symmetry. apply Z.leb_le. unfold emax, prec. lia.
Qed.


Lemma shr_fexp_nonneg (m e : Z) (l : location) :
  0 <= m -> 0 <= shr_m (fst (shr_fexp prec emax m e l)).
Proof.
  intros Hm. unfold shr_fexp, shr.
  destruct (fexp prec emax (Zdigits2 m + e) - e) as [|s|s]; cbn [fst];
    rewrite ?shr_record_of_loc_m; try exact Hm.
  pose proof (iter_shr_1_shifted s (shr_record_of_loc m l)) as Hs.
  rewrite shr_record_of_loc_m in Hs. apply Hs. exact Hm.
Qed.

Lemma binary_round_aux_nonneg (mx ex : Z) (lx : location) :
  0 <= mx -> sf_nonneg (binary_round_aux prec emax false mx ex lx).
Proof.
  intros Hm. unfold binary_round_aux.
  pose proof (shr_fexp_nonneg mx ex lx Hm) as H1.
  destruct (shr_fexp prec emax mx ex lx) as [r1 e1]. cbn [fst] in H1.
  pose proof (round_nearest_even_bounds (shr_m r1) (loc_of_shr_record r1)) as Hr.
  set (m2 := round_nearest_even (shr_m r1) (loc_of_shr_record r1)) in *.
  pose proof (shr_fexp_nonneg m2 e1 loc_Exact ltac:(lia)) as H2.
  destruct (shr_fexp prec emax m2 e1 loc_Exact) as [r2 e2]. cbn [fst] in H2.
  destruct (shr_m r2) as [|p|p]; [exact I | | lia].
  destruct (e2 <=? emax - prec); exact I.
Qed.

Lemma binary_round_nonneg (m : positive) (e : Z) :
  sf_nonneg (binary_round prec emax false m e).
Proof.
  unfold binary_round.
  destruct (shl_align m e (fexp prec emax (Zpos (digits2_pos m) + e))) as [mz ez].
  apply binary_round_aux_nonneg. lia.
Qed.

Lemma binary_normalize_nonneg (m e : Z) :
  0 <= m -> sf_nonneg (binary_normalize prec emax m e false).
Proof.
  intros Hm. destruct m as [|p|p]; [exact I | apply binary_round_nonneg | lia].
Qed.

Lemma SFadd_nonneg (x y : spec_float) :
  sf_nonneg x -> sf_nonneg y -> sf_nonneg (SFadd prec emax x y).
Proof.
  destruct x as [[|]|[|]| |[|] mx ex]; destruct y as [[|]|[|]| |[|] my ey];
    simpl; try tauto; intros _ _; apply binary_round_nonneg.
Qed.

Lemma SFdiv_nonneg (x y : spec_float) :
  sf_nonneg x -> sf_positive y -> sf_nonneg (SFdiv prec emax x y).
Proof.
  destruct x as [[|]|[|]| |[|] mx ex]; destruct y as [[|]|[|]| |[|] my ey];
    simpl; try tauto; intros _ _.
  unfold SFdiv_core_binary.
  set (m' := match _ with Z0 => Zpos mx | Zpos _ => _ | Zneg _ => 0 end).
  assert (Hm' : 0 <= m').
  { subst m'. destruct (_ - _ - _); [lia | apply Z.shiftl_nonneg; lia | lia]. }
  pose proof (Z.div_pos m' (Zpos my) Hm' ltac:(lia)) as Hq.
  unfold Z.div in Hq. destruct (Z.div_eucl m' (Zpos my)) as [q r]. cbn [fst] in Hq.
  apply binary_round_aux_nonneg. exact Hq.
Qed.

Lemma digits2_iter_xO (k p : positive) :
  Zpos (digits2_pos (Pos.iter xO p k)) = Zpos (digits2_pos p) + Zpos k.
Proof.
  induction k as [|k IH] using Pos.peano_ind.
  - simpl. lia.
  - rewrite Pos.iter_succ. cbn [digits2_pos]. lia.
Qed.

Lemma binary_normalize_positive (p : positive) :
  Zpos p < 2 ^ 63 -> sf_positive (binary_normalize prec emax (Zpos p) 0 false).
Proof.
  intros Hp. cbn [binary_normalize]. unfold binary_round, shl_align.
  pose proof (digits2_bounds p) as [Hl Hu].
  assert (Hd : Zpos (digits2_pos p) <= 63).
  { assert (Hlt : 2 ^ (Zpos (digits2_pos p) - 1) < 2 ^ 63) by lia.
    apply Z.pow_lt_mono_r_iff in Hlt; lia. }
  replace (fexp prec emax (Zpos (digits2_pos p) + 0)) with (Zpos (digits2_pos p) - 53)
    by (unfold fexp, SpecFloat.emin, prec, emax; lia).
  destruct (Zpos (digits2_pos p) - 53 - 0) as [|s|s] eqn:Es.
  - destruct (binary_round_aux_positive false (Zpos p) 0 loc_Exact) as [m [e Hme]];
      [lia | lia | simpl Zdigits2; lia | rewrite Hme; exact I].
  - destruct (binary_round_aux_positive false (Zpos p) 0 loc_Exact) as [m [e Hme]];
      [lia | lia | simpl Zdigits2; lia | rewrite Hme; exact I].
  - destruct (binary_round_aux_positive false (Zpos (Pos.iter xO p s))
                (Zpos (digits2_pos p) - 53) loc_Exact) as [m [e Hme]];
      [lia | lia | | rewrite Hme; exact I].
    cbn [Zdigits2]. rewrite digits2_iter_xO. lia.
Qed.

Lemma of_uint63_nonneg (n : PrimInt63.int) : sf_nonneg (Prim2SF (of_uint63 n)).
Proof.
  rewrite of_uint63_spec. apply binary_normalize_nonneg.
  apply Uint63.to_Z_bounded.
Qed.

Lemma of_uint63_positive (z : Z) :
  0 < z < 2 ^ 63 -> sf_positive (Prim2SF (of_uint63 (Uint63.of_Z z))).
Proof.
  intros Hz. rewrite of_uint63_spec, Uint63.of_Z_spec.
  rewrite Z.mod_small by (unfold Uint63.wB; simpl; lia).
  destruct z as [|p|p]; try lia. apply binary_normalize_positive. lia.
Qed.

Lemma leb_zero (x : float) :
  PrimFloat.leb (float_of_Z 0) x = true <-> sf_nonneg (Prim2SF x).
Proof.
  rewrite FloatAxioms.leb_spec. change (Prim2SF (float_of_Z 0)) with (S754_zero false).
  destruct (Prim2SF x) as [[|]|[|]| |[|] m e]; simpl; split; try tauto; discriminate.
Qed.

Set Implicit Arguments.

Lemma float_of_Z_nonneg (z : Z) :
  0 <= z -> PrimFloat.leb (float_of_Z 0) (float_of_Z z) = true.
Proof.
  intros Hz. apply leb_zero.
  destruct z as [|p|p]; [apply of_uint63_nonneg | apply of_uint63_nonneg | lia].
Qed.

Lemma float_add_nonneg (x y : float) :
  PrimFloat.leb (float_of_Z 0) x = true ->
  PrimFloat.leb (float_of_Z 0) y = true ->
  PrimFloat.leb (float_of_Z 0) (PrimFloat.add x y) = true.
Proof.
  rewrite !leb_zero, add_spec. apply SFadd_nonneg.
Qed.

Lemma float_div_count_nonneg (x : float) (n : Z) :
  PrimFloat.leb (float_of_Z 0) x = true ->
  0 < n < 2 ^ 63 ->
  PrimFloat.leb (float_of_Z 0) (PrimFloat.div x (float_of_Z n)) = true.
Proof.
  rewrite !leb_zero, div_spec. intros Hx Hn. apply SFdiv_nonneg; [exact Hx|].
  destruct n as [|p|p]; try lia. apply of_uint63_positive. exact Hn.
Qed.

Lemma fold_left_float_nonneg (xs : list float) :
  Forall (fun x => PrimFloat.leb (float_of_Z 0) x = true) xs ->
  forall a, PrimFloat.leb (float_of_Z 0) a = true ->
            PrimFloat.leb (float_of_Z 0) (fold_left PrimFloat.add xs a) = true.
Proof.
  induction 1 as [|x xs Hx _ IH]; intros a Ha; simpl; [exact Ha|].
  apply IH. apply float_add_nonneg; assumption.
Qed.

Lemma arithmetic_mean_nonneg_binary64 (samples : list Z) :
  Forall (fun s => 0 <= s) samples ->
  Z.of_nat (List.length samples) < 2 ^ 63 ->
  fle (of_int 0) (arithmetic_mean (F := float) samples) = true.
Proof.
  intros Hs Hlen. destruct samples as [|s samples]; [reflexivity|].
  unfold arithmetic_mean. cbn [fle fdiv fadd of_int binary64].
  apply float_div_count_nonneg.
  - apply fold_left_float_nonneg; [|reflexivity].
    apply Forall_map. revert Hs. apply Forall_impl.
    intros a Ha. apply float_of_Z_nonneg. exact Ha.
  - split; [|exact Hlen]. simpl List.length. lia.
Qed.

Lemma samples_length {F : Type} `{PyFloat F} (series : list (Z * F)) :
  (List.length (samples_closed series) <= List.length series)%nat
  /\ (forall opened,
        (List.length (samples_open opened series) <= List.length series)%nat).
Proof.
  induction series as [|[req hr] series [IHc IHo]]; [split; intros; simpl; lia|].
  split.
  - simpl. destruct (below_failure hr); [specialize (IHo req)|]; lia.
  - intros opened. simpl. destruct (recovered hr); simpl;
      [|specialize (IHo opened)]; lia.
Qed.

(** C9.  On a time series whose request numbers never decrease, every
    sample of the scan is the distance from an earlier request to a later
    one, and [calculate_mttr] returns a value that is not below 0: in
    double precision, as numpy computes the mean (a Python list has fewer
    than 2^63 elements), and in exact arithmetic. *)
Theorem calculate_mttr_nonneg :
  (forall (ts : list (Point.t float)) (series : list (Z * float)),
      observed ts series ->
      nondecreasing (map fst series) = true ->
      Z.of_nat (List.length series) < 2 ^ 63 ->
      Forall (fun s => 0 <= s) (samples_closed series)
      /\ exists m, calculate_mttr ts = Ok m /\ fle (of_int 0) m = true)
  /\ (forall (ts : list (Point.t Q)) (series : list (Z * Q)),
        observed ts series ->
        nondecreasing (map fst series) = true ->
        Forall (fun s => 0 <= s) (samples_closed series)
        /\ exists m, calculate_mttr ts = Ok m /\ (0 <= m)%Q).
Proof.
  split.
  - intros ts series Hobs Hsorted Hlen.
    pose proof (proj1 (samples_nonneg series) Hsorted) as Hsamples.
    split; [exact Hsamples|].
    exists (arithmetic_mean (samples_closed series)). split.
    + rewrite <- mean_or_zero_arithmetic. apply calculate_mttr_samples. exact Hobs.
    + apply arithmetic_mean_nonneg_binary64; [exact Hsamples|].
      pose proof (proj1 (samples_length series)). lia.
  - intros ts series Hobs Hsorted.
    pose proof (proj1 (samples_nonneg series) Hsorted) as Hsamples.
    split; [exact Hsamples|].
    exists (arithmetic_mean (samples_closed series)). split.
    + rewrite <- mean_or_zero_arithmetic. apply calculate_mttr_samples. exact Hobs.
    + apply arithmetic_mean_nonneg. exact Hsamples.
Qed.

Lemma calculate_mttr_nonneg_witness :
  observed (F := float) [sample 5 (dec 80 100); sample 9 (dec 99 100)]
           [(5, dec 80 100); (9, dec 99 100)]
  /\ nondecreasing (map fst [(5, dec (F := float) 80 100); (9, dec 99 100)]) = true
  /\ Z.of_nat (List.length [(5, dec (F := float) 80 100); (9, dec 99 100)]) < 2 ^ 63
  /\ Forall (fun s => 0 <= s)
            (samples_closed [(5, dec (F := float) 80 100); (9, dec 99 100)])
  /\ exists m,
       calculate_mttr (F := float) [sample 5 (dec 80 100); sample 9 (dec 99 100)] = Ok m
       /\ fle (of_int 0) m = true.
Proof.
  split; [repeat constructor|]. split; [reflexivity|]. split; [reflexivity|].
  apply (proj1 calculate_mttr_nonneg
           [sample 5 (dec 80 100); sample 9 (dec 99 100)]
           [(5, dec 80 100); (9, dec 99 100)]).
  - repeat constructor.
  - reflexivity.
  - reflexivity.
Defined.

Lemma fold_left_Qplus_shift (xs : list Q) :
  forall a, (fold_left Qplus xs a == a + fold_left Qplus xs 0)%Q.
Proof.
  induction xs as [|x xs IH]; intros a; simpl.
  - ring.
  - rewrite (IH (a + x)%Q), (IH (0 + x)%Q). ring.
Qed.

Lemma count_succ (n : nat) :
  (inject_Z (Z.of_nat (S n)) == inject_Z (Z.of_nat n) + 1)%Q.
Proof.
  rewrite Nat2Z.inj_succ. unfold Z.succ. rewrite inject_Z_plus. reflexivity.
Qed.

(** A sum of [n] terms lies between [n] times a lower bound and [n] times an
    upper bound of the terms. *)
Lemma fold_left_Qplus_bounds (lo hi : Q) (xs : list Q) :
  Forall (fun x => lo <= x /\ x <= hi)%Q xs ->
  (inject_Z (Z.of_nat (List.length xs)) * lo <= fold_left Qplus xs 0
   /\ fold_left Qplus xs 0 <= inject_Z (Z.of_nat (List.length xs)) * hi)%Q.
Proof.
  induction 1 as [|x xs [Hlo Hhi] _ [IHlo IHhi]].
  - simpl. split; ring_simplify; apply Qle_refl.
  - cbn [List.length fold_left].
    rewrite (fold_left_Qplus_shift xs (0 + x)%Q), count_succ.
    split; ring_simplify.
    + apply Qle_trans with (lo + fold_left Qplus xs 0)%Q; [|lra].
      apply Qle_trans with (lo + inject_Z (Z.of_nat (List.length xs)) * lo)%Q; [|lra].
      ring_simplify. apply Qle_refl.
    + apply Qle_trans with (hi + fold_left Qplus xs 0)%Q; [lra|].
      apply Qle_trans with (hi + inject_Z (Z.of_nat (List.length xs)) * hi)%Q; [lra|].
      ring_simplify. apply Qle_refl.
Qed.

Lemma fmin_exact (x y : Q) : (fmin x y <= x /\ fmin x y <= y)%Q.
Proof.
  unfold fmin. simpl. destruct (Qle_bool x y) eqn:E; simpl.
  - apply Qle_bool_iff in E. split; [apply Qle_refl | exact E].
  - assert (~ (x <= y)%Q) as Hn by (rewrite <- Qle_bool_iff; congruence).
    split; [lra | apply Qle_refl].
Qed.

Lemma fmax_exact (x y : Q) : (x <= fmax x y /\ y <= fmax x y)%Q.
Proof.
  unfold fmax. simpl. destruct (Qle_bool y x) eqn:E; simpl.
  - apply Qle_bool_iff in E. split; [apply Qle_refl | exact E].
  - assert (~ (y <= x)%Q) as Hn by (rewrite <- Qle_bool_iff; congruence).
    split; [lra | apply Qle_refl].
Qed.

Lemma fold_fmin_lower (xs : list Q) :
  forall a, (fold_left fmin xs a <= a)%Q
            /\ Forall (fun x => fold_left fmin xs a <= x)%Q xs.
Proof.
  induction xs as [|x xs IH]; intros a; simpl.
  - split; [apply Qle_refl | constructor].
  - destruct (IH (fmin a x)) as [Ha Hxs]. destruct (fmin_exact a x) as [Hl Hr].
    split; [lra|]. constructor; [lra | exact Hxs].
Qed.

Lemma fold_fmax_upper (xs : list Q) :
  forall a, (a <= fold_left fmax xs a)%Q
            /\ Forall (fun x => x <= fold_left fmax xs a)%Q xs.
Proof.
  induction xs as [|x xs IH]; intros a; simpl.
  - split; [apply Qle_refl | constructor].
  - destruct (IH (fmax a x)) as [Ha Hxs]. destruct (fmax_exact a x) as [Hl Hr].
    split; [lra|]. constructor; [lra | exact Hxs].
Qed.

Lemma py_min_max_bounds (xs : list Q) :
  Forall (fun x => py_min xs <= x /\ x <= py_max xs)%Q xs.
Proof.
  destruct xs as [|a xs]; [constructor|]. simpl.
  destruct (fold_fmin_lower xs a) as [Hmin Hmins].
  destruct (fold_fmax_upper xs a) as [Hmax Hmaxs].
  constructor; [split; assumption|].
  rewrite Forall_forall in *. intros x Hx. split; [apply Hmins | apply Hmaxs]; exact Hx.
Qed.

Lemma np_mean_between (xs : list Q) :
  xs <> [] -> (py_min xs <= np_mean xs /\ np_mean xs <= py_max xs)%Q.
Proof.
  intros Hne. destruct (fold_left_Qplus_bounds (py_min_max_bounds xs)) as [Hlo Hhi].
  destruct xs as [|a xs]; [congruence|].
  unfold np_mean, np_sum. simpl fdiv. simpl of_int.
  pose proof (positive_count (List.length xs)) as Hpos.
  change (List.length (a :: xs)) with (S (List.length xs)) in *.
  split.
  - apply Qle_shift_div_l; [exact Hpos|]. rewrite Qmult_comm. exact Hlo.
  - apply Qle_shift_div_r; [exact Hpos|]. rewrite Qmult_comm. exact Hhi.
Qed.

(** C7, in exact arithmetic.  When the scenarios are not empty and every
    scenario has the variant and the field, mean-reduce returns a value
    between the least and the greatest of the values it averages. *)
Theorem mean_reduce_between_exact
  (variant : key_of (Scenario.t Q) (Variant.t Q)) (field : key_of (Variant.t Q) Q)
  (scenarios : scenarios_t Q) (values : list Q) :
  field_values variant field scenarios = Ok values ->
  values <> [] ->
  exists m, mean_reduce variant field scenarios = Ok m
            /\ fle (py_min values) m = true /\ fle m (py_max values) = true.
Proof.
  intros Hvalues Hne. exists (np_mean values). split.
  - unfold mean_reduce. rewrite Hvalues. reflexivity.
  - destruct (np_mean_between Hne) as [Hlo Hhi].
    split; apply Qle_bool_iff; assumption.
Qed.

Lemma mean_reduce_between_exact_witness :
  field_values baseline hitRate (equal_hit_rates (F := Q))
  = Ok [dec 97 100; dec 97 100; dec 97 100]
  /\ [dec 97 100; dec 97 100; dec 97 100] <> @nil Q
  /\ exists m, mean_reduce baseline hitRate (equal_hit_rates (F := Q)) = Ok m
               /\ fle (py_min [dec 97 100; dec 97 100; dec 97 100]) m = true
               /\ fle m (py_max [dec 97 100; dec 97 100; dec 97 100]) = true.
Proof.
  split; [reflexivity|]. split; [discriminate|].
  apply (@mean_reduce_between_exact baseline hitRate equal_hit_rates
           [dec 97 100; dec 97 100; dec 97 100]).
  - reflexivity.
  - discriminate.
Defined.

(** C7 as stated fails in double precision: the mean of the hit rates
    0.97, 0.97, 0.97 is computed as 0.9700000000000001, above their
    maximum; so the statement proved above for [exact] does not hold for
    [binary64]. *)
Lemma mean_reduce_binary64_above_max :
  (exists values m,
      field_values baseline hitRate (equal_hit_rates (F := float)) = Ok values
      /\ values <> []
      /\ mean_reduce baseline hitRate (equal_hit_rates (F := float)) = Ok m
      /\ m = 0x1.f0a3d70a3d70bp-1%float
      /\ py_max values = 0x1.f0a3d70a3d70ap-1%float
      /\ fle m (py_max values) = false
      /\ flt (py_max values) m = true)
  /\ ~ (forall (scenarios : scenarios_t float) (values : list float),
          field_values baseline hitRate scenarios = Ok values ->
          values <> [] ->
          exists m, mean_reduce baseline hitRate scenarios = Ok m
                    /\ fle (py_min values) m = true /\ fle m (py_max values) = true).
Proof.
  split.
  - exists [dec 97 100; dec 97 100; dec 97 100].
    exists (np_mean [dec 97 100; dec 97 100; dec 97 100]).
    split; [reflexivity|]. split; [discriminate|].
    split; [reflexivity|]. repeat split; vm_compute; reflexivity.
  - intros Hall.
    destruct (Hall equal_hit_rates [dec 97 100; dec 97 100; dec 97 100] eq_refl)
      as [m [Hm [_ Hhi]]]; [discriminate|].
    vm_compute in Hm. injection Hm as Hm. subst m.
    vm_compute in Hhi. discriminate Hhi.
Qed.

(** ** Area under a constant latency curve *)

Lemma request_numbers_constant {F : Type} (L : F) (d : Z) (n : nat) :
  forall x0, request_numbers (constant_series L x0 d n) = Ok (progression x0 d n).
Proof.
  unfold request_numbers. induction n as [|n IH]; intros x0; simpl; [reflexivity|].
  rewrite IH. reflexivity.
Qed.

Lemma latencies_constant {F : Type} (L : F) (d : Z) (n : nat) :
  forall x0,
    mapM (fun p => getitem "avgLatency" (Point.avgLatency p)) (constant_series L x0 d n)
    = Ok (repeat L n).
Proof.
  induction n as [|n IH]; intros x0; simpl; [reflexivity|].
  rewrite IH. reflexivity.
Qed.

Lemma latency_auc_constant {F : Type} `{PyFloat F} (L : F) (x0 d : Z) (n : nat) :
  latency_auc (constant_series L x0 d n)
  = Ok (np_trapz (repeat L n) (progression x0 d n)).
Proof.
  unfold latency_auc.
  rewrite request_numbers_constant, latencies_constant. reflexivity.
Qed.

(** The trapezoids under a constant telescope. *)
Lemma np_trapz_constant_exact (L : Q) (xs : list Z) :
  forall x,
    (np_trapz (repeat L (S (List.length xs))) (x :: xs)
     == L * inject_Z (final x xs - x))%Q.
Proof.
  unfold np_trapz, np_sum.
  induction xs as [|x1 xs IH]; intros x.
  - simpl. unfold final. simpl. rewrite Z.sub_diag. ring.
  - change (trapz_terms (repeat L (S (List.length (x1 :: xs)))) (x :: x1 :: xs))
      with (fdiv (fmul (of_int (x1 - x)) (fadd L L)) (of_int 2)
              :: trapz_terms (repeat L (S (List.length xs))) (x1 :: xs)).
    cbn [fold_left]. rewrite fold_left_Qplus_shift, (IH x1).
    change (final x (x1 :: xs)) with (final x1 xs).
    simpl. unfold Z.sub. rewrite !inject_Z_plus, !inject_Z_opp. field.
Qed.

Lemma progression_length (d : Z) (n : nat) :
  forall x0, List.length (progression x0 d n) = n.
Proof.
  induction n as [|n IH]; intros x0; simpl; [reflexivity|]. rewrite IH. reflexivity.
Qed.

Lemma progression_nondecreasing (d : Z) (n : nat) :
  0 <= d -> forall x0, nondecreasing (progression x0 d n) = true.
Proof.
  intros Hd. induction n as [|n IH]; intros x0; [reflexivity|].
  specialize (IH (x0 + d)). destruct n as [|n]; [reflexivity|].
  change (((x0 <=? x0 + d) && nondecreasing (progression (x0 + d) d (S n))) = true).
  rewrite IH, andb_true_r. apply Z.leb_le. lia.
Qed.

Lemma nondecreasing_lower (xs : list Z) :
  forall x, nondecreasing (x :: xs) = true -> Forall (fun y => x <= y) xs.
Proof.
  induction xs as [|y xs IH]; intros x Hs; [constructor|].
  change (((x <=? y) && nondecreasing (y :: xs)) = true) in Hs.
  apply andb_true_iff in Hs. destruct Hs as [Hle Hs]. apply Z.leb_le in Hle.
  constructor; [exact Hle|].
  specialize (IH y Hs). revert IH. apply Forall_impl. intros; lia.
Qed.

Lemma fold_min_lower (xs : list Z) :
  forall x, Forall (fun y => x <= y) xs -> fold_left Z.min xs x = x.
Proof.
  induction xs as [|y xs IH]; intros x Hall; [reflexivity|].
  inversion Hall; subst. simpl. rewrite Z.min_l by assumption. apply IH. assumption.
Qed.

Lemma fold_max_final (xs : list Z) :
  forall x, nondecreasing (x :: xs) = true -> fold_left Z.max xs x = final x xs.
Proof.
  induction xs as [|y xs IH]; intros x Hs; [reflexivity|].
  change (((x <=? y) && nondecreasing (y :: xs)) = true) in Hs.
  apply andb_true_iff in Hs. destruct Hs as [Hle Hs]. apply Z.leb_le in Hle.
  simpl. rewrite Z.max_r by assumption. apply IH. exact Hs.
Qed.

(** C8, in exact arithmetic.  For a constant latency [L] sampled at [n]
    evenly spaced request numbers, the trapezoidal area is [L] times the
    distance from the least to the greatest request number. *)
Theorem latency_auc_constant_exact (L : Q) (x0 d : Z) (n : nat) :
  0 <= d ->
  exists reqs v,
    request_numbers (constant_series L x0 d n) = Ok reqs
    /\ latency_auc (constant_series L x0 d n) = Ok v
    /\ feqb v (fmul L (of_int (int_max reqs - int_min reqs))) = true.
Proof.
  intros Hd.
  exists (progression x0 d n), (np_trapz (repeat L n) (progression x0 d n)).
  split; [apply request_numbers_constant|].
  split; [apply latency_auc_constant|].
  apply Qeq_bool_iff. destruct n as [|n].
  - simpl. unfold np_trapz, np_sum. simpl. ring.
  - pose proof (progression_nondecreasing (S n) Hd x0) as Hs.
    change (progression x0 d (S n)) with (x0 :: progression (x0 + d) d n) in *.
    unfold int_max, int_min.
    rewrite (fold_max_final _ _ Hs), (fold_min_lower (nondecreasing_lower _ _ Hs)).
    rewrite <- (progression_length d n (x0 + d)) at 1.
    apply np_trapz_constant_exact.
Qed.

Lemma latency_auc_constant_exact_witness :
  0 <= 100
  /\ exists reqs v,
       request_numbers (constant_series (109 # 100)%Q 100 100 4) = Ok reqs
       /\ latency_auc (constant_series (109 # 100)%Q 100 100 4) = Ok v
       /\ feqb v (fmul (109 # 100)%Q (of_int (int_max reqs - int_min reqs))) = true.
Proof.
  split; [lia|].
  apply (@latency_auc_constant_exact (109 # 100)%Q 100 100 4). lia.
Defined.

(** C8 as stated fails in double precision: for latency 1.09 at the request
    numbers 100, 200, 300, 400 the trapezoids add up to 327.00000000000006,
    and 1.09 * (400 - 100) is 327.0; so the statement proved above for
    [exact] does not hold for [binary64]. *)
Lemma latency_auc_binary64_inexact :
  (exists reqs v,
      request_numbers (constant_series (F := float) (dec 109 100) 100 100 4) = Ok reqs
      /\ latency_auc (constant_series (F := float) (dec 109 100) 100 100 4) = Ok v
      /\ int_max reqs = 400 /\ int_min reqs = 100
      /\ v = 0x1.4700000000001p+8%float
      /\ fmul (dec 109 100) (of_int (400 - 100)) = 0x1.47p+8%float
      /\ feqb v (fmul (dec 109 100) (of_int (int_max reqs - int_min reqs))) = false)
  /\ ~ (forall (L : float) (x0 d : Z) (n : nat),
          0 <= d ->
          exists reqs v,
            request_numbers (constant_series L x0 d n) = Ok reqs
            /\ latency_auc (constant_series L x0 d n) = Ok v
            /\ feqb v (fmul L (of_int (int_max reqs - int_min reqs))) = true).
Proof.
  split.
  - exists [100; 200; 300; 400].
    exists (np_trapz (repeat (dec 109 100) 4) [100; 200; 300; 400]).
    repeat split; vm_compute; reflexivity.
  - intros Hall.
    destruct (Hall (dec 109 100) 100 100 4%nat) as [reqs [v [Hreqs [Hv Heq]]]]; [lia|].
    vm_compute in Hreqs. injection Hreqs as Hreqs. subst reqs.
    vm_compute in Hv. injection Hv as Hv. subst v.
    vm_compute in Heq. discriminate Heq.
Qed.

(** ** The summary table *)

Lemma bind_ok {A B : Type} (m : result A) (k : A -> result B) (b : B) :
  bind m k = Ok b -> exists a, m = Ok a /\ k a = Ok b.
Proof.
  destruct m as [a|e]; simpl; [|discriminate]. intros Hk. exists a. split; [reflexivity | exact Hk].
Qed.

Ltac bind_inv H :=
  repeat match type of H with
         | bind ?m _ = Ok _ =>
             let a := fresh "a" in
             let Ha := fresh "Ha" in
             apply bind_ok in H; destruct H as [a [Ha H]]
         end.

Lemma scenario_winner_rule (sh_err ml_err : Z) :
  (scenario_winner sh_err ml_err = "Tie" <-> ml_err = sh_err)
  /\ (scenario_winner sh_err ml_err = "ML" <-> ml_err < sh_err)
  /\ (scenario_winner sh_err ml_err = "Self-Healing" <-> sh_err < ml_err).
Proof.
  unfold scenario_winner.
  destruct (Z.eqb_spec ml_err sh_err) as [Heq|Hne];
    destruct (Z.leb_spec ml_err sh_err) as [Hle|Hgt];
    repeat split; intros; try discriminate; try reflexivity; lia.
Qed.

Lemma total_winner_rule (total_sh total_ml : Z) :
  (total_winner total_sh total_ml = "ML" <-> total_ml <= total_sh)
  /\ (total_winner total_sh total_ml = "Self-Healing" <-> total_sh < total_ml).
Proof.
  unfold total_winner.
  destruct (Z.leb_spec total_ml total_sh) as [Hle|Hgt];
    repeat split; intros; try discriminate; try reflexivity; lia.
Qed.

Section SummaryTable.

Context {F : Type} `{PyFloat F}.

Lemma scenario_row_fields (entry : string * Scenario.t F) (row : table_row) :
  scenario_row entry = Ok row ->
  failed_of baseline (snd entry) = Ok (row_baseline row)
  /\ failed_of selfHealing (snd entry) = Ok (row_sh row)
  /\ failed_of selfHealingML (snd entry) = Ok (row_ml row)
  /\ row_winner row = scenario_winner (row_sh row) (row_ml row).
Proof.
  destruct entry as [name scenario]. unfold scenario_row. intros Hrow.
  bind_inv Hrow. inversion Hrow; subst; clear Hrow. simpl.
  unfold failed_of. repeat split; assumption.
Qed.

Lemma scenario_rows_fields (scenarios : scenarios_t F) :
  forall body,
    mapM scenario_row scenarios = Ok body ->
    Forall2 (fun entry row =>
               failed_of selfHealing (snd entry) = Ok (row_sh row)
               /\ failed_of selfHealingML (snd entry) = Ok (row_ml row)
               /\ scenario_rule row)
            scenarios body.
Proof.
  induction scenarios as [|entry scenarios IH]; intros body Hbody; simpl in Hbody.
  - inversion Hbody. constructor.
  - bind_inv Hbody. inversion Hbody; subst; clear Hbody.
    constructor; [|apply IH; assumption].
    destruct (scenario_row_fields _ Ha) as [_ [Hsh [Hml Hwin]]].
    repeat split; try assumption; unfold scenario_rule; rewrite Hwin;
      apply scenario_winner_rule.
Qed.

(** The column the TOTAL row sums is the column of the scenario rows. *)
Lemma field_values_rows (variant : key_of (Scenario.t F) (Variant.t F))
  (column : table_row -> Z) (scenarios : scenarios_t F) :
  (forall entry row,
      scenario_row entry = Ok row -> failed_of variant (snd entry) = Ok (column row)) ->
  forall body xs,
    mapM scenario_row scenarios = Ok body ->
    field_values variant failedRequests scenarios = Ok xs ->
    xs = map column body.
Proof.
  intros Hcol. unfold field_values.
  induction scenarios as [|entry scenarios IH]; intros body xs Hbody Hxs;
    simpl in Hbody, Hxs.
  - inversion Hbody. inversion Hxs. reflexivity.
  - bind_inv Hbody. inversion Hbody; subst; clear Hbody.
    bind_inv Hxs. inversion Hxs; subst; clear Hxs.
    pose proof (Hcol _ _ Ha) as Hfield. unfold failed_of in Hfield.
    rewrite Hfield in Ha1. inversion Ha1; subst.
    simpl. f_equal. apply IH; assumption.
Qed.

Lemma total_row_fields (scenarios : scenarios_t F) (total : table_row) :
  total_row scenarios = Ok total ->
  exists xs_sh xs_ml,
    field_values selfHealing failedRequests scenarios = Ok xs_sh
    /\ field_values selfHealingML failedRequests scenarios = Ok xs_ml
    /\ row_sh total = py_sum xs_sh
    /\ row_ml total = py_sum xs_ml
    /\ row_winner total = total_winner (row_sh total) (row_ml total).
Proof.
  unfold total_row, sum_reduce.
  destruct (field_values baseline failedRequests scenarios) as [xs_b|];
    [|discriminate].
  destruct (field_values selfHealing failedRequests scenarios) as [xs_sh|];
    [|discriminate].
  destruct (field_values selfHealingML failedRequests scenarios) as [xs_ml|];
    [|discriminate].
  cbn [bind]. intros Htotal. bind_inv Htotal.
  inversion Htotal; subst; clear Htotal. simpl.
  exists xs_sh, xs_ml. repeat split; reflexivity.
Qed.

Lemma improvement_guarded_returns (before after : Z) :
  exists v, improvement_guarded before after = Ok v.
Proof.
  unfold improvement_guarded, improvement_unguarded, truediv.
  destruct (Z.ltb_spec 0 before) as [Hpos|_]; [|eexists; reflexivity].
  destruct (Z.eqb_spec before 0) as [Hz|_]; [lia | eexists; reflexivity].
Qed.

Lemma improvement_unguarded_returns (before after : Z) :
  before <> 0 -> exists v, improvement_unguarded before after = Ok v.
Proof.
  intros Hnz. unfold improvement_unguarded, truediv.
  destruct (Z.eqb_spec before 0) as [Hz|_]; [contradiction | eexists; reflexivity].
Qed.

Lemma scenario_row_returns (entry : string * Scenario.t F) :
  has_failed_counts (snd entry) -> exists row, scenario_row entry = Ok row.
Proof.
  destruct entry as [name scenario]. intros [b [sh [ml [Hb [Hsh Hml]]]]].
  simpl in Hb, Hsh, Hml. unfold failed_of in Hb, Hsh, Hml.
  unfold scenario_row. rewrite Hb, Hsh, Hml. cbn [bind].
  destruct (improvement_guarded_returns b sh) as [sh_imp Hsh_imp].
  destruct (improvement_guarded_returns b ml) as [ml_imp Hml_imp].
  rewrite Hsh_imp, Hml_imp. cbn [bind]. eexists. reflexivity.
Qed.

Lemma scenario_rows_return (scenarios : scenarios_t F) :
  Forall (fun entry => has_failed_counts (snd entry)) scenarios ->
  exists body, mapM scenario_row scenarios = Ok body.
Proof.
  induction 1 as [|entry scenarios Hentry _ [body IH]].
  - exists []. reflexivity.
  - destruct (scenario_row_returns entry Hentry) as [row Hrow].
    cbn [mapM]. rewrite Hrow, IH. cbn [bind]. eexists. reflexivity.
Qed.

Lemma field_values_return (variant : key_of (Scenario.t F) (Variant.t F))
  (scenarios : scenarios_t F) :
  Forall (fun entry : string * Scenario.t F =>
            exists x, failed_of variant (snd entry) = Ok x) scenarios ->
  exists xs, field_values variant failedRequests scenarios = Ok xs.
Proof.
  unfold field_values.
  induction 1 as [|entry scenarios [x Hx] _ [xs IH]].
  - exists []. reflexivity.
  - unfold failed_of in Hx. cbn [mapM]. rewrite Hx. cbn [bind].
    rewrite IH. cbn [bind]. eexists. reflexivity.
Qed.

(** The table is built whenever every scenario has its three error counts
    and the baseline total is not 0. *)
Lemma summary_table_returns (data : Experiment.t F) (scenarios : scenarios_t F)
  (total_b : Z) :
  Experiment.scenarios data = Some scenarios ->
  Forall (fun entry => has_failed_counts (snd entry)) scenarios ->
  sum_reduce baseline failedRequests scenarios = Ok total_b ->
  total_b <> 0 ->
  exists rows, create_summary_table data = Ok rows.
Proof.
  intros Hdata Hall Htotal Hnz.
  unfold create_summary_table, scenarios_of. rewrite Hdata. cbn [getitem bind].
  destruct (scenario_rows_return Hall) as [body Hbody]. rewrite Hbody. cbn [bind].
  unfold total_row. rewrite Htotal. cbn [bind].
  assert (Hsh : exists xs, field_values selfHealing failedRequests scenarios = Ok xs).
  { apply field_values_return. revert Hall. apply Forall_impl.
    intros entry [b [sh [ml [_ [Hsh _]]]]]. exists sh. exact Hsh. }
  assert (Hml : exists xs, field_values selfHealingML failedRequests scenarios = Ok xs).
  { apply field_values_return. revert Hall. apply Forall_impl.
    intros entry [b [sh [ml [_ [_ Hml]]]]]. exists ml. exact Hml. }
  destruct Hsh as [xs_sh Hsh]. destruct Hml as [xs_ml Hml].
  unfold sum_reduce. rewrite Hsh, Hml. cbn [bind].
  destruct (improvement_unguarded_returns (py_sum xs_sh) Hnz) as [v1 Hv1].
  destruct (improvement_unguarded_returns (py_sum xs_ml) Hnz) as [v2 Hv2].
  rewrite Hv1, Hv2. cbn [bind]. eexists. reflexivity.
Qed.

(** C10.  When [create_summary_table] builds its table, the rows are one
    row per scenario, in order, followed by the TOTAL row.  In a scenario
    row the Winner cell is Tie exactly when the ML and self-healing error
    counts are equal, ML exactly when the ML count is smaller, Self-Healing
    exactly when it is greater.  The TOTAL row sums the two columns and its
    Winner cell is ML whenever the ML total is at most the self-healing
    total, Self-Healing otherwise: equal totals are labelled ML. *)
Theorem summary_table_winner (data : Experiment.t F) (rows : list table_row) :
  create_summary_table data = Ok rows ->
  exists scenarios body total,
    Experiment.scenarios data = Some scenarios
    /\ rows = (body ++ [total])%list
    /\ Forall2 (fun entry row =>
                  failed_of selfHealing (snd entry) = Ok (row_sh row)
                  /\ failed_of selfHealingML (snd entry) = Ok (row_ml row)
                  /\ scenario_rule row)
               scenarios body
    /\ row_sh total = py_sum (map row_sh body)
    /\ row_ml total = py_sum (map row_ml body)
    /\ total_rule total
    /\ (row_ml total = row_sh total -> row_winner total = "ML").
Proof.
  unfold create_summary_table, scenarios_of. intros Hrows.
  destruct (Experiment.scenarios data) as [scenarios|]; simpl in Hrows; [|discriminate].
  bind_inv Hrows. inversion Hrows; subst; clear Hrows.
  rename a into body, a0 into total, Ha into Hbody, Ha0 into Htotal.
  exists scenarios, body, total. split; [reflexivity|]. split; [reflexivity|].
  split; [apply scenario_rows_fields; exact Hbody|].
  destruct (total_row_fields _ Htotal)
    as [xs_sh [xs_ml [Hsh [Hml [Hsum_sh [Hsum_ml Hwin]]]]]].
  split.
  { rewrite Hsum_sh. f_equal.
    apply (@field_values_rows selfHealing row_sh scenarios
             (fun e r Hr => proj1 (proj2 (scenario_row_fields e Hr)))
             body xs_sh Hbody Hsh). }
  split.
  { rewrite Hsum_ml. f_equal.
    apply (@field_values_rows selfHealingML row_ml scenarios
             (fun e r Hr => proj1 (proj2 (proj2 (scenario_row_fields e Hr))))
             body xs_ml Hbody Hml). }
  split; [unfold total_rule; rewrite Hwin; apply total_winner_rule|].
  intros Heq. rewrite Hwin. apply total_winner_rule. lia.
Qed.

End SummaryTable.

Lemma summary_table_winner_witness :
  exists rows,
    create_summary_table (Experiment.make (Some (tied_totals (F := Q)))) = Ok rows
    /\ map (row_name (F := Q)) rows
       = ["High Failure"; "Cache Corruption"; "Gradual Degradation"; "TOTAL"]
    /\ map (row_winner (F := Q)) rows = ["ML"; "Self-Healing"; "Tie"; "ML"]
    /\ exists scenarios body total,
         Experiment.scenarios (Experiment.make (Some (tied_totals (F := Q))))
         = Some scenarios
         /\ rows = (body ++ [total])%list
         /\ Forall2 (fun entry row =>
                       failed_of selfHealing (snd entry) = Ok (row_sh row)
                       /\ failed_of selfHealingML (snd entry) = Ok (row_ml row)
                       /\ scenario_rule row)
                    scenarios body
         /\ row_sh total = py_sum (map (row_sh (F := Q)) body)
         /\ row_ml total = py_sum (map (row_ml (F := Q)) body)
         /\ total_rule total
         /\ (row_ml total = row_sh total -> row_winner total = "ML").
Proof.
  eexists. split; [reflexivity|]. split; [reflexivity|]. split; [reflexivity|].
  apply (@summary_table_winner Q exact (Experiment.make (Some tied_totals))).
  reflexivity.
Defined.

(** ** Percentage improvement *)

Section Improvement.

Context {F : Type} `{PyFloat F}.

(** The guarded form: the quotient times 100 for a positive [before], 0 for
    [before = 0], and no exception. *)
Lemma improvement_guarded_value (before after : Z) :
  0 <= before ->
  improvement_guarded before after
  = Ok (if before =? 0 then of_int 0
        else fmul (fdiv (of_int (before - after)) (of_int before)) (of_int 100)).
Proof.
  intros Hb. unfold improvement_guarded, improvement_unguarded, truediv.
  destruct (Z.ltb_spec 0 before) as [Hpos|Hle].
  - destruct (Z.eqb_spec before 0) as [Hz|_]; [lia | reflexivity].
  - destruct (Z.eqb_spec before 0) as [_|Hnz]; [reflexivity | lia].
Qed.

(** C2, the call sites on summed failures.  With a baseline that never
    failed the total is 0: [create_improvement_chart] and the TOTAL row of
    [create_summary_table] divide by it and raise [ZeroDivisionError], where
    the specification has them return 0; the guarded form used for the
    scenario rows and for ML against self-healing returns 0 on the same
    numbers. *)
Theorem improvement_on_zero_total :
  sum_reduce baseline failedRequests (no_failures (F := F)) = Ok 0
  /\ create_improvement_chart (Experiment.make (Some (no_failures (F := F))))
     = Raise ZeroDivisionError
  /\ create_summary_table (Experiment.make (Some (no_failures (F := F))))
     = Raise ZeroDivisionError
  /\ improvement_guarded (F := F) 0 0 = Ok (of_int 0).
Proof.
  repeat split; reflexivity.
Qed.

End Improvement.

(** ** The loader *)

Section LoaderFacts.

Variable J : Type.
Variable empty_dict : J.
Variable json_loads : string -> result J.

(** Absent files are skipped, for each of the three names. *)
Lemma load_nothing :
  load_experiment_data empty_dict json_loads (fun _ => None)
  = Ok (empty_dict, empty_dict, empty_dict).
Proof. reflexivity. Qed.

(** C5, the file [cache_statistics.json].  A text that begins with the
    error marker is skipped when it is [experiments.json] or
    [ml_training_data.json]; when it is [cache_statistics.json] it is handed
    to the parser and what the parser returns is the loaded statistics. *)
Theorem load_error_marker :
  String.prefix error_marker error_report = true
  /\ load_experiment_data empty_dict json_loads
       (only "experiment_results/experiments.json" error_report)
     = Ok (empty_dict, empty_dict, empty_dict)
  /\ load_experiment_data empty_dict json_loads
       (only "experiment_results/ml_training_data.json" error_report)
     = Ok (empty_dict, empty_dict, empty_dict)
  /\ load_experiment_data empty_dict json_loads
       (only "experiment_results/cache_statistics.json" error_report)
     = (cache_stats <- json_loads error_report ;;
        Ok (empty_dict, cache_stats, empty_dict)).
Proof.
  repeat split; reflexivity.
Qed.

End LoaderFacts.

(** ** Absent keys *)

Lemma filter_length_all {A : Type} (f : A -> bool) (l : list A) :
  (List.length (filter f l) <= List.length l)%nat
  /\ (List.length (filter f l) = List.length l <-> forallb f l = true).
Proof.
  induction l as [|a l [IHle IHeq]]; [split; [simpl; lia | split; reflexivity]|].
  simpl. destruct (f a); simpl.
  - split; [lia|]. rewrite <- IHeq. split; intros; lia.
  - split; [lia|]. split; [intros; lia | discriminate].
Qed.

Section AbsentKeys.

Context {F : Type} `{PyFloat F}.

Local Open Scope list_scope.

Lemma time_series_absent_empty (variant : option (Variant.t F)) :
  time_series_absent variant = true -> is_empty (time_series_of variant) = true.
Proof.
  unfold time_series_of. destruct variant as [v|]; simpl; [|reflexivity].
  destruct (Variant.timeSeries v); [discriminate | reflexivity].
Qed.

Lemma absent_lacks (scenario : Scenario.t F) :
  a_time_series_absent scenario = true -> lacks_time_series scenario = true.
Proof.
  unfold a_time_series_absent, lacks_time_series. intros Habs.
  apply orb_true_iff in Habs. destruct Habs as [Habs|Habs].
  - apply orb_true_iff in Habs. destruct Habs as [Habs|Habs];
      rewrite (time_series_absent_empty _ Habs); [reflexivity|].
    rewrite orb_true_r. reflexivity.
  - rewrite (time_series_absent_empty _ Habs). apply orb_true_r.
Qed.

Lemma mttr_bars_skip (name : string) (scenario : Scenario.t F)
  (pre post : scenarios_t F) :
  lacks_time_series scenario = true ->
  mttr_bars (pre ++ (name, scenario) :: post) = mttr_bars (pre ++ post).
Proof.
  intros Hlacks. induction pre as [|[n s] pre IH]; simpl.
  - rewrite Hlacks. reflexivity.
  - rewrite IH. reflexivity.
Qed.

Lemma recovery_charts_skip (scenarios : scenarios_t F) (name : string)
  (scenario : Scenario.t F) (pre post : list string) :
  lookup name scenarios = Some scenario ->
  lacks_time_series scenario = true ->
  recovery_charts scenarios (pre ++ name :: post)
  = recovery_charts scenarios (pre ++ post).
Proof.
  intros Hlookup Hlacks. induction pre as [|n pre IH]; simpl.
  - unfold recovery_chart_for. rewrite Hlookup, Hlacks. simpl.
    destruct (recovery_charts scenarios post); reflexivity.
  - rewrite IH. reflexivity.
Qed.

Lemma auc_panels_skip (scenarios : scenarios_t F) (name : string)
  (scenario : Scenario.t F) (pre post : list string) :
  lookup name scenarios = Some scenario ->
  lacks_time_series scenario = true ->
  auc_panels scenarios (pre ++ name :: post) = auc_panels scenarios (pre ++ post).
Proof.
  intros Hlookup Hlacks. induction pre as [|n pre IH]; simpl.
  - unfold auc_panel_for. rewrite Hlookup, Hlacks. simpl.
    destruct (auc_panels scenarios post); reflexivity.
  - rewrite IH. reflexivity.
Qed.

Lemma accuracy_metrics_skip (name : string) (scenario : Scenario.t F)
  (pre post : scenarios_t F) :
  prediction_accuracy_absent scenario = true ->
  accuracy_metrics (pre ++ (name, scenario) :: post) = accuracy_metrics (pre ++ post).
Proof.
  intros Habs.
  assert (Hfalse : Accuracy.truthy (pred_acc_of scenario) = false).
  { unfold pred_acc_of, prediction_accuracy_absent in *.
    destruct (Scenario.selfHealingML scenario) as [v|]; simpl; [|reflexivity].
    destruct (Variant.predictionAccuracy v); [discriminate | reflexivity]. }
  induction pre as [|[n s] pre IH]; simpl.
  - rewrite Hfalse. reflexivity.
  - rewrite IH. reflexivity.
Qed.

Lemma accuracy_metrics_lengths (scenarios : scenarios_t F) :
  List.length (f1_scores (accuracy_metrics scenarios)) = with_accuracy scenarios
  /\ List.length (precisions (accuracy_metrics scenarios)) = with_accuracy scenarios
  /\ List.length (recalls (accuracy_metrics scenarios)) = with_accuracy scenarios
  /\ List.length (total_preds (accuracy_metrics scenarios)) = with_accuracy scenarios.
Proof.
  unfold with_accuracy.
  induction scenarios as [|[name scenario] scenarios [I1 [I2 [I3 I4]]]];
    [repeat split|].
  simpl. destruct (Accuracy.truthy (pred_acc_of scenario)); simpl.
  - rewrite I1, I2, I3, I4. repeat split.
  - repeat split; assumption.
Qed.

Lemma with_accuracy_le (scenarios : scenarios_t F) :
  (with_accuracy scenarios <= List.length scenarios)%nat.
Proof.
  unfold with_accuracy. apply filter_length_all.
Qed.

Lemma with_accuracy_skip (name : string) (scenario : Scenario.t F)
  (pre post : scenarios_t F) :
  prediction_accuracy_absent scenario = true ->
  with_accuracy (pre ++ (name, scenario) :: post) = with_accuracy (pre ++ post).
Proof.
  intros Habs.
  destruct (accuracy_metrics_lengths (pre ++ (name, scenario) :: post)) as [L _].
  destruct (accuracy_metrics_lengths (pre ++ post)) as [L' _].
  rewrite <- L, <- L', (accuracy_metrics_skip name scenario pre post Habs).
  reflexivity.
Qed.

Lemma bar_same_length {A : Type} (height : list A) (positions : nat) :
  List.length height = positions -> bar positions height = Ok tt.
Proof.
  intros Hlen. unfold bar, broadcastable. rewrite Hlen, Nat.eqb_refl. reflexivity.
Qed.

(** The outcome of [create_ml_learning_curves] is decided by the first
    [ax1.bar] call: the lists of the later panels have one entry per
    scenario. *)
Lemma learning_curves_cases (data : Experiment.t F) :
  create_ml_learning_curves data
  = let scenarios := dict_get (Experiment.scenarios data) [] in
    if broadcastable (List.length scenarios) (with_accuracy scenarios) then
      Ok {| accuracy_panel := accuracy_metrics scenarios;
            success_rate_panel :=
              improvement_bars (@Improvements.successRateImprovement F) scenarios;
            response_time_panel :=
              improvement_bars (@Improvements.responseTimeImprovement F) scenarios;
            significance_panel := significance_bars scenarios |}
    else Raise ValueError.
Proof.
  unfold create_ml_learning_curves.
  set (scenarios := dict_get (Experiment.scenarios data) []). cbv zeta.
  destruct (accuracy_metrics_lengths scenarios) as [L1 [L2 [L3 _]]].
  unfold bar at 1 2 3. rewrite L1, L2, L3.
  destruct (broadcastable (List.length scenarios) (with_accuracy scenarios));
    cbn [bind]; [|reflexivity].
  unfold improvement_bars. cbn [fst snd].
  rewrite !bar_same_length by apply length_map. cbn [bind].
  destruct (0 <? List.length scenarios)%nat; [|reflexivity].
  unfold significance_rows, significance_bars. cbn [mapM].
  rewrite !bar_same_length by (rewrite !length_map; reflexivity).
  reflexivity.
Qed.

(** C3.  The skip of the claim is what the code does for [timeSeries]: a
    scenario in which the key cannot be read for one of the three variants
    is passed over by [create_mttr_comparison], [create_recovery_curves] and
    [create_latency_area_under_curve], whose result is that of the record
    without it.  It is not what the code does for [predictionAccuracy].  The
    loop of [create_ml_learning_curves] leaves the scenario out of the
    accuracy lists, but the lists are then drawn against one position per
    scenario: unless exactly one of the other scenarios has a
    [predictionAccuracy], [ax1.bar] raises [ValueError], although the record
    without the scenario gives the chart when all its scenarios have one. *)
Theorem absent_prediction_accuracy_raises (name : string) (scenario : Scenario.t F) :
  (a_time_series_absent scenario = true ->
   (forall pre post,
       create_mttr_comparison
         (Experiment.make (Some (pre ++ (name, scenario) :: post)))
       = create_mttr_comparison (Experiment.make (Some (pre ++ post))))
   /\ (forall scenarios pre post,
          lookup name scenarios = Some scenario ->
          recovery_charts scenarios (pre ++ name :: post)
          = recovery_charts scenarios (pre ++ post)
          /\ auc_panels scenarios (pre ++ name :: post)
             = auc_panels scenarios (pre ++ post)))
  /\ (prediction_accuracy_absent scenario = true ->
      forall pre post,
        accuracy_metrics (pre ++ (name, scenario) :: post)
        = accuracy_metrics (pre ++ post)
        /\ (pre ++ post <> [] ->
            with_accuracy (pre ++ post) <> 1%nat ->
            create_ml_learning_curves
              (Experiment.make (Some (pre ++ (name, scenario) :: post)))
            = Raise ValueError)
        /\ (with_accuracy (pre ++ post) = List.length (pre ++ post) ->
            exists curves,
              create_ml_learning_curves (Experiment.make (Some (pre ++ post)))
              = Ok curves
              /\ accuracy_panel curves
                 = accuracy_metrics (pre ++ (name, scenario) :: post))).
Proof.
  split.
  - intros Habs. apply absent_lacks in Habs. split.
    + intros pre post. unfold create_mttr_comparison. simpl.
      rewrite mttr_bars_skip by exact Habs. reflexivity.
    + intros scenarios pre post Hlookup. split.
      * apply recovery_charts_skip with (scenario := scenario); assumption.
      * apply auc_panels_skip with (scenario := scenario); assumption.
  - intros Habs pre post.
    pose proof (accuracy_metrics_skip name scenario pre post Habs) as Hskip.
    split; [exact Hskip|]. split.
    + intros Hother Hone. rewrite learning_curves_cases.
      cbn [Experiment.scenarios dict_get]. cbv zeta.
      rewrite (with_accuracy_skip name scenario pre post Habs).
      pose proof (with_accuracy_le (pre ++ post)) as Hle.
      assert (Hlen : List.length (pre ++ (name, scenario) :: post)
                     = S (List.length (pre ++ post))).
      { rewrite !length_app. simpl. lia. }
      assert (Hpos : List.length (pre ++ post) <> 0%nat).
      { destruct (pre ++ post); [contradiction | discriminate]. }
      rewrite Hlen. unfold broadcastable.
      destruct (Nat.eqb_spec (S (List.length (pre ++ post)))
                             (with_accuracy (pre ++ post))) as [E|_]; [lia|].
      destruct (Nat.eqb_spec (S (List.length (pre ++ post))) 1) as [E|_]; [lia|].
      destruct (Nat.eqb_spec (with_accuracy (pre ++ post)) 1) as [E|_];
        [contradiction|].
      reflexivity.
    + intros Hall. rewrite learning_curves_cases.
      cbn [Experiment.scenarios dict_get]. cbv zeta.
      unfold broadcastable. rewrite Hall, Nat.eqb_refl. cbn [orb].
      eexists. split; [reflexivity|]. cbn [accuracy_panel].
      symmetry. exact Hskip.
Qed.

End AbsentKeys.

Lemma absent_prediction_accuracy_raises_witness :
  a_time_series_absent (bare_ml (F := float)) = true
  /\ prediction_accuracy_absent (bare_ml (F := float)) = true
  /\ with_accuracy ([("cascading_failure", with_prediction_accuracy (F := float))]
                    ++ [("gradual_degradation", with_prediction_accuracy)])%list
     = 2%nat
  /\ create_mttr_comparison
       (Experiment.make
          (Some ([("cascading_failure", with_prediction_accuracy (F := float))]
                   ++ ("high_failure", bare_ml)
                   :: [("gradual_degradation", with_prediction_accuracy)])%list))
     = create_mttr_comparison
         (Experiment.make
            (Some ([("cascading_failure", with_prediction_accuracy (F := float))]
                     ++ [("gradual_degradation", with_prediction_accuracy)])%list))
  /\ create_ml_learning_curves
       (Experiment.make
          (Some ([("cascading_failure", with_prediction_accuracy (F := float))]
                   ++ ("high_failure", bare_ml)
                   :: [("gradual_degradation", with_prediction_accuracy)])%list))
     = Raise ValueError
  /\ exists curves,
       create_ml_learning_curves
         (Experiment.make
            (Some ([("cascading_failure", with_prediction_accuracy (F := float))]
                     ++ [("gradual_degradation", with_prediction_accuracy)])%list))
       = Ok curves
       /\ accuracy_panel curves
          = accuracy_metrics
              ([("cascading_failure", with_prediction_accuracy (F := float))]
                 ++ ("high_failure", bare_ml)
                 :: [("gradual_degradation", with_prediction_accuracy)])%list.
Proof.
  destruct (@absent_prediction_accuracy_raises float binary64 "high_failure" bare_ml)
    as [Hseries Haccuracy].
  destruct (Haccuracy eq_refl
              [("cascading_failure", with_prediction_accuracy (F := float))]
              [("gradual_degradation", with_prediction_accuracy (F := float))])
    as [_ [Hraise Hreturn]].
  split; [reflexivity|]. split; [reflexivity|]. split; [reflexivity|].
  split; [|split].
  - destruct (Hseries eq_refl) as [Hmttr _]. apply Hmttr.
  - apply Hraise; [discriminate | vm_compute; discriminate].
  - apply Hreturn. reflexivity.
Defined.

(** ** The [try] block of [main] *)

(** C4 as stated fails: when [create_recovery_curves] raises, the exception
    is caught and reported and the script ends normally, but the two chart
    functions that follow in the [try] block are never called. *)
Lemma main_skips_remaining_charts :
  run_main recovery_curves_fail None true
  = ((Load :: map Call leading_charts)
       ++ [Call Chart.create_ml_learning_curves; Call Chart.create_scenario_comparison;
           Call Chart.create_recovery_curves;
           PrintWarning (KeyError "hitRate"); PrintTraceback (KeyError "hitRate");
           PrintSuccess],
     Ok tt)%list
  /\ ~ In (Call Chart.create_mttr_comparison)
          (fst (run_main recovery_curves_fail None true))
  /\ ~ In (Call Chart.create_latency_area_under_curve)
          (fst (run_main recovery_curves_fail None true)).
Proof.
  split; [reflexivity|].
  split; vm_compute; intros Hin;
    repeat (destruct Hin as [Hin|Hin]; [discriminate Hin|]); exact Hin.
Qed.

Section MainFacts.

Variable outcome : Chart.t -> option exn.

Local Open Scope list_scope.

Lemma call_all_returns (cs : list Chart.t) :
  (forall c, In c cs -> outcome c = None) ->
  forall tr, call_all outcome cs tr = (tr ++ map Call cs, Ok tt).
Proof.
  induction cs as [|c cs IH]; intros Hall tr.
  - simpl. unfold skip. rewrite app_nil_r. reflexivity.
  - simpl. unfold andthen, call, andthen, emit, raise_if.
    rewrite (Hall c (or_introl eq_refl)).
    rewrite IH by (intros c' Hc'; apply Hall; right; exact Hc').
    rewrite <- app_assoc. reflexivity.
Qed.

Lemma call_all_raises (pre post : list Chart.t) (c : Chart.t) (e : exn) :
  (forall c', In c' pre -> outcome c' = None) ->
  outcome c = Some e ->
  forall tr,
    call_all outcome (pre ++ c :: post) tr = (tr ++ map Call pre ++ [Call c], Raise e).
Proof.
  induction pre as [|c0 pre IH]; intros Hpre Hc tr.
  - simpl. unfold andthen, call, andthen, emit, raise_if. rewrite Hc. reflexivity.
  - simpl. unfold andthen at 1. unfold call, andthen, emit, raise_if.
    rewrite (Hpre c0 (or_introl eq_refl)).
    fold (andthen (emit (Call c0)) (raise_if (outcome c0))).
    rewrite IH by (try assumption; intros c' Hc'; apply Hpre; right; exact Hc').
    rewrite <- app_assoc. reflexivity.
Qed.

(** C4, amended.  When the data loads, the seven leading charts are drawn
    and an experiment file exists, an exception of class [Exception] raised
    by one of the five chart functions of the [try] block is caught: the
    warning and the stack trace are printed, the chart functions after it
    in the block are not called, and the script goes on to its closing
    lines and ends normally. *)
Theorem main_catches (pre post : list Chart.t) (c : Chart.t) (e : exn) :
  (forall c', In c' leading_charts -> outcome c' = None) ->
  guarded_charts = pre ++ c :: post ->
  (forall c', In c' pre -> outcome c' = None) ->
  outcome c = Some e ->
  is_Exception e = true ->
  run_main outcome None true
  = ((Load :: map Call leading_charts) ++ map Call pre
       ++ [Call c; PrintWarning e; PrintTraceback e; PrintSuccess],
     Ok tt).
Proof.
  intros Hleading Hsplit Hpre Hc Hexn.
  unfold run_main, main.
  unfold andthen at 1. unfold emit at 1. simpl app.
  unfold andthen at 1. unfold raise_if at 1.
  unfold andthen at 1. rewrite (@call_all_returns leading_charts Hleading).
  unfold andthen at 1. unfold try_except.
  rewrite Hsplit, (@call_all_raises pre post c e Hpre Hc), Hexn.
  unfold andthen, emit. simpl.
  repeat rewrite <- app_assoc. reflexivity.
Qed.

End MainFacts.

Lemma main_catches_witness :
  (forall c', In c' leading_charts -> recovery_curves_fail c' = None)
  /\ guarded_charts
     = ([Chart.create_ml_learning_curves; Chart.create_scenario_comparison]
          ++ Chart.create_recovery_curves
          :: [Chart.create_mttr_comparison; Chart.create_latency_area_under_curve])%list
  /\ recovery_curves_fail Chart.create_recovery_curves = Some (KeyError "hitRate")
  /\ is_Exception (KeyError "hitRate") = true
  /\ run_main recovery_curves_fail None true
     = ((Load :: map Call leading_charts)
          ++ map Call [Chart.create_ml_learning_curves; Chart.create_scenario_comparison]
          ++ [Call Chart.create_recovery_curves; PrintWarning (KeyError "hitRate");
              PrintTraceback (KeyError "hitRate"); PrintSuccess],
        Ok tt)%list.
Proof.
  assert (Hleading : forall c', In c' leading_charts -> recovery_curves_fail c' = None).
  { intros c' Hin. simpl in Hin.
    repeat (destruct Hin as [Hin|Hin]; [subst c'; reflexivity|]). destruct Hin. }
  split; [exact Hleading|]. split; [reflexivity|]. split; [reflexivity|].
  split; [reflexivity|].
  apply (@main_catches recovery_curves_fail
           [Chart.create_ml_learning_curves; Chart.create_scenario_comparison]
           [Chart.create_mttr_comparison; Chart.create_latency_area_under_curve]
           Chart.create_recovery_curves (KeyError "hitRate")).
  - exact Hleading.
  - reflexivity.
  - intros c' Hin. simpl in Hin.
    repeat (destruct Hin as [Hin|Hin]; [subst c'; reflexivity|]). destruct Hin.
  - reflexivity.
  - reflexivity.
Defined.

(** * Further properties *)

(** ** The recovery scan on quiet, incomplete and bounded series *)

Section ScanFacts.

Context {F : Type} `{PyFloat F}.

Lemma samples_never_below (series : list (Z * F)) :
  forallb (fun obs => negb (below_failure (snd obs))) series = true ->
  samples_closed series = [].
Proof.
  induction series as [|[req hr] series IH]; [reflexivity|].
  simpl. intros Hall. apply andb_true_iff in Hall. destruct Hall as [Hhr Hall].
  apply negb_true_iff in Hhr. rewrite Hhr. apply IH. exact Hall.
Qed.

Lemma samples_never_recovered (series : list (Z * F)) :
  forallb (fun obs => negb (recovered (snd obs))) series = true ->
  samples_closed series = [] /\ forall opened, samples_open opened series = [].
Proof.
  induction series as [|[req hr] series IH]; [split; reflexivity|].
  simpl. intros Hall. apply andb_true_iff in Hall. destruct Hall as [Hhr Hall].
  apply negb_true_iff in Hhr. rewrite Hhr. destruct (IH Hall) as [IHc IHo].
  split; [|exact IHo]. destruct (below_failure hr); [apply IHo | exact IHc].
Qed.

(** X1.  When no point of the series has a hit rate below 0.90, or when none
    has a hit rate of at least 0.95, [calculate_mttr] returns 0: no window
    opens, or the window that opens never closes. *)
Theorem calculate_mttr_quiet (ts : list (Point.t F)) (series : list (Z * F)) :
  observed ts series ->
  forallb (fun obs => negb (below_failure (snd obs))) series = true
  \/ forallb (fun obs => negb (recovered (snd obs))) series = true ->
  calculate_mttr ts = Ok (of_int 0).
Proof.
  intros Hobs Hquiet. rewrite (calculate_mttr_samples Hobs).
  destruct Hquiet as [Hq|Hq].
  - rewrite (samples_never_below _ Hq). reflexivity.
  - rewrite (proj1 (samples_never_recovered _ Hq)). reflexivity.
Qed.

Lemma mttr_loop_app (pre post : list (Point.t F)) :
  forall st, mttr_loop st (pre ++ post)%list
             = (st' <- mttr_loop st pre ;; mttr_loop st' post).
Proof.
  induction pre as [|p pre IH]; intros st; simpl; [reflexivity|].
  destruct (mttr_step st p) as [st'|e]; simpl; [apply IH | reflexivity].
Qed.

(** X2.  A sample point without [hitRate], or with [hitRate] and without
    [requestNumber], makes [calculate_mttr] raise [KeyError] for that key,
    whatever the state of the scan and whatever follows the point, once the
    points before it are complete. *)
Theorem calculate_mttr_key_error (pre post : list (Point.t F)) (p : Point.t F)
  (series : list (Z * F)) :
  observed pre series ->
  (Point.hitRate p = None ->
   calculate_mttr (pre ++ p :: post)%list = Raise (KeyError "hitRate"))
  /\ (Point.hitRate p <> None -> Point.requestNumber p = None ->
      calculate_mttr (pre ++ p :: post)%list = Raise (KeyError "requestNumber")).
Proof.
  intros Hobs.
  destruct (mttr_loop_samples Hobs None []) as [final Hfinal].
  unfold calculate_mttr. rewrite mttr_loop_app, Hfinal. cbn [bind mttr_loop].
  unfold mttr_step. split.
  - intros Hhr. rewrite Hhr. reflexivity.
  - intros Hhr Hreq. destruct (Point.hitRate p) as [hr|]; [|congruence].
    rewrite Hreq. reflexivity.
Qed.

(** Every sample is the difference of two request numbers of the series. *)
Lemma samples_within (lo hi : Z) (series : list (Z * F)) :
  Forall (fun obs => lo <= fst obs <= hi) series ->
  Forall (fun s => s <= hi - lo) (samples_closed series)
  /\ (forall opened, lo <= opened ->
        Forall (fun s => s <= hi - lo) (samples_open opened series)).
Proof.
  induction 1 as [|[req hr] series Hreq _ [IHc IHo]]; [split; constructor|].
  simpl in Hreq. split.
  - simpl. destruct (below_failure hr); [apply IHo; lia | exact IHc].
  - intros opened Hopened. simpl. destruct (recovered hr).
    + constructor; [lia | exact IHc].
    + apply IHo. exact Hopened.
Qed.

(** Along growing request numbers every sample is at least one request. *)
Lemma samples_positive (series : list (Z * F)) :
  (increasing (map fst series) = true ->
   Forall (fun s => 1 <= s) (samples_closed series))
  /\ (forall opened,
        increasing (opened :: map fst series) = true ->
        Forall (fun s => 1 <= s) (samples_open opened series)).
Proof.
  induction series as [|[req hr] series [IHc IHo]]; [split; constructor|].
  assert (Htail : increasing (map fst ((req, hr) :: series)) = true ->
                  increasing (map fst series) = true).
  { simpl. destruct (map fst series); [reflexivity|].
    intros Hs. apply andb_true_iff in Hs. apply Hs. }
  split.
  - intros Hs. simpl. destruct (below_failure hr).
    + apply IHo. exact Hs.
    + apply IHc, Htail, Hs.
  - intros opened Hs.
    change (((opened <? req) && increasing (req :: map fst series)) = true) in Hs.
    apply andb_true_iff in Hs. destruct Hs as [Hlt Hs]. apply Z.ltb_lt in Hlt.
    simpl. destruct (recovered hr).
    + constructor; [lia|]. apply IHc, Htail. exact Hs.
    + apply IHo. simpl. destruct (map fst series) as [|y rest]; [reflexivity|].
      simpl in Hs. apply andb_true_iff in Hs. destruct Hs as [Hlt' Hs].
      apply Z.ltb_lt in Hlt'. apply andb_true_iff. split; [|exact Hs].
      apply Z.ltb_lt. lia.
Qed.

End ScanFacts.

Lemma calculate_mttr_quiet_witness :
  observed [sample 1 (dec 93 100); sample 2 (dec 85 100); sample 3 (dec 92 100)]
           [(1, dec 93 100); (2, dec 85 100); (3, dec 92 100)]
  /\ forallb (fun obs => negb (recovered (F := float) (snd obs)))
             [(1, dec 93 100); (2, dec 85 100); (3, dec 92 100)] = true
  /\ calculate_mttr (F := float)
       [sample 1 (dec 93 100); sample 2 (dec 85 100); sample 3 (dec 92 100)]
     = Ok (of_int 0).
Proof.
  split; [repeat constructor|]. split; [vm_compute; reflexivity|].
  apply (@calculate_mttr_quiet float binary64
           [sample 1 (dec 93 100); sample 2 (dec 85 100); sample 3 (dec 92 100)]
           [(1, dec 93 100); (2, dec 85 100); (3, dec 92 100)]).
  - repeat constructor.
  - right. vm_compute. reflexivity.
Defined.

Lemma calculate_mttr_key_error_witness :
  observed [sample 1 (dec 85 100)] [(1, dec 85 100)]
  /\ calculate_mttr (F := float)
       ([sample 1 (dec 85 100)]
          ++ Point.make (Some 2) None None None :: [sample 3 (dec 96 100)])%list
     = Raise (KeyError "hitRate")
  /\ calculate_mttr (F := float)
       ([sample 1 (dec 85 100)]
          ++ Point.make None (Some (dec 96 100)) None None :: [])%list
     = Raise (KeyError "requestNumber").
Proof.
  split; [repeat constructor|].
  split.
  - apply (@calculate_mttr_key_error float binary64 [sample 1 (dec 85 100)]
             [sample 3 (dec 96 100)] (Point.make (Some 2) None None None)
             [(1, dec 85 100)]); [repeat constructor | reflexivity].
  - apply (@calculate_mttr_key_error float binary64 [sample 1 (dec 85 100)]
             [] (Point.make None (Some (dec 96 100)) None None)
             [(1, dec 85 100)]); [repeat constructor | discriminate | reflexivity].
Defined.

Lemma fold_left_Qplus_upper (hi : Q) (xs : list Q) :
  Forall (fun x => x <= hi)%Q xs ->
  (fold_left Qplus xs 0 <= inject_Z (Z.of_nat (List.length xs)) * hi)%Q.
Proof.
  induction 1 as [|x xs Hx _ IH].
  - simpl. ring_simplify. apply Qle_refl.
  - cbn [List.length fold_left].
    rewrite (fold_left_Qplus_shift xs (0 + x)%Q), count_succ.
    apply Qle_trans with (hi + inject_Z (Z.of_nat (List.length xs)) * hi)%Q; [lra|].
    ring_simplify. apply Qle_refl.
Qed.

Lemma fold_left_Qplus_lower (lo : Q) (xs : list Q) :
  Forall (fun x => lo <= x)%Q xs ->
  (inject_Z (Z.of_nat (List.length xs)) * lo <= fold_left Qplus xs 0)%Q.
Proof.
  induction 1 as [|x xs Hx _ IH].
  - simpl. ring_simplify. apply Qle_refl.
  - cbn [List.length fold_left].
    rewrite (fold_left_Qplus_shift xs (0 + x)%Q), count_succ.
    apply Qle_trans with (lo + inject_Z (Z.of_nat (List.length xs)) * lo)%Q; [|lra].
    ring_simplify. apply Qle_refl.
Qed.

Lemma arithmetic_mean_upper (hi : Z) (samples : list Z) :
  0 <= hi ->
  Forall (fun s => s <= hi) samples ->
  (arithmetic_mean (F := Q) samples <= inject_Z hi)%Q.
Proof.
  intros Hhi Hs. destruct samples as [|s samples].
  - simpl. change 0%Q with (inject_Z 0). rewrite <- Zle_Qle. exact Hhi.
  - unfold arithmetic_mean.
    apply Qle_shift_div_r; [apply positive_count|].
    rewrite Qmult_comm, <- (length_map (inject_Z)).
    apply fold_left_Qplus_upper.
    apply Forall_map. revert Hs. apply Forall_impl.
    intros a Ha. rewrite <- Zle_Qle. exact Ha.
Qed.

Lemma arithmetic_mean_lower (lo : Z) (samples : list Z) :
  samples <> [] ->
  Forall (fun s => lo <= s) samples ->
  (inject_Z lo <= arithmetic_mean (F := Q) samples)%Q.
Proof.
  intros Hne Hs. destruct samples as [|s samples]; [congruence|].
  unfold arithmetic_mean.
  apply Qle_shift_div_l; [apply positive_count|].
  rewrite Qmult_comm, <- (length_map (inject_Z)).
  apply fold_left_Qplus_lower.
  apply Forall_map. revert Hs. apply Forall_impl.
  intros a Ha. rewrite <- Zle_Qle. exact Ha.
Qed.

Lemma fold_max_upper (xs : list Z) :
  forall a, a <= fold_left Z.max xs a
            /\ Forall (fun x => x <= fold_left Z.max xs a) xs.
Proof.
  induction xs as [|x xs IH]; intros a; simpl.
  - split; [lia | constructor].
  - destruct (IH (Z.max a x)) as [Ha Hxs].
    split; [lia|]. constructor; [lia | exact Hxs].
Qed.

Lemma fold_min_below (xs : list Z) :
  forall a, fold_left Z.min xs a <= a
            /\ Forall (fun x => fold_left Z.min xs a <= x) xs.
Proof.
  induction xs as [|x xs IH]; intros a; simpl.
  - split; [lia | constructor].
  - destruct (IH (Z.min a x)) as [Ha Hxs].
    split; [lia|]. constructor; [lia | exact Hxs].
Qed.

Lemma int_min_max_bounds (reqs : list Z) :
  int_min reqs <= int_max reqs
  /\ Forall (fun x => int_min reqs <= x <= int_max reqs) reqs.
Proof.
  destruct reqs as [|a reqs]; [split; [reflexivity | constructor]|]. simpl.
  destruct (fold_max_upper reqs a) as [Hmax Hmaxs].
  destruct (fold_min_below reqs a) as [Hmin Hmins].
  split; [lia|]. constructor; [lia|].
  rewrite Forall_forall in *. intros x Hx.
  specialize (Hmaxs x Hx). specialize (Hmins x Hx). lia.
Qed.

(** X3.  In exact arithmetic the mean time to recovery of a series never
    exceeds the distance between its least and its greatest request number,
    in whatever order the points come. *)
Theorem calculate_mttr_within_span (ts : list (Point.t Q)) (series : list (Z * Q)) :
  observed ts series ->
  exists m, calculate_mttr ts = Ok m
            /\ (m <= inject_Z (int_max (map fst series) - int_min (map fst series)))%Q.
Proof.
  intros Hobs. exists (arithmetic_mean (samples_closed series)). split.
  - rewrite <- mean_or_zero_arithmetic. apply calculate_mttr_samples. exact Hobs.
  - destruct (int_min_max_bounds (map fst series)) as [Hle Hall].
    apply arithmetic_mean_upper; [lia|].
    apply (samples_within (F := Q)). rewrite Forall_map in Hall. exact Hall.
Qed.

Lemma calculate_mttr_within_span_witness :
  observed [sample 40 (80 # 100)%Q; sample 10 (99 # 100)%Q]
           [(40, (80 # 100)%Q); (10, (99 # 100)%Q)]
  /\ exists m, calculate_mttr [sample 40 (80 # 100)%Q; sample 10 (99 # 100)%Q] = Ok m
               /\ (m <= inject_Z (int_max (map fst [(40%Z, 80 # 100); (10%Z, 99 # 100)])
                                  - int_min (map fst [(40%Z, 80 # 100); (10%Z, 99 # 100)])))%Q.
Proof.
  split; [repeat constructor|].
  apply (@calculate_mttr_within_span
           [sample 40 (80 # 100)%Q; sample 10 (99 # 100)%Q]
           [(40, (80 # 100)%Q); (10, (99 # 100)%Q)]).
  repeat constructor.
Defined.

(** X4.  In exact arithmetic, when the request numbers grow along the series
    and a window closes, the mean time to recovery is at least one request,
    so it is above the 0 that [create_mttr_comparison] tests bars against. *)
Theorem calculate_mttr_at_least_one (ts : list (Point.t Q)) (series : list (Z * Q)) :
  observed ts series ->
  increasing (map fst series) = true ->
  samples_closed series <> [] ->
  exists m, calculate_mttr ts = Ok m /\ (1 <= m)%Q /\ fgt m (of_int 0) = true.
Proof.
  intros Hobs Hinc Hne.
  assert (Hone : (1 <= arithmetic_mean (F := Q) (samples_closed series))%Q).
  { apply (arithmetic_mean_lower (lo := 1)); [exact Hne|].
    apply (samples_positive series). exact Hinc. }
  exists (arithmetic_mean (samples_closed series)). split; [|split].
  - rewrite <- mean_or_zero_arithmetic. apply calculate_mttr_samples. exact Hobs.
  - exact Hone.
  - unfold fgt. simpl. apply negb_true_iff.
    destruct (Qle_bool (arithmetic_mean (samples_closed series)) (inject_Z 0)) eqn:E;
      [|reflexivity].
    apply Qle_bool_iff in E. change (inject_Z 0) with 0%Q in E. lra.
Qed.

Lemma calculate_mttr_at_least_one_witness :
  observed [sample 5 (80 # 100)%Q; sample 9 (99 # 100)%Q]
           [(5, (80 # 100)%Q); (9, (99 # 100)%Q)]
  /\ increasing (map fst [(5, (80 # 100)%Q); (9, (99 # 100)%Q)]) = true
  /\ samples_closed [(5, (80 # 100)%Q); (9, (99 # 100)%Q)] <> []
  /\ exists m, calculate_mttr [sample 5 (80 # 100)%Q; sample 9 (99 # 100)%Q] = Ok m
               /\ (1 <= m)%Q /\ fgt m (of_int 0) = true.
Proof.
  split; [repeat constructor|]. split; [reflexivity|].
  split; [vm_compute; discriminate|].
  apply (@calculate_mttr_at_least_one
           [sample 5 (80 # 100)%Q; sample 9 (99 # 100)%Q]
           [(5, (80 # 100)%Q); (9, (99 # 100)%Q)]).
  - repeat constructor.
  - reflexivity.
  - vm_compute. discriminate.
Defined.

(** ** The time-series charts *)

Lemma replace_char_removes (old new : ascii) (s : string) :
  Ascii.eqb new old = false -> occurs old (replace_char old new s) = false.
Proof.
  intros Hdiff. induction s as [|c s IH]; [reflexivity|].
  simpl. rewrite IH, orb_false_r.
  destruct (Ascii.eqb c old) eqn:E; [exact Hdiff | exact E].
Qed.

Lemma mapM_length {A B : Type} (f : A -> result B) (l : list A) :
  forall l', mapM f l = Ok l' -> List.length l' = List.length l.
Proof.
  induction l as [|a l IH]; intros l' Hl'; simpl in Hl'.
  - inversion Hl'. reflexivity.
  - bind_inv Hl'. inversion Hl'; subst. simpl. f_equal. apply IH. assumption.
Qed.

Lemma lookup_In {A : Type} (key : string) (d : list (string * A)) (v : A) :
  lookup key d = Some v -> In v (map snd d).
Proof.
  induction d as [|[k v'] d IH]; simpl; [discriminate|].
  destruct (String.eqb k key); intros Hv.
  - inversion Hv. left. reflexivity.
  - right. apply IH. exact Hv.
Qed.

Section TimeSeriesFacts.

Context {F : Type} `{PyFloat F}.

Local Open Scope list_scope.

Lemma mttr_bars_drawn (scenarios : scenarios_t F) :
  forall bars,
    mttr_bars scenarios = Ok bars ->
    forallb has_positive_bar bars = true
    /\ forallb (fun bar => negb (occurs underscore (mttr_label bar))) bars = true
    /\ (List.length bars <= List.length scenarios)%nat.
Proof.
  induction scenarios as [|[name scenario] scenarios IH]; intros bars Hbars;
    simpl in Hbars.
  - inversion Hbars. repeat split. simpl. lia.
  - destruct (lacks_time_series scenario).
    + destruct (IH bars Hbars) as [Hpos [Hlab Hlen]].
      repeat split; try assumption. simpl. lia.
    + bind_inv Hbars.
      destruct (IH _ Ha2) as [Hpos [Hlab Hlen]].
      destruct (fgt a (of_int 0) || fgt a0 (of_int 0) || fgt a1 (of_int 0)) eqn:E;
        inversion Hbars; subst; clear Hbars.
      * repeat split.
        -- simpl. unfold has_positive_bar at 1. simpl. rewrite E. exact Hpos.
        -- simpl. rewrite replace_char_removes by reflexivity. exact Hlab.
        -- simpl. lia.
      * repeat split; try assumption. simpl. lia.
Qed.

(** X5.  When [create_mttr_comparison] draws a chart, the chart has at least
    one group of bars and at most one per scenario, every group has a value
    above 0 for one of the three variants, and no label keeps an underscore
    of the scenario name. *)
Theorem create_mttr_comparison_drawn (data : Experiment.t F) (bars : list mttr_bar) :
  create_mttr_comparison data = Ok (Some bars) ->
  bars <> []
  /\ forallb has_positive_bar bars = true
  /\ forallb (fun bar => negb (occurs underscore (mttr_label bar))) bars = true
  /\ (List.length bars <= List.length (dict_get (Experiment.scenarios data) []))%nat.
Proof.
  unfold create_mttr_comparison. intros Hdata. bind_inv Hdata.
  destruct a as [|bar rest]; simpl in Hdata; [discriminate|].
  inversion Hdata; subst; clear Hdata.
  split; [discriminate|]. apply mttr_bars_drawn. exact Ha.
Qed.

Lemma mttr_bars_none (scenarios : scenarios_t F) :
  forallb (fun s => lacks_time_series (snd s)) scenarios = true ->
  mttr_bars scenarios = Ok [].
Proof.
  induction scenarios as [|[name scenario] scenarios IH]; [reflexivity|].
  simpl. intros Hall. apply andb_true_iff in Hall. destruct Hall as [Hs Hall].
  rewrite Hs. apply IH. exact Hall.
Qed.

Lemma lookup_lacks (scenarios : scenarios_t F) (name : string) (scenario : Scenario.t F) :
  forallb (fun s => lacks_time_series (snd s)) scenarios = true ->
  lookup name scenarios = Some scenario ->
  lacks_time_series scenario = true.
Proof.
  induction scenarios as [|[k v] scenarios IH]; simpl; [discriminate|].
  intros Hall Hlookup. apply andb_true_iff in Hall. destruct Hall as [Hv Hall].
  destruct (String.eqb k name).
  - inversion Hlookup; subst. exact Hv.
  - apply IH; assumption.
Qed.

(** X6.  When no scenario has a non-empty time series for all three variants
    (in particular when the record has no [scenarios]), the three time-series
    charts raise nothing and draw nothing: [create_mttr_comparison] reports
    that there is no MTTR data, [create_recovery_curves] writes no file and
    [create_latency_area_under_curve] fills no panel. *)
Theorem time_series_charts_without_series (data : Experiment.t F) :
  forallb (fun s => lacks_time_series (snd s))
          (dict_get (Experiment.scenarios data) []) = true ->
  create_mttr_comparison data = Ok None
  /\ create_recovery_curves data = Ok []
  /\ create_latency_area_under_curve data = Ok [].
Proof.
  intros Hall. split; [|split].
  - unfold create_mttr_comparison. rewrite (mttr_bars_none _ Hall). reflexivity.
  - unfold create_recovery_curves.
    induction stress_scenarios as [|name names IH]; [reflexivity|].
    simpl. unfold recovery_chart_for.
    destruct (lookup name (dict_get (Experiment.scenarios data) [])) as [scenario|] eqn:E.
    + rewrite (lookup_lacks _ _ Hall E). simpl. rewrite IH. reflexivity.
    + simpl. rewrite IH. reflexivity.
  - unfold create_latency_area_under_curve.
    induction key_scenarios as [|name names IH]; [reflexivity|].
    simpl. unfold auc_panel_for.
    destruct (lookup name (dict_get (Experiment.scenarios data) [])) as [scenario|] eqn:E.
    + rewrite (lookup_lacks _ _ Hall E). simpl. rewrite IH. reflexivity.
    + simpl. rewrite IH. reflexivity.
Qed.



End TimeSeriesFacts.



Lemma create_mttr_comparison_drawn_witness :
  exists bars,
    create_mttr_comparison
      (Experiment.make (Some (tl (missing_hit_rate (F := float))))) = Ok (Some bars)
    /\ bars <> []
    /\ forallb has_positive_bar bars = true
    /\ forallb (fun bar => negb (occurs underscore (mttr_label (F := float) bar))) bars = true
    /\ (List.length bars <= 1)%nat.
Proof.
  eexists. split; [vm_compute; reflexivity|].
  apply (@create_mttr_comparison_drawn float binary64
           (Experiment.make (Some (tl (missing_hit_rate (F := float)))))).
  vm_compute. reflexivity.
Defined.

Lemma time_series_charts_without_series_witness :
  forallb (fun s => lacks_time_series (snd s))
          (dict_get (Experiment.scenarios (Experiment.make (Some (no_failures (F := float))))) [])
  = true
  /\ create_mttr_comparison (Experiment.make (Some (no_failures (F := float)))) = Ok None
  /\ create_recovery_curves (Experiment.make (Some (no_failures (F := float)))) = Ok []
  /\ create_latency_area_under_curve (Experiment.make (Some (no_failures (F := float))))
     = Ok [].
Proof.
  split; [reflexivity|].
  apply (@time_series_charts_without_series float binary64
           (Experiment.make (Some (no_failures (F := float))))).
  reflexivity.
Defined.

(** ** Area under a bounded latency curve *)

Lemma measured_lists {F : Type} (ts : list (Point.t F)) (series : list (Z * F)) :
  measured ts series ->
  request_numbers ts = Ok (map fst series)
  /\ mapM (fun p => getitem "avgLatency" (Point.avgLatency p)) ts = Ok (map snd series).
Proof.
  unfold request_numbers.
  induction 1 as [|p obs ts series [Hreq Hlat] _ [IHr IHl]]; [split; reflexivity|].
  simpl. rewrite Hreq, Hlat, IHr, IHl. split; reflexivity.
Qed.

Lemma trapezoid_bounds (lo hi y y1 : Q) (x x1 : Z) :
  x <= x1 ->
  (lo <= y <= hi)%Q -> (lo <= y1 <= hi)%Q ->
  (lo * inject_Z (x1 - x)
   <= fdiv (fmul (of_int (x1 - x)) (fadd y1 y)) (of_int 2)
   <= hi * inject_Z (x1 - x))%Q.
Proof.
  intros Hx [Hlo Hhi] [Hlo1 Hhi1]. simpl.
  assert (Hd : (0 <= inject_Z (x1 - x))%Q).
  { change 0%Q with (inject_Z 0). rewrite <- Zle_Qle. lia. }
  set (d := inject_Z (x1 - x)) in *.
  assert (Ht : (d * (y1 + y) / inject_Z 2 == d * y1 * (1 # 2) + d * y * (1 # 2))%Q)
    by (change (inject_Z 2) with 2%Q; field).
  rewrite Ht.
  pose proof (Qmult_le_0_compat _ _ Hd (proj1 (Qle_minus_iff lo y) Hlo)) as P1.
  pose proof (Qmult_le_0_compat _ _ Hd (proj1 (Qle_minus_iff lo y1) Hlo1)) as P2.
  pose proof (Qmult_le_0_compat _ _ Hd (proj1 (Qle_minus_iff y hi) Hhi)) as P3.
  pose proof (Qmult_le_0_compat _ _ Hd (proj1 (Qle_minus_iff y1 hi) Hhi1)) as P4.
  split; lra.
Qed.

Lemma np_trapz_bounds (lo hi : Q) (series : list (Z * Q)) :
  forall x y,
    nondecreasing (x :: map fst series) = true ->
    (lo <= y <= hi)%Q ->
    Forall (fun obs => lo <= snd obs <= hi)%Q series ->
    (lo * inject_Z (final x (map fst series) - x)
     <= np_trapz (y :: map snd series) (x :: map fst series)
     <= hi * inject_Z (final x (map fst series) - x))%Q.
Proof.
  unfold np_trapz, np_sum.
  induction series as [|[x1 y1] series IH]; intros x y Hs Hy Hall.
  - simpl. unfold final. simpl. rewrite Z.sub_diag. split; ring_simplify; apply Qle_refl.
  - inversion Hall as [|obs rest Hy1 Hrest]; subst. simpl in Hy1.
    change (nondecreasing (x :: x1 :: map fst series) = true) in Hs.
    simpl in Hs. apply andb_true_iff in Hs. destruct Hs as [Hle Hs].
    apply Z.leb_le in Hle.
    specialize (IH x1 y1 Hs Hy1 Hrest).
    change (map fst ((x1, y1) :: series)) with (x1 :: map fst series).
    change (map snd ((x1, y1) :: series)) with (y1 :: map snd series).
    change (final x (x1 :: map fst series)) with (final x1 (map fst series)).
    change (trapz_terms (y :: y1 :: map snd series) (x :: x1 :: map fst series))
      with (fdiv (fmul (of_int (x1 - x)) (fadd y1 y)) (of_int 2)
              :: trapz_terms (y1 :: map snd series) (x1 :: map fst series)).
    cbn [fold_left]. rewrite fold_left_Qplus_shift.
    replace (final x1 (map fst series) - x)
      with ((final x1 (map fst series) - x1) + (x1 - x)) by lia.
    rewrite inject_Z_plus.
    pose proof (trapezoid_bounds Hle Hy Hy1) as Ht.
    change (fold_left fadd
              (trapz_terms (y1 :: map snd series) (x1 :: map fst series)) (of_int 0))
      with (fold_left Qplus
              (trapz_terms (y1 :: map snd series) (x1 :: map fst series)) 0%Q) in IH.
    change (fadd (of_int 0) (fdiv (fmul (of_int (x1 - x)) (fadd y1 y)) (of_int 2)))
      with (0 + fdiv (fmul (of_int (x1 - x)) (fadd y1 y)) (of_int 2))%Q.
    generalize dependent (fdiv (fmul (of_int (x1 - x)) (fadd y1 y)) (of_int 2)).
    generalize dependent (fold_left Qplus
                            (trapz_terms (y1 :: map snd series) (x1 :: map fst series)) 0%Q).
    intros rest_sum IH t Ht. split; lra.
Qed.

(** X8.  In exact arithmetic, for a series whose request numbers never
    decrease and whose latencies lie between [lo] and [hi], the area under
    the latency curve lies between [lo] and [hi] times the distance from the
    least to the greatest request number; in particular it is not negative
    when no latency is. *)
Theorem latency_auc_bounds (lo hi : Q) (ts : list (Point.t Q)) (series : list (Z * Q)) :
  measured ts series ->
  nondecreasing (map fst series) = true ->
  Forall (fun obs => lo <= snd obs <= hi)%Q series ->
  exists v,
    latency_auc ts = Ok v
    /\ (lo * inject_Z (int_max (map fst series) - int_min (map fst series)) <= v
        <= hi * inject_Z (int_max (map fst series) - int_min (map fst series)))%Q.
Proof.
  intros Hm Hs Hall. destruct (measured_lists Hm) as [Hreqs Hlat].
  exists (np_trapz (map snd series) (map fst series)). split.
  - unfold latency_auc. rewrite Hreqs, Hlat. reflexivity.
  - destruct series as [|[x y] series].
    + simpl. unfold np_trapz, np_sum. simpl. split; ring_simplify; apply Qle_refl.
    + inversion Hall as [|obs rest Hy Hrest]; subst. simpl in Hy.
      change (map fst ((x, y) :: series)) with (x :: map fst series) in *.
      change (map snd ((x, y) :: series)) with (y :: map snd series).
      unfold int_max, int_min.
      rewrite (fold_max_final _ _ Hs), (fold_min_lower (nondecreasing_lower _ _ Hs)).
      apply np_trapz_bounds; assumption.
Qed.

Lemma latency_auc_bounds_witness :
  measured [Point.make (Some 100) None None (Some (1 # 1)%Q);
            Point.make (Some 200) None None (Some (3 # 1)%Q);
            Point.make (Some 400) None None (Some (2 # 1)%Q)]
           [(100, (1 # 1)%Q); (200, (3 # 1)%Q); (400, (2 # 1)%Q)]
  /\ nondecreasing (map fst [(100, (1 # 1)%Q); (200, (3 # 1)%Q); (400, (2 # 1)%Q)]) = true
  /\ Forall (fun obs => 1 <= snd obs <= 3)%Q
            [(100, (1 # 1)%Q); (200, (3 # 1)%Q); (400, (2 # 1)%Q)]
  /\ exists v,
       latency_auc [Point.make (Some 100) None None (Some (1 # 1)%Q);
                    Point.make (Some 200) None None (Some (3 # 1)%Q);
                    Point.make (Some 400) None None (Some (2 # 1)%Q)] = Ok v
       /\ (1 * inject_Z (int_max (map fst [(100%Z, 1 # 1); (200%Z, 3 # 1); (400%Z, 2 # 1)])
                         - int_min (map fst [(100%Z, 1 # 1); (200%Z, 3 # 1); (400%Z, 2 # 1)]))
           <= v
           <= 3 * inject_Z (int_max (map fst [(100%Z, 1 # 1); (200%Z, 3 # 1); (400%Z, 2 # 1)])
                            - int_min (map fst [(100%Z, 1 # 1); (200%Z, 3 # 1); (400%Z, 2 # 1)])))%Q.
Proof.
  assert (Hall : Forall (fun obs : Z * Q => 1 <= snd obs <= 3)%Q
                        [(100, (1 # 1)%Q); (200, (3 # 1)%Q); (400, (2 # 1)%Q)]).
  { repeat constructor; simpl; discriminate. }
  split; [repeat constructor|]. split; [reflexivity|]. split; [exact Hall|].
  apply (@latency_auc_bounds 1%Q 3%Q
           [Point.make (Some 100) None None (Some (1 # 1)%Q);
            Point.make (Some 200) None None (Some (3 # 1)%Q);
            Point.make (Some 400) None None (Some (2 # 1)%Q)]
           [(100, (1 # 1)%Q); (200, (3 # 1)%Q); (400, (2 # 1)%Q)]).
  - repeat constructor.
  - reflexivity.
  - exact Hall.
Defined.

(** ** The learning curves and the scenario comparison *)

Lemma mapM_app {A B : Type} (f : A -> result B) (l1 l2 : list A) :
  mapM f (l1 ++ l2)%list
  = (r1 <- mapM f l1 ;; r2 <- mapM f l2 ;; Ok (r1 ++ r2)%list).
Proof.
  induction l1 as [|a l1 IH]; simpl.
  - destruct (mapM f l2); reflexivity.
  - destruct (f a) as [b|e]; simpl; [|reflexivity].
    rewrite IH. destruct (mapM f l1) as [r1|e]; simpl; [|reflexivity].
    destruct (mapM f l2); reflexivity.
Qed.

Section PanelFacts.

Context {F : Type} `{PyFloat F}.

Local Open Scope list_scope.

(** X9.  [create_ml_learning_curves] draws its accuracy lists, which have
    one entry per scenario whose [predictionAccuracy] is a non-empty dict,
    against one position per scenario.  It returns when the two numbers are
    equal (that is, when every scenario has one) or one of them is 1, and
    then the improvement and significance lists have one entry per
    scenario; in every other case it raises [ValueError]. *)
Theorem learning_curves_outcome (data : Experiment.t F) :
  let scenarios := dict_get (Experiment.scenarios data) [] in
  let n := List.length scenarios in
  let k := with_accuracy scenarios in
  (k <= n)%nat
  /\ (k = n <-> forallb (fun s => Accuracy.truthy (pred_acc_of (snd s))) scenarios = true)
  /\ (k = n \/ n = 1%nat \/ k = 1%nat ->
      exists curves,
        create_ml_learning_curves data = Ok curves
        /\ List.length (f1_scores (accuracy_panel curves)) = k
        /\ List.length (precisions (accuracy_panel curves)) = k
        /\ List.length (recalls (accuracy_panel curves)) = k
        /\ List.length (total_preds (accuracy_panel curves)) = k
        /\ List.length (fst (success_rate_panel curves)) = n
        /\ List.length (snd (success_rate_panel curves)) = n
        /\ List.length (fst (response_time_panel curves)) = n
        /\ List.length (snd (response_time_panel curves)) = n
        /\ List.length (significance_panel curves) = n)
  /\ (k <> n -> n <> 1%nat -> k <> 1%nat ->
      create_ml_learning_curves data = Raise ValueError).
Proof.
  intros scenarios n k.
  destruct (filter_length_all
              (fun s : string * Scenario.t F => Accuracy.truthy (pred_acc_of (snd s)))
              scenarios) as [Hle Heq].
  split; [exact Hle|]. split; [exact Heq|].
  rewrite learning_curves_cases. fold scenarios. cbv zeta. fold n k.
  unfold broadcastable. split.
  - intros Hcase.
    assert (Hb : ((n =? k) || (n =? 1) || (k =? 1))%nat = true).
    { destruct Hcase as [E|[E|E]]; rewrite E, ?Nat.eqb_refl, ?orb_true_r;
        reflexivity. }
    rewrite Hb. eexists. split; [reflexivity|].
    cbn [accuracy_panel success_rate_panel response_time_panel significance_panel].
    destruct (accuracy_metrics_lengths scenarios) as [L1 [L2 [L3 L4]]].
    unfold improvement_bars, significance_bars. cbn [fst snd].
    rewrite !length_map. repeat split; assumption.
  - intros Hkn Hn Hk.
    destruct (Nat.eqb_spec n k) as [E|_]; [congruence|].
    destruct (Nat.eqb_spec n 1) as [E|_]; [contradiction|].
    destruct (Nat.eqb_spec k 1) as [E|_]; [contradiction|].
    reflexivity.
Qed.

Lemma metric_value_present (metric : Variant.t F -> option F) (multiplier : Z)
  (key : string) (v : Variant.t F) :
  metric_value metric multiplier key (Some v)
  = Ok (fmul (dict_get (metric v) (of_int 0)) (of_int multiplier)).
Proof. reflexivity. Qed.

Lemma metric_bars_return (metric : Variant.t F -> option F) (multiplier : Z)
  (scenarios : scenarios_t F) :
  forallb (fun s => has_variants (snd s)) scenarios = true ->
  exists bars, metric_bars metric multiplier scenarios = Ok bars
               /\ List.length bars = List.length scenarios.
Proof.
  unfold metric_bars.
  induction scenarios as [|[name scenario] scenarios IH]; intros Hall.
  - exists []. split; reflexivity.
  - simpl in Hall. apply andb_true_iff in Hall. destruct Hall as [Hv Hall].
    destruct (IH Hall) as [bars [Hbars Hlen]].
    unfold has_variants in Hv.
    destruct (Scenario.baseline scenario) as [b|] eqn:Eb; [|discriminate].
    destruct (Scenario.selfHealing scenario) as [sh|] eqn:Es; [|discriminate].
    destruct (Scenario.selfHealingML scenario) as [ml|] eqn:Em; [|discriminate].
    cbn [mapM snd]. rewrite Eb, Es, Em, !metric_value_present. cbn [bind].
    rewrite Hbars. cbn [bind]. eexists. split; [reflexivity|].
    simpl. rewrite Hlen. reflexivity.
Qed.

(** X10.  When every scenario has its three variants,
    [create_scenario_comparison] raises nothing, whatever metrics the
    variants lack: it returns four panels, each with one triple of bars per
    scenario. *)
Theorem create_scenario_comparison_returns (data : Experiment.t F) :
  forallb (fun s => has_variants (snd s)) (dict_get (Experiment.scenarios data) []) = true ->
  exists panels,
    create_scenario_comparison data = Ok panels
    /\ List.length panels = 4%nat
    /\ Forall (fun bars => List.length bars
                           = List.length (dict_get (Experiment.scenarios data) []))
              panels.
Proof.
  intros Hall. unfold create_scenario_comparison. cbn [mapM fst snd].
  destruct (metric_bars_return (@Variant.successRate F) 100 _ Hall) as [p1 [H1 L1]].
  destruct (metric_bars_return (@Variant.hitRate F) 100 _ Hall) as [p2 [H2 L2]].
  destruct (metric_bars_return (@Variant.avgResponseTime F) 1 _ Hall) as [p3 [H3 L3]].
  destruct (metric_bars_return (@Variant.throughput F) 1 _ Hall) as [p4 [H4 L4]].
  rewrite H1, H2, H3, H4. cbn [bind].
  eexists. split; [reflexivity|]. split; [reflexivity|].
  repeat constructor; assumption.
Qed.

Lemma metric_bars_raise (metric : Variant.t F -> option F) (multiplier : Z)
  (pre post : scenarios_t F) (name key : string) (scenario : Scenario.t F) :
  forallb (fun s => has_variants (snd s)) pre = true ->
  first_missing_variant scenario = Some key ->
  metric_bars metric multiplier (pre ++ (name, scenario) :: post)
  = Raise (KeyError key).
Proof.
  intros Hpre Hmiss.
  destruct (metric_bars_return metric multiplier pre Hpre) as [bars [Hbars _]].
  unfold metric_bars in *. rewrite mapM_app, Hbars. cbn [bind mapM snd].
  unfold first_missing_variant in Hmiss.
  destruct (Scenario.baseline scenario) as [b|].
  - destruct (Scenario.selfHealing scenario) as [sh|].
    + destruct (Scenario.selfHealingML scenario) as [ml|]; [discriminate|].
      inversion Hmiss; subst. reflexivity.
    + inversion Hmiss; subst. reflexivity.
  - inversion Hmiss; subst. reflexivity.
Qed.

(** X11.  [create_scenario_comparison] raises [KeyError] for the first
    scenario that lacks a variant, naming the first of [baseline],
    [selfHealing], [selfHealingML] that is absent, whatever comes after that
    scenario. *)
Theorem create_scenario_comparison_key_error (pre post : scenarios_t F)
  (name key : string) (scenario : Scenario.t F) :
  forallb (fun s => has_variants (snd s)) pre = true ->
  first_missing_variant scenario = Some key ->
  create_scenario_comparison (Experiment.make (Some (pre ++ (name, scenario) :: post)))
  = Raise (KeyError key).
Proof.
  intros Hpre Hmiss. unfold create_scenario_comparison. cbn [mapM fst snd].
  cbn [Experiment.scenarios dict_get].
  erewrite metric_bars_raise by eassumption. reflexivity.
Qed.

End PanelFacts.

Lemma learning_curves_outcome_witness :
  (exists curves,
      create_ml_learning_curves
        (Experiment.make (Some [("high_failure", bare_ml (F := float))])) = Ok curves
      /\ List.length (f1_scores (accuracy_panel curves)) = 0%nat
      /\ List.length (fst (success_rate_panel curves)) = 1%nat)
  /\ create_ml_learning_curves
       (Experiment.make
          (Some [("cascading_failure", with_prediction_accuracy (F := float));
                 ("high_failure", bare_ml);
                 ("gradual_degradation", with_prediction_accuracy)]))
     = Raise ValueError.
Proof.
  split.
  - pose proof (@learning_curves_outcome float binary64
                  (Experiment.make (Some [("high_failure", bare_ml)]))) as Hone.
    cbv zeta in Hone. destruct Hone as [_ [_ [Hreturns _]]].
    destruct (Hreturns (or_intror (or_introl eq_refl)))
      as [curves [Hcurves [L1 [_ [_ [_ [L2 _]]]]]]].
    exists curves. split; [exact Hcurves|]. split; [exact L1 | exact L2].
  - pose proof (@learning_curves_outcome float binary64
                  (Experiment.make
                     (Some [("cascading_failure", with_prediction_accuracy);
                            ("high_failure", bare_ml);
                            ("gradual_degradation", with_prediction_accuracy)])))
      as Hthree.
    cbv zeta in Hthree. destruct Hthree as [_ [_ [_ Hraises]]].
    apply Hraises; vm_compute; discriminate.
Defined.

Lemma create_scenario_comparison_returns_witness :
  forallb (fun s => has_variants (snd s))
          (dict_get (Experiment.scenarios (Experiment.make (Some (full_scenarios (F := float)))))
                    []) = true
  /\ exists panels,
       create_scenario_comparison (Experiment.make (Some (full_scenarios (F := float))))
       = Ok panels
       /\ List.length panels = 4%nat
       /\ Forall (fun bars =>
                    List.length bars
                    = List.length
                        (dict_get (Experiment.scenarios
                                     (Experiment.make (Some (full_scenarios (F := float)))))
                                  []))
                 panels.
Proof.
  split; [reflexivity|].
  apply (@create_scenario_comparison_returns float binary64
           (Experiment.make (Some (full_scenarios (F := float))))).
  reflexivity.
Defined.

Lemma create_scenario_comparison_key_error_witness :
  forallb (fun s => has_variants (snd s)) (@nil (string * Scenario.t float)) = true
  /\ first_missing_variant (Scenario.make None (Some (with_series (recovering (F := float))))
                                          None None None) = Some "baseline"
  /\ create_scenario_comparison
       (Experiment.make
          (Some ([] ++ ("cascading_failure",
                        Scenario.make None (Some (with_series (recovering (F := float))))
                                      None None None)
                    :: tl (missing_baseline (F := float)))%list))
     = Raise (KeyError "baseline").
Proof.
  split; [reflexivity|]. split; [reflexivity|].
  apply (@create_scenario_comparison_key_error float binary64 []
           (tl (missing_baseline (F := float))) "cascading_failure" "baseline"
           (Scenario.make None (Some (with_series (recovering (F := float)))) None None None)).
  - reflexivity.
  - reflexivity.
Defined.

(** ** The reductions over scenarios *)

Ltac binds_inv :=
  repeat match goal with
         | H : bind _ _ = Ok _ |- _ =>
             let a := fresh "a" in
             let Ha := fresh "Ha" in
             apply bind_ok in H; destruct H as [a [Ha H]]
         | H : Ok _ = Ok _ |- _ => inversion H; subst; clear H
         end.

Section ReduceFacts.

Context {F : Type} `{PyFloat F}.

Local Open Scope list_scope.

(** X12.  The list comprehension behind every sum and mean over scenarios
    raises [KeyError] at the first scenario that lacks the variant or, having
    the variant, lacks the field, and names that key; the scenarios after it
    are not read. *)
Theorem field_values_key_error {A : Type}
  (variant : key_of (Scenario.t F) (Variant.t F)) (field : key_of (Variant.t F) A)
  (pre post : scenarios_t F) (name : string) (scenario : Scenario.t F) (xs : list A) :
  field_values variant field pre = Ok xs ->
  (key_field variant scenario = None ->
   field_values variant field (pre ++ (name, scenario) :: post)
   = Raise (KeyError (key_name variant)))
  /\ (forall v, key_field variant scenario = Some v -> key_field field v = None ->
      field_values variant field (pre ++ (name, scenario) :: post)
      = Raise (KeyError (key_name field))).
Proof.
  unfold field_values. intros Hpre. split.
  - intros Hv. rewrite mapM_app, Hpre. cbn [bind mapM snd].
    unfold subscript at 1. rewrite Hv. reflexivity.
  - intros v Hv Hf. rewrite mapM_app, Hpre. cbn [bind mapM snd].
    unfold subscript. rewrite Hv. cbn [getitem bind]. rewrite Hf. reflexivity.
Qed.

(** X13.  The three error totals are the same in every chart that shows
    them: the TOTAL row of [create_summary_table], the error bars of
    [create_combined_metrics_chart] and the fourth bar of each variant in
    [create_comparison_bar_chart]. *)
Theorem error_totals_agree (data : Experiment.t F)
  (rows : list table_row) (m : combined_metrics) (bars : list F * list F * list F) :
  create_summary_table data = Ok rows ->
  create_combined_metrics_chart data = Ok m ->
  create_comparison_bar_chart data = Ok bars ->
  exists body total,
    rows = body ++ [total]
    /\ errors m = [row_baseline total; row_sh total; row_ml total]
    /\ nth_error (fst (fst bars)) 3 = Some (of_int (row_baseline total))
    /\ nth_error (snd (fst bars)) 3 = Some (of_int (row_sh total))
    /\ nth_error (snd bars) 3 = Some (of_int (row_ml total)).
Proof.
  unfold create_summary_table, create_combined_metrics_chart,
    create_comparison_bar_chart, scenarios_of.
  destruct (Experiment.scenarios data) as [scenarios|]; cbn [getitem bind];
    [|discriminate].
  intros Hrows Hm Hbars. unfold total_row in Hrows. unfold aggregate in Hbars.
  destruct (mapM scenario_row scenarios) as [body|]; cbn [bind] in Hrows;
    [|discriminate].
  destruct (sum_reduce baseline failedRequests scenarios) as [total_b|];
    cbn [bind] in Hrows, Hm, Hbars; [|discriminate].
  destruct (sum_reduce selfHealing failedRequests scenarios) as [total_sh|];
    cbn [bind] in Hrows, Hm; [|discriminate].
  destruct (sum_reduce selfHealingML failedRequests scenarios) as [total_ml|];
    cbn [bind] in Hrows, Hm; [|discriminate].
  cbn [bind] in Hbars. binds_inv.
  eexists _, _. split; [reflexivity|]. repeat split.
Qed.

(** X14.  Once the three error totals can be computed,
    [create_improvement_chart] raises [ZeroDivisionError] exactly when the
    baseline total is 0, and otherwise returns three bars; a self-healing
    total of 0 never makes it raise. *)
Theorem create_improvement_chart_outcome (data : Experiment.t F)
  (scenarios : scenarios_t F) (total_b total_sh total_ml : Z) :
  Experiment.scenarios data = Some scenarios ->
  sum_reduce baseline failedRequests scenarios = Ok total_b ->
  sum_reduce selfHealing failedRequests scenarios = Ok total_sh ->
  sum_reduce selfHealingML failedRequests scenarios = Ok total_ml ->
  (total_b = 0 -> create_improvement_chart data = Raise ZeroDivisionError)
  /\ (total_b <> 0 ->
      exists sh_improvement ml_improvement ml_vs_sh_improvement,
        create_improvement_chart data
        = Ok [sh_improvement; ml_improvement; ml_vs_sh_improvement]).
Proof.
  intros Hdata Hb Hsh Hml. unfold create_improvement_chart, scenarios_of.
  rewrite Hdata. cbn [getitem bind]. rewrite Hb, Hsh, Hml. cbn [bind].
  unfold improvement_guarded, improvement_unguarded, truediv. split.
  - intros Hz. subst total_b. reflexivity.
  - intros Hnz. destruct (Z.eqb_spec total_b 0) as [Hz|_]; [contradiction|].
    cbn [bind]. destruct (Z.ltb_spec 0 total_sh) as [Hpos|_].
    + destruct (Z.eqb_spec total_sh 0) as [Hz|_]; [lia|].
      cbn [bind]. eexists _, _, _. reflexivity.
    + cbn [bind]. eexists _, _, _. reflexivity.
Qed.

End ReduceFacts.

Lemma field_values_key_error_witness :
  field_values baseline failedRequests (@nil (string * Scenario.t float)) = Ok []
  /\ field_values baseline failedRequests
       ([] ++ ("cascading_failure",
               Scenario.make None (Some (with_series (recovering (F := float))))
                             None None None) :: [])%list
     = Raise (KeyError "baseline")
  /\ field_values selfHealing totalRequests
       ([] ++ ("cascading_failure",
               Scenario.make None
                 (Some (Variant.make None (Some 3) None None None None None None))
                 None None None) :: no_failures (F := float))%list
     = Raise (KeyError "totalRequests").
Proof.
  split; [reflexivity|]. split.
  - apply (@field_values_key_error float Z baseline failedRequests [] []
             "cascading_failure"
             (Scenario.make None (Some (with_series (recovering (F := float))))
                            None None None) []); reflexivity.
  - apply (proj2 (@field_values_key_error float Z selfHealing totalRequests []
                    no_failures "cascading_failure"
                    (Scenario.make None
                       (Some (Variant.make None (Some 3) None None None None None None))
                       None None None) [] eq_refl)
             (Variant.make None (Some 3) None None None None None None));
      reflexivity.
Defined.

Lemma error_totals_agree_witness :
  exists rows m bars,
    create_summary_table (Experiment.make (Some (tied_totals (F := Q)))) = Ok rows
    /\ create_combined_metrics_chart (Experiment.make (Some (tied_totals (F := Q)))) = Ok m
    /\ create_comparison_bar_chart (Experiment.make (Some (tied_totals (F := Q)))) = Ok bars
    /\ errors m = [30; 15; 15]
    /\ exists body total,
         rows = (body ++ [total])%list
         /\ errors m = [row_baseline total; row_sh total; row_ml total]
         /\ nth_error (fst (fst bars)) 3 = Some (of_int (row_baseline total))
         /\ nth_error (snd (fst bars)) 3 = Some (of_int (row_sh total))
         /\ nth_error (snd bars) 3 = Some (of_int (row_ml total)).
Proof.
  eexists _, _, _.
  split; [reflexivity|]. split; [reflexivity|]. split; [reflexivity|].
  split; [reflexivity|].
  apply (@error_totals_agree Q exact (Experiment.make (Some tied_totals)));
    reflexivity.
Defined.

Lemma create_improvement_chart_outcome_witness :
  Experiment.scenarios (Experiment.make (Some (tied_totals (F := Q)))) = Some tied_totals
  /\ sum_reduce baseline failedRequests (tied_totals (F := Q)) = Ok 30
  /\ sum_reduce selfHealing failedRequests (tied_totals (F := Q)) = Ok 15
  /\ sum_reduce selfHealingML failedRequests (tied_totals (F := Q)) = Ok 15
  /\ (30 = 0 -> create_improvement_chart (Experiment.make (Some (tied_totals (F := Q))))
                = Raise ZeroDivisionError)
  /\ (30 <> 0 ->
      exists sh_improvement ml_improvement ml_vs_sh_improvement,
        create_improvement_chart (Experiment.make (Some (tied_totals (F := Q))))
        = Ok [sh_improvement; ml_improvement; ml_vs_sh_improvement]).
Proof.
  split; [reflexivity|]. split; [reflexivity|]. split; [reflexivity|].
  split; [reflexivity|].
  apply (@create_improvement_chart_outcome Q exact
           (Experiment.make (Some tied_totals)) tied_totals 30 15 15); reflexivity.
Defined.

(** ** Percentage improvement in exact arithmetic *)

(** X15.  For a positive [before] and an [after] between 0 and [before], the
    guarded and the unguarded form of the percentage improvement return the
    same value; computed without rounding it lies between 0 and 100, and it
    is 100 exactly when [after] is 0. *)
Theorem improvement_range (before after : Z) :
  0 < before ->
  0 <= after <= before ->
  exists v,
    improvement_guarded (F := Q) before after = Ok v
    /\ improvement_unguarded (F := Q) before after = Ok v
    /\ (0 <= v <= 100)%Q
    /\ ((v == 100)%Q <-> after = 0).
Proof.
  intros Hpos [Hlo Hhi].
  unfold improvement_guarded, improvement_unguarded, truediv.
  destruct (Z.ltb_spec 0 before) as [_|Hle]; [|lia].
  destruct (Z.eqb_spec before 0) as [Hz|_]; [lia|].
  cbn [bind]. eexists. split; [reflexivity|]. split; [reflexivity|].
  simpl.
  assert (Hb : (0 < inject_Z before)%Q).
  { change 0%Q with (inject_Z 0). rewrite <- Zlt_Qlt. exact Hpos. }
  assert (Hnz : ~ (inject_Z before == 0)%Q) by lra.
  assert (Hq : (inject_Z (before - after) / inject_Z before
                == 1 - inject_Z after / inject_Z before)%Q).
  { unfold Z.sub. rewrite inject_Z_plus, inject_Z_opp. field. exact Hnz. }
  assert (Ha0 : (0 <= inject_Z after / inject_Z before)%Q).
  { apply Qle_shift_div_l; [exact Hb|]. rewrite Qmult_0_l.
    change 0%Q with (inject_Z 0). rewrite <- Zle_Qle. exact Hlo. }
  assert (Ha1 : (inject_Z after / inject_Z before <= 1)%Q).
  { apply Qle_shift_div_r; [exact Hb|]. rewrite Qmult_1_l.
    rewrite <- Zle_Qle. exact Hhi. }
  change (inject_Z 100) with 100%Q. rewrite Hq. split; [split; lra|].
  split.
  - intros H100.
    assert (Hzero : (inject_Z after / inject_Z before == 0)%Q) by lra.
    assert (Hafter : (inject_Z after == 0)%Q).
    { rewrite <- (Qmult_div_r (inject_Z after) (inject_Z before) Hnz), Hzero. ring. }
    change 0%Q with (inject_Z 0) in Hafter.
    exact (proj1 (inject_Z_injective after 0) Hafter).
  - intros Hafter. subst after. change (inject_Z 0) with 0%Q.
    unfold Qdiv. ring.
Qed.

Lemma improvement_range_witness :
  0 < 40 /\ 0 <= 10 <= 40
  /\ exists v,
       improvement_guarded (F := Q) 40 10 = Ok v
       /\ improvement_unguarded (F := Q) 40 10 = Ok v
       /\ (0 <= v <= 100)%Q
       /\ ((v == 100)%Q <-> 10 = 0).
Proof.
  split; [lia|]. split; [lia|].
  apply (@improvement_range 40 10); lia.
Defined.

(** ** Labels *)

Lemma title_step (c : ascii) (previous_is_cased : bool) (s : string) :
  exists c' cased,
    title_from previous_is_cased (String c s) = String c' (title_from cased s)
    /\ Ascii.eqb c' underscore = Ascii.eqb c underscore
    /\ Ascii.eqb c' newline = Ascii.eqb c newline.
Proof.
  destruct previous_is_cased;
    destruct c as [[|] [|] [|] [|] [|] [|] [|] [|]];
    eexists _, _; (split; [reflexivity | split; reflexivity]).
Qed.

Lemma title_occurs (s : string) :
  forall previous_is_cased,
    occurs underscore (title_from previous_is_cased s) = occurs underscore s
    /\ String.length (title_from previous_is_cased s) = String.length s.
Proof.
  induction s as [|c s IH]; intros previous_is_cased; [split; reflexivity|].
  destruct (title_step c previous_is_cased s) as [c' [cased [Hstep [Hund _]]]].
  rewrite Hstep. destruct (IH cased) as [IHo IHl].
  cbn [occurs String.length]. rewrite Hund, IHo, IHl. split; reflexivity.
Qed.

Lemma replace_char_length (old new : ascii) (s : string) :
  String.length (replace_char old new s) = String.length s.
Proof.
  induction s as [|c s IH]; [reflexivity|]. simpl. rewrite IH. reflexivity.
Qed.

Lemma label_clean (new : ascii) (name : string) :
  Ascii.eqb new underscore = false ->
  occurs underscore (title (replace_char underscore new name)) = false
  /\ String.length (title (replace_char underscore new name)) = String.length name.
Proof.
  intros Hnew. unfold title.
  destruct (title_occurs (replace_char underscore new name) false) as [Ho Hl].
  rewrite Ho, Hl, replace_char_length. split; [|reflexivity].
  apply replace_char_removes. exact Hnew.
Qed.

Lemma title_step_ascii (c : ascii) (previous_is_cased : bool) (s : string) :
  exists c' cased,
    title_from previous_is_cased (String c s) = String c' (title_from cased s)
    /\ ((nat_of_ascii c <? 128)%nat = true -> (nat_of_ascii c' <? 128)%nat = true).
Proof.
  destruct previous_is_cased;
    destruct c as [[|] [|] [|] [|] [|] [|] [|] [|]];
    eexists _, _; (split; [reflexivity | vm_compute; intros Hc; exact Hc]).
Qed.

Lemma title_isascii (s : string) :
  forall previous_is_cased,
    isascii s = true -> isascii (title_from previous_is_cased s) = true.
Proof.
  induction s as [|c s IH]; intros previous_is_cased Hs; [reflexivity|].
  destruct (title_step_ascii c previous_is_cased s) as [c' [cased [Hstep Hc']]].
  rewrite Hstep. cbn [isascii] in *. apply andb_true_iff in Hs.
  destruct Hs as [Hc Hs]. rewrite (Hc' Hc), (IH cased Hs). reflexivity.
Qed.

Lemma replace_char_isascii (old new : ascii) (s : string) :
  (nat_of_ascii new <? 128)%nat = true ->
  isascii s = true -> isascii (replace_char old new s) = true.
Proof.
  intros Hnew. induction s as [|c s IH]; intros Hs; [reflexivity|].
  cbn [isascii replace_char] in *. apply andb_true_iff in Hs.
  destruct Hs as [Hc Hs]. rewrite (IH Hs).
  destruct (Ascii.eqb c old); [rewrite Hnew | rewrite Hc]; reflexivity.
Qed.

Lemma label_isascii (new : ascii) (name : string) :
  (nat_of_ascii new <? 128)%nat = true ->
  isascii name = true ->
  isascii (title (replace_char underscore new name)) = true.
Proof.
  intros Hnew Hname. apply title_isascii, replace_char_isascii; assumption.
Qed.

Section LabelFacts.

Context {F : Type} `{PyFloat F}.

Lemma scenario_rows_names (scenarios : scenarios_t F) :
  forallb (fun entry => isascii (fst entry)) scenarios = true ->
  forall body,
    mapM scenario_row scenarios = Ok body ->
    Forall2 (fun entry row =>
               occurs underscore (row_name row) = false
               /\ String.length (row_name row) = String.length (fst entry)
               /\ isascii (row_name row) = true)
            scenarios body.
Proof.
  induction scenarios as [|[name scenario] scenarios IH]; intros Hascii body Hbody;
    simpl in Hbody.
  - inversion Hbody. constructor.
  - cbn [forallb fst] in Hascii. apply andb_true_iff in Hascii.
    destruct Hascii as [Hname Hascii].
    bind_inv Hbody. inversion Hbody; subst; clear Hbody.
    constructor; [|apply IH; assumption].
    unfold scenario_row in Ha. binds_inv. cbn [row_name fst].
    destruct (@label_clean space name eq_refl) as [Hclean Hlength].
    split; [exact Hclean|]. split; [exact Hlength|].
    apply label_isascii; [reflexivity | exact Hname].
Qed.

Lemma error_series_names (scenarios : scenarios_t F) :
  forallb (fun entry => isascii (fst entry)) scenarios = true ->
  forall bars,
    error_series scenarios = Ok bars ->
    Forall2 (fun entry label =>
               occurs underscore label = false
               /\ String.length label = String.length (fst entry)
               /\ isascii label = true)
            scenarios (scenario_names bars).
Proof.
  induction scenarios as [|[name scenario] scenarios IH]; intros Hascii bars Hbars;
    simpl in Hbars.
  - inversion Hbars. constructor.
  - cbn [forallb fst] in Hascii. apply andb_true_iff in Hascii.
    destruct Hascii as [Hname Hascii].
    bind_inv Hbars. inversion Hbars; subst; clear Hbars. cbn [scenario_names].
    constructor; [|apply IH; assumption].
    destruct (@label_clean newline name eq_refl) as [Hclean Hlength].
    split; [exact Hclean|]. split; [exact Hlength|].
    apply label_isascii; [reflexivity | exact Hname].
Qed.

(** X16.  For scenario keys in ASCII, the scenario names shown by
    [create_summary_table] and by [create_error_reduction_chart] are in
    ASCII and as long as the scenario keys, one per scenario and in the
    same order, and none keeps an underscore. *)
Theorem scenario_labels_clean (data : Experiment.t F) (scenarios : scenarios_t F) :
  Experiment.scenarios data = Some scenarios ->
  forallb (fun entry => isascii (fst entry)) scenarios = true ->
  (forall rows, create_summary_table data = Ok rows ->
     exists body total,
       rows = (body ++ [total])%list
       /\ row_name total = "TOTAL"
       /\ Forall2 (fun entry row =>
                     occurs underscore (row_name row) = false
                     /\ String.length (row_name row) = String.length (fst entry)
                     /\ isascii (row_name row) = true)
                  scenarios body)
  /\ (forall bars, create_error_reduction_chart data = Ok bars ->
        Forall2 (fun entry label =>
                   occurs underscore label = false
                   /\ String.length label = String.length (fst entry)
                   /\ isascii label = true)
                scenarios (scenario_names bars)).
Proof.
  intros Hdata Hascii. split.
  - intros rows Hrows. unfold create_summary_table, scenarios_of in Hrows.
    rewrite Hdata in Hrows. cbn [getitem bind] in Hrows.
    bind_inv Hrows. inversion Hrows; subst; clear Hrows.
    exists a, a0. split; [reflexivity|]. split.
    + unfold total_row in Ha0. binds_inv. reflexivity.
    + apply scenario_rows_names; [exact Hascii | exact Ha].
  - intros bars Hbars. unfold create_error_reduction_chart, scenarios_of in Hbars.
    rewrite Hdata in Hbars. cbn [getitem bind] in Hbars.
    apply error_series_names; [exact Hascii | exact Hbars].
Qed.

End LabelFacts.

Lemma scenario_labels_clean_witness :
  Experiment.scenarios (Experiment.make (Some (tied_totals (F := Q)))) = Some tied_totals
  /\ forallb (fun entry => isascii (fst entry)) (tied_totals (F := Q)) = true
  /\ exists bars,
       create_error_reduction_chart (Experiment.make (Some (tied_totals (F := Q)))) = Ok bars
       /\ scenario_names bars
          = ["High" ++ String newline "Failure"; "Cache" ++ String newline "Corruption";
             "Gradual" ++ String newline "Degradation"]
       /\ Forall2 (fun entry label =>
                     occurs underscore label = false
                     /\ String.length label = String.length (fst entry)
                     /\ isascii label = true)
                  (tied_totals (F := Q)) (scenario_names bars).
Proof.
  split; [reflexivity|]. split; [reflexivity|].
  eexists. split; [reflexivity|]. split; [reflexivity|].
  apply (proj2 (@scenario_labels_clean Q exact (Experiment.make (Some tied_totals))
                  tied_totals eq_refl eq_refl)).
  reflexivity.
Defined.

(** ** The loader on marked and empty files *)

Lemma prefix_append (marker rest : string) :
  String.prefix marker (marker ++ rest) = true.
Proof.
  induction marker as [|c marker IH]; simpl.
  - destruct rest; reflexivity.
  - destruct (ascii_dec c c) as [_|Hne]; [exact IH | contradiction].
Qed.

Section LoaderMarks.

Variable J : Type.
Variable empty_dict : J.
Variable json_loads : string -> result J.

(** X17.  Whatever follows the error marker, and for an empty file as well,
    [experiments.json] and [ml_training_data.json] are skipped without a
    call of the parser, while [cache_statistics.json] is handed to the
    parser, whose result or exception becomes that of the loader. *)
Theorem load_marked_or_empty (rest : string) :
  (forall content, content = error_marker ++ rest \/ content = "" ->
     load_experiment_data empty_dict json_loads
       (only "experiment_results/experiments.json" content)
     = Ok (empty_dict, empty_dict, empty_dict)
     /\ load_experiment_data empty_dict json_loads
          (only "experiment_results/ml_training_data.json" content)
        = Ok (empty_dict, empty_dict, empty_dict)
     /\ load_experiment_data empty_dict json_loads
          (only "experiment_results/cache_statistics.json" content)
        = (cache_stats <- json_loads content ;;
           Ok (empty_dict, cache_stats, empty_dict))).
Proof.
  intros content Hcontent.
  assert (Hskip : nonempty content && negb (String.prefix error_marker content) = false).
  { destruct Hcontent as [Hc|Hc]; subst content.
    - rewrite prefix_append. apply andb_false_r.
    - reflexivity. }
  unfold load_experiment_data, only. cbn [String.eqb Ascii.eqb Bool.eqb].
  rewrite Hskip. repeat split.
Qed.

End LoaderMarks.

(** ** Runs of [main] that the [try] block does not save *)

Section MainRuns.

Variable outcome : Chart.t -> option exn.

Local Open Scope list_scope.

(** X18.  An exception raised by one of the seven chart functions called
    before the [try] block ends the run with that exception, whatever its
    class and whether or not there is an experiment file: no later chart
    function is called and the closing lines are not printed. *)
Theorem main_leading_failure (experiment_files : bool) (pre post : list Chart.t)
  (c : Chart.t) (e : exn) :
  leading_charts = pre ++ c :: post ->
  (forall c', In c' pre -> outcome c' = None) ->
  outcome c = Some e ->
  run_main outcome None experiment_files
  = ((Load :: map Call pre) ++ [Call c], Raise e).
Proof.
  intros Hsplit Hpre Hc. unfold run_main, main.
  unfold andthen at 1. unfold emit at 1. simpl app.
  unfold andthen at 1. unfold raise_if at 1.
  unfold andthen at 1.
  rewrite Hsplit, (@call_all_raises outcome pre post c e Hpre Hc). reflexivity.
Qed.

(** X19.  An exception that is not of class [Exception], raised by a chart
    function inside the [try] block, is not caught: the run ends with it,
    nothing is printed about it and the later chart functions are not
    called. *)
Theorem main_uncaught (pre post : list Chart.t) (c : Chart.t) (e : exn) :
  (forall c', In c' leading_charts -> outcome c' = None) ->
  guarded_charts = pre ++ c :: post ->
  (forall c', In c' pre -> outcome c' = None) ->
  outcome c = Some e ->
  is_Exception e = false ->
  run_main outcome None true
  = ((Load :: map Call leading_charts) ++ map Call pre ++ [Call c], Raise e).
Proof.
  intros Hleading Hsplit Hpre Hc Hexn.
  unfold run_main, main.
  unfold andthen at 1. unfold emit at 1. simpl app.
  unfold andthen at 1. unfold raise_if at 1.
  unfold andthen at 1. rewrite (@call_all_returns outcome leading_charts Hleading).
  unfold andthen at 1. unfold try_except.
  rewrite Hsplit, (@call_all_raises outcome pre post c e Hpre Hc), Hexn.
  repeat rewrite <- app_assoc. reflexivity.
Qed.

(** X20.  When the seven leading chart functions return, a run without
    experiment file calls none of the five others and ends normally, and a
    run with one in which these five return calls all twelve in order and
    ends normally. *)
Theorem main_complete :
  (forall c', In c' leading_charts -> outcome c' = None) ->
  run_main outcome None false = ((Load :: map Call leading_charts) ++ [PrintSuccess], Ok tt)
  /\ ((forall c', In c' guarded_charts -> outcome c' = None) ->
      run_main outcome None true
      = ((Load :: map Call leading_charts) ++ map Call guarded_charts ++ [PrintSuccess],
         Ok tt)).
Proof.
  intros Hleading. split.
  - unfold run_main, main.
    unfold andthen at 1. unfold emit at 1. simpl app.
    unfold andthen at 1. unfold raise_if at 1.
    unfold andthen at 1. rewrite (@call_all_returns outcome leading_charts Hleading).
    reflexivity.
  - intros Hguarded. unfold run_main, main.
    unfold andthen at 1. unfold emit at 1. simpl app.
    unfold andthen at 1. unfold raise_if at 1.
    unfold andthen at 1. rewrite (@call_all_returns outcome leading_charts Hleading).
    unfold andthen at 1. unfold try_except.
    rewrite (@call_all_returns outcome guarded_charts Hguarded).
    unfold emit. repeat rewrite <- app_assoc. reflexivity.
Qed.

End MainRuns.

Lemma load_marked_or_empty_witness :
  (error_report = error_marker ++ ": " ++ String double_quote ("timeout" ++ String double_quote "}")
   \/ error_report = "")
  /\ load_experiment_data 0 (fun _ => Ok 1)
       (only "experiment_results/experiments.json" error_report)
     = Ok (0, 0, 0)
  /\ load_experiment_data 0 (fun _ => Ok 1)
       (only "experiment_results/cache_statistics.json" error_report)
     = Ok (0, 1, 0).
Proof.
  split; [left; reflexivity|].
  destruct (@load_marked_or_empty Z 0 (fun _ => Ok 1)
              (": " ++ String double_quote ("timeout" ++ String double_quote "}"))
              error_report (or_introl eq_refl)) as [Hexp [_ Hcache]].
  split; [exact Hexp | exact Hcache].
Defined.

Lemma main_leading_failure_witness :
  leading_charts
  = ([Chart.create_comparison_charts; Chart.create_improvement_chart]
       ++ Chart.create_failure_recovery_timeline
       :: [Chart.create_ml_prediction_accuracy;
           Chart.create_recovery_strategy_effectiveness;
           Chart.create_availability_comparison; Chart.create_summary_table])%list
  /\ run_main (fun c => match c with
                        | Chart.create_failure_recovery_timeline =>
                            Some (OtherException "ValueError")
                        | _ => None
                        end) None true
     = ([Load; Call Chart.create_comparison_charts; Call Chart.create_improvement_chart;
         Call Chart.create_failure_recovery_timeline],
        Raise (OtherException "ValueError")).
Proof.
  split; [reflexivity|].
  apply (@main_leading_failure
           (fun c => match c with
                     | Chart.create_failure_recovery_timeline =>
                         Some (OtherException "ValueError")
                     | _ => None
                     end)
           true [Chart.create_comparison_charts; Chart.create_improvement_chart]
           [Chart.create_ml_prediction_accuracy;
            Chart.create_recovery_strategy_effectiveness;
            Chart.create_availability_comparison; Chart.create_summary_table]
           Chart.create_failure_recovery_timeline (OtherException "ValueError")).
  - reflexivity.
  - intros c' Hin. simpl in Hin.
    repeat (destruct Hin as [Hin|Hin]; [subst c'; reflexivity|]). destruct Hin.
  - reflexivity.
Defined.

Lemma main_uncaught_witness :
  is_Exception KeyboardInterrupt = false
  /\ run_main (fun c => match c with
                        | Chart.create_scenario_comparison => Some KeyboardInterrupt
                        | _ => None
                        end) None true
     = ((Load :: map Call leading_charts)
          ++ map Call [Chart.create_ml_learning_curves]
          ++ [Call Chart.create_scenario_comparison],
        Raise KeyboardInterrupt)%list.
Proof.
  split; [reflexivity|].
  apply (@main_uncaught
           (fun c => match c with
                     | Chart.create_scenario_comparison => Some KeyboardInterrupt
                     | _ => None
                     end)
           [Chart.create_ml_learning_curves]
           [Chart.create_recovery_curves; Chart.create_mttr_comparison;
            Chart.create_latency_area_under_curve]
           Chart.create_scenario_comparison KeyboardInterrupt).
  - intros c' Hin. simpl in Hin.
    repeat (destruct Hin as [Hin|Hin]; [subst c'; reflexivity|]). destruct Hin.
  - reflexivity.
  - intros c' Hin. simpl in Hin.
    repeat (destruct Hin as [Hin|Hin]; [subst c'; reflexivity|]). destruct Hin.
  - reflexivity.
  - reflexivity.
Defined.

Lemma main_complete_witness :
  run_main (fun _ => None) None false
  = ((Load :: map Call leading_charts) ++ [PrintSuccess], Ok tt)%list
  /\ run_main (fun _ => None) None true
     = ((Load :: map Call leading_charts) ++ map Call guarded_charts ++ [PrintSuccess],
        Ok tt)%list.
Proof.
  destruct (@main_complete (fun _ => None) (fun _ _ => eq_refl)) as [Hnone Hall].
  split; [exact Hnone|]. apply Hall. intros c' _. reflexivity.
Defined.

(** ** The scripts on real data *)

Lemma latest_from_first_greatest (rest : list (string * Q)) :
  forall (best : string * Q) (earlier later : list (string * Q)),
    Forall (fun g => snd g < snd best)%Q earlier ->
    Forall (fun g => snd g <= snd best)%Q later ->
    exists earlier' later',
      (earlier ++ best :: later ++ rest
       = earlier' ++ latest_from best rest :: later')%list
      /\ Forall (fun g => snd g < snd (latest_from best rest))%Q earlier'
      /\ Forall (fun g => snd g <= snd (latest_from best rest))%Q later'.
Proof.
  induction rest as [|f rest IH]; intros best earlier later Hearlier Hlater.
  - exists earlier, later. simpl. rewrite app_nil_r. repeat split; assumption.
  - cbn [latest_from]. destruct (Qle_bool (snd f) (snd best)) eqn:E; cbn [negb].
    + apply Qle_bool_iff in E.
      destruct (IH best earlier (later ++ [f])%list Hearlier) as [e' [l' [Heq Hrest]]].
      { apply Forall_app. split; [exact Hlater|]. constructor; [exact E | constructor]. }
      exists e', l'. split; [|exact Hrest].
      rewrite <- Heq, <- app_assoc. reflexivity.
    + assert (Hlt : (snd best < snd f)%Q).
      { apply Qnot_le_lt. intros Hle. apply Qle_bool_iff in Hle. congruence. }
      destruct (IH f (earlier ++ best :: later)%list []) as [e' [l' [Heq Hrest]]].
      { apply Forall_app. split.
        - revert Hearlier. apply Forall_impl. intros g Hg. lra.
        - constructor; [exact Hlt|].
          revert Hlater. apply Forall_impl. intros g Hg. lra. }
      { constructor. }
      exists e', l'. split; [|exact Hrest].
      rewrite <- Heq, <- app_assoc. reflexivity.
Qed.

(** X21.  Among the experiment files found, the one the scripts use is the
    first of those whose modification time no other file exceeds: every file
    listed before it is strictly older, every file listed after it is not
    newer. *)
Theorem latest_experiment_first_greatest (f : string * Q) (rest : list (string * Q)) :
  exists latest earlier later,
    latest_experiment (f :: rest) = Some latest
    /\ (f :: rest = earlier ++ latest :: later)%list
    /\ Forall (fun g => snd g < snd latest)%Q earlier
    /\ Forall (fun g => snd g <= snd latest)%Q later.
Proof.
  destruct (@latest_from_first_greatest rest f [] [] (Forall_nil _) (Forall_nil _))
    as [e' [l' [Heq [He Hl]]]].
  exists (latest_from f rest), e', l'. split; [reflexivity|].
  split; [exact Heq|]. split; assumption.
Qed.

Section ScriptRuns.

Variable C : Type.
Variable outcome : C -> string -> option exn.

Local Open Scope list_scope.

Lemma draw_all_returns (file : string) (cs : list C) :
  (forall c, In c cs -> outcome c file = None) ->
  forall tr, draw_all outcome file cs tr
             = (tr ++ map (fun c => Draw c file) cs, Ok tt).
Proof.
  induction cs as [|c cs IH]; intros Hall tr.
  - simpl. rewrite app_nil_r. reflexivity.
  - simpl. rewrite (Hall c (or_introl eq_refl)).
    rewrite IH by (intros c' Hc'; apply Hall; right; exact Hc').
    rewrite <- app_assoc. reflexivity.
Qed.

Lemma draw_all_raises (file : string) (pre post : list C) (c : C) (e : exn) :
  (forall c', In c' pre -> outcome c' file = None) ->
  outcome c file = Some e ->
  forall tr, draw_all outcome file (pre ++ c :: post) tr
             = (tr ++ map (fun c => Draw c file) pre ++ [Draw c file], Raise e).
Proof.
  induction pre as [|c0 pre IH]; intros Hpre Hc tr.
  - simpl. rewrite Hc. reflexivity.
  - simpl. rewrite (Hpre c0 (or_introl eq_refl)).
    rewrite IH by (try assumption; intros c' Hc'; apply Hpre; right; exact Hc').
    rewrite <- app_assoc. reflexivity.
Qed.

(** X22.  [generate_thesis_charts.py] and [generate_better_charts.py] have no
    [try] block: every chart function is called on the latest experiment
    file, and the first one that raises ends the run with its exception, the
    chart functions after it are not called and the closing lines are not
    printed; without experiment file no chart function is called and the run
    ends normally. *)
Theorem script_main_runs (charts : list C) (experiment_files : list (string * Q)) :
  (latest_experiment experiment_files = None ->
   script_main outcome charts experiment_files = ([NoExperimentFiles], Ok tt))
  /\ (forall latest,
        latest_experiment experiment_files = Some latest ->
        ((forall c, In c charts -> outcome c (fst latest) = None) ->
         script_main outcome charts experiment_files
         = (Using (fst latest) :: map (fun c => Draw c (fst latest)) charts ++ [Generated],
            Ok tt))
        /\ (forall pre post c e,
              charts = pre ++ c :: post ->
              (forall c', In c' pre -> outcome c' (fst latest) = None) ->
              outcome c (fst latest) = Some e ->
              script_main outcome charts experiment_files
              = (Using (fst latest) :: map (fun c => Draw c (fst latest)) pre
                   ++ [Draw c (fst latest)],
                 Raise e))).
Proof.
  unfold script_main. split.
  - intros Hnone. rewrite Hnone. reflexivity.
  - intros latest Hlatest. rewrite Hlatest. split.
    + intros Hall. rewrite (@draw_all_returns (fst latest) charts Hall). reflexivity.
    + intros pre post c e Hsplit Hpre Hc.
      rewrite Hsplit, (@draw_all_raises (fst latest) pre post c e Hpre Hc). reflexivity.
Qed.

End ScriptRuns.

Lemma script_main_runs_witness :
  latest_experiment [("experiment_1.json", 10 # 1); ("experiment_2.json", 20 # 1);
                     ("experiment_3.json", 20 # 1)]
  = Some ("experiment_2.json", 20 # 1)
  /\ thesis_main (fun c _ => match c with
                             | Thesis.create_improvement_chart => Some ZeroDivisionError
                             | _ => None
                             end)
       [("experiment_1.json", 10 # 1); ("experiment_2.json", 20 # 1);
        ("experiment_3.json", 20 # 1)]
     = ([Using "experiment_2.json";
         Draw Thesis.create_comparison_bar_chart "experiment_2.json";
         Draw Thesis.create_improvement_chart "experiment_2.json"],
        Raise ZeroDivisionError)
  /\ better_main (fun _ _ => None)
       [("experiment_1.json", 10 # 1); ("experiment_2.json", 20 # 1);
        ("experiment_3.json", 20 # 1)]
     = ([Using "experiment_2.json";
         Draw Better.create_error_reduction_chart "experiment_2.json";
         Draw Better.create_success_rate_zoomed "experiment_2.json";
         Draw Better.create_combined_metrics_chart "experiment_2.json";
         Generated],
        Ok tt).
Proof.
  split; [reflexivity|]. split.
  - apply (proj2 (proj2 (@script_main_runs Thesis.chart
                           (fun c _ => match c with
                                       | Thesis.create_improvement_chart =>
                                           Some ZeroDivisionError
                                       | _ => None
                                       end)
                           Thesis.charts
                           [("experiment_1.json", 10 # 1); ("experiment_2.json", 20 # 1);
                            ("experiment_3.json", 20 # 1)])
                   ("experiment_2.json", 20 # 1) eq_refl)
             [Thesis.create_comparison_bar_chart] [Thesis.create_summary_table]
             Thesis.create_improvement_chart ZeroDivisionError).
    + reflexivity.
    + intros c' Hin. simpl in Hin. destruct Hin as [Hin|[]]. subst c'. reflexivity.
    + reflexivity.
  - apply (proj1 (proj2 (@script_main_runs Better.chart (fun _ _ => None) Better.charts
                           [("experiment_1.json", 10 # 1); ("experiment_2.json", 20 # 1);
                            ("experiment_3.json", 20 # 1)])
                   ("experiment_2.json", 20 # 1) eq_refl)).
    intros c _. reflexivity.
Defined.

Ltac subscripts :=
  repeat match goal with
         | Hx : subscript _ _ = Ok _ |- _ => rewrite Hx; clear Hx; cbn [bind]
         end.

Section PerScenarioFacts.

Context {F : Type} `{PyFloat F}.

Local Open Scope list_scope.

Lemma error_series_columns (scenarios : scenarios_t F) :
  forall bars,
    error_series scenarios = Ok bars ->
    field_values baseline failedRequests scenarios = Ok (baseline_errors bars)
    /\ field_values selfHealing failedRequests scenarios = Ok (sh_errors bars)
    /\ field_values selfHealingML failedRequests scenarios = Ok (ml_errors bars)
    /\ scenario_names bars
       = map (fun s => title (replace_char underscore newline (fst s))) scenarios.
Proof.
  unfold field_values.
  induction scenarios as [|[name scenario] scenarios IH]; intros bars Hbars;
    simpl in Hbars.
  - inversion Hbars. repeat split.
  - unfold failed_of in Hbars. binds_inv.
    match goal with
    | Hx : error_series scenarios = Ok _ |- _ =>
        destruct (IH _ Hx) as [Hb [Hsh [Hml Hnames]]]
    end.
    cbn [mapM snd fst map scenario_names baseline_errors sh_errors ml_errors].
    rewrite Hb, Hsh, Hml, Hnames. subscripts. repeat split.
Qed.

Lemma columns_error_series (scenarios : scenarios_t F) :
  forall bs shs mls,
    field_values baseline failedRequests scenarios = Ok bs ->
    field_values selfHealing failedRequests scenarios = Ok shs ->
    field_values selfHealingML failedRequests scenarios = Ok mls ->
    exists bars, error_series scenarios = Ok bars.
Proof.
  unfold field_values.
  induction scenarios as [|[name scenario] scenarios IH]; intros bs shs mls Hb Hsh Hml;
    simpl in Hb, Hsh, Hml.
  - eexists. reflexivity.
  - apply bind_ok in Hb. destruct Hb as [b [Hb Hbs]].
    apply bind_ok in Hbs. destruct Hbs as [bs' [Hbs _]].
    apply bind_ok in Hsh. destruct Hsh as [sh [Hsh Hshs]].
    apply bind_ok in Hshs. destruct Hshs as [shs' [Hshs _]].
    apply bind_ok in Hml. destruct Hml as [ml [Hml Hmls]].
    apply bind_ok in Hmls. destruct Hmls as [mls' [Hmls _]].
    destruct (IH _ _ _ Hbs Hshs Hmls) as [bars Hbars].
    cbn [error_series]. unfold failed_of.
    rewrite Hb. cbn [bind]. rewrite Hsh. cbn [bind]. rewrite Hml. cbn [bind].
    rewrite Hbars. cbn [bind]. eexists. reflexivity.
Qed.

Lemma columns_rate_series (scenarios : scenarios_t F) :
  forall bs shs mls,
    field_values baseline successRate scenarios = Ok bs ->
    field_values selfHealing successRate scenarios = Ok shs ->
    field_values selfHealingML successRate scenarios = Ok mls ->
    exists bars,
      rate_series scenarios = Ok bars
      /\ baseline_sr bars = map (fun x => fmul x (of_int 100)) bs
      /\ sh_sr bars = map (fun x => fmul x (of_int 100)) shs
      /\ ml_sr bars = map (fun x => fmul x (of_int 100)) mls.
Proof.
  unfold field_values.
  induction scenarios as [|[name scenario] scenarios IH]; intros bs shs mls Hb Hsh Hml;
    simpl in Hb, Hsh, Hml.
  - inversion Hb. inversion Hsh. inversion Hml. eexists. repeat split.
  - apply bind_ok in Hb. destruct Hb as [b [Hb Hbs]].
    apply bind_ok in Hbs. destruct Hbs as [bs' [Hbs Hb']].
    apply bind_ok in Hsh. destruct Hsh as [sh [Hsh Hshs]].
    apply bind_ok in Hshs. destruct Hshs as [shs' [Hshs Hsh']].
    apply bind_ok in Hml. destruct Hml as [ml [Hml Hmls]].
    apply bind_ok in Hmls. destruct Hmls as [mls' [Hmls Hml']].
    inversion Hb'; subst bs. inversion Hsh'; subst shs. inversion Hml'; subst mls.
    destruct (IH _ _ _ Hbs Hshs Hmls) as [bars [Hbars [Hbsr [Hshsr Hmlsr]]]].
    apply bind_ok in Hb. destruct Hb as [vb [Hvb Hb]].
    apply bind_ok in Hsh. destruct Hsh as [vsh [Hvsh Hsh]].
    apply bind_ok in Hml. destruct Hml as [vml [Hvml Hml]].
    cbn [rate_series]. unfold success_percent. cbn [snd] in *.
    rewrite Hvb. cbn [bind]. rewrite Hb. cbn [bind].
    rewrite Hvsh. cbn [bind]. rewrite Hsh. cbn [bind].
    rewrite Hvml. cbn [bind]. rewrite Hml. cbn [bind].
    rewrite Hbars. cbn [bind].
    eexists. split; [reflexivity|]. cbn [baseline_sr sh_sr ml_sr map].
    rewrite Hbsr, Hshsr, Hmlsr. repeat split.
Qed.

(** X23.  When [create_error_reduction_chart] returns, its label list and its
    three bar series have one entry per scenario, in the order of the file,
    and the bars of each series add up to the total that
    [create_improvement_chart], [create_summary_table] and
    [create_combined_metrics_chart] compute for that variant. *)
Theorem error_bars_sum_to_totals (data : Experiment.t F) (bars : error_bars) :
  create_error_reduction_chart data = Ok bars ->
  exists scenarios,
    scenarios_of data = Ok scenarios
    /\ scenario_names bars
       = map (fun s => title (replace_char underscore newline (fst s))) scenarios
    /\ List.length (baseline_errors bars) = List.length scenarios
    /\ List.length (sh_errors bars) = List.length scenarios
    /\ List.length (ml_errors bars) = List.length scenarios
    /\ sum_reduce baseline failedRequests scenarios = Ok (py_sum (baseline_errors bars))
    /\ sum_reduce selfHealing failedRequests scenarios = Ok (py_sum (sh_errors bars))
    /\ sum_reduce selfHealingML failedRequests scenarios = Ok (py_sum (ml_errors bars)).
Proof.
  unfold create_error_reduction_chart. intros Hbars.
  apply bind_ok in Hbars. destruct Hbars as [scenarios [Hdata Hbars]].
  exists scenarios. split; [exact Hdata|].
  destruct (@error_series_columns scenarios bars Hbars) as [Hb [Hsh [Hml Hnames]]].
  split; [exact Hnames|].
  split; [exact (@mapM_length _ _ _ _ _ Hb)|].
  split; [exact (@mapM_length _ _ _ _ _ Hsh)|].
  split; [exact (@mapM_length _ _ _ _ _ Hml)|].
  unfold sum_reduce. rewrite Hb, Hsh, Hml. repeat split.
Qed.

(** X24.  [create_combined_metrics_chart] reads every key that
    [create_error_reduction_chart] and [create_success_rate_zoomed] read: on
    data where it returns, the two per-scenario charts return as well, with
    one bar per scenario in each series, and its three error bars are the
    sums of the per-scenario error bars. *)
Theorem combined_metrics_covers_per_scenario (data : Experiment.t F)
  (m : combined_metrics) :
  create_combined_metrics_chart data = Ok m ->
  exists ebars rbars scenarios,
    scenarios_of data = Ok scenarios
    /\ create_error_reduction_chart data = Ok ebars
    /\ create_success_rate_zoomed data = Ok rbars
    /\ errors m = [py_sum (baseline_errors ebars); py_sum (sh_errors ebars);
                   py_sum (ml_errors ebars)]
    /\ List.length (baseline_sr rbars) = List.length scenarios
    /\ List.length (sh_sr rbars) = List.length scenarios
    /\ List.length (ml_sr rbars) = List.length scenarios.
Proof.
  unfold create_combined_metrics_chart, create_error_reduction_chart,
    create_success_rate_zoomed.
  intros Hm. apply bind_ok in Hm. destruct Hm as [scenarios [Hdata Hm]].
  rewrite Hdata. cbn [bind]. unfold sum_reduce, mean_reduce in Hm.
  destruct (field_values baseline failedRequests scenarios) as [eb|] eqn:Heb;
    [|discriminate].
  destruct (field_values selfHealing failedRequests scenarios) as [esh|] eqn:Hesh;
    [|discriminate].
  destruct (field_values selfHealingML failedRequests scenarios) as [eml|] eqn:Heml;
    [|discriminate].
  destruct (field_values baseline successRate scenarios) as [rb|] eqn:Hrb;
    [|discriminate].
  destruct (field_values selfHealing successRate scenarios) as [rsh|] eqn:Hrsh;
    [|discriminate].
  destruct (field_values selfHealingML successRate scenarios) as [rml|] eqn:Hrml;
    [|discriminate].
  cbn [bind] in Hm.
  destruct (@columns_error_series scenarios eb esh eml Heb Hesh Heml) as [ebars Hebars].
  destruct (@columns_rate_series scenarios rb rsh rml Hrb Hrsh Hrml)
    as [rbars [Hrbars [Hbsr [Hshsr Hmlsr]]]].
  destruct (@error_series_columns scenarios ebars Hebars) as [Hb [Hsh [Hml _]]].
  rewrite Heb in Hb. rewrite Hesh in Hsh. rewrite Heml in Hml.
  inversion Hb; subst eb. inversion Hsh; subst esh. inversion Hml; subst eml.
  exists ebars, rbars, scenarios.
  split; [reflexivity|]. split; [exact Hebars|]. split; [exact Hrbars|].
  split.
  - binds_inv. reflexivity.
  - rewrite Hbsr, Hshsr, Hmlsr, !length_map.
    rewrite (@mapM_length _ _ _ _ _ Hrb), (@mapM_length _ _ _ _ _ Hrsh),
      (@mapM_length _ _ _ _ _ Hrml).
    repeat split.
Qed.

End PerScenarioFacts.

Lemma error_bars_sum_to_totals_witness :
  exists bars,
    create_error_reduction_chart (Experiment.make (Some (tied_totals (F := Q)))) = Ok bars
    /\ baseline_errors bars = [10; 10; 10]
    /\ exists scenarios,
         scenarios_of (Experiment.make (Some (tied_totals (F := Q)))) = Ok scenarios
         /\ scenario_names bars
            = map (fun s => title (replace_char underscore newline (fst s))) scenarios
         /\ List.length (baseline_errors bars) = List.length scenarios
         /\ List.length (sh_errors bars) = List.length scenarios
         /\ List.length (ml_errors bars) = List.length scenarios
         /\ sum_reduce baseline failedRequests scenarios
            = Ok (py_sum (baseline_errors bars))
         /\ sum_reduce selfHealing failedRequests scenarios = Ok (py_sum (sh_errors bars))
         /\ sum_reduce selfHealingML failedRequests scenarios
            = Ok (py_sum (ml_errors bars)).
Proof.
  eexists. split; [reflexivity|]. split; [reflexivity|].
  apply (@error_bars_sum_to_totals Q (Experiment.make (Some tied_totals))).
  reflexivity.
Defined.

Lemma combined_metrics_covers_per_scenario_witness :
  exists m,
    create_combined_metrics_chart (Experiment.make (Some (tied_totals (F := Q)))) = Ok m
    /\ errors m = [30; 15; 15]
    /\ exists ebars rbars scenarios,
         scenarios_of (Experiment.make (Some (tied_totals (F := Q)))) = Ok scenarios
         /\ create_error_reduction_chart (Experiment.make (Some (tied_totals (F := Q))))
            = Ok ebars
         /\ create_success_rate_zoomed (Experiment.make (Some (tied_totals (F := Q))))
            = Ok rbars
         /\ errors m = [py_sum (baseline_errors ebars); py_sum (sh_errors ebars);
                        py_sum (ml_errors ebars)]
         /\ List.length (baseline_sr rbars) = List.length scenarios
         /\ List.length (sh_sr rbars) = List.length scenarios
         /\ List.length (ml_sr rbars) = List.length scenarios.
Proof.
  eexists. split; [reflexivity|]. split; [reflexivity|].
  apply (@combined_metrics_covers_per_scenario Q exact
           (Experiment.make (Some tied_totals))).
  reflexivity.
Defined.
